(** * Credential registry dApp: the contract context and the certificate search

    A shallow embedding of [src/contexts/ContractContext.tsx] (the React
    context that wraps the UserRegistry and CertificateNFT contracts and the
    IPFS gateways) and of the [handleSearch] handler of the certificate
    search component.

    Every [async] function of the source becomes a computation in a state
    and exception monad.  The state holds the ledger (what the contracts'
    read methods answer), the trace of outward effects in the order the code
    issues them (HTTP GETs, uploads, submitted transactions) and the React
    state of the context.  What lies outside the source -- the wallet, the
    two contracts, the HTTP gateways, the upload helpers of [utils/ipfs] --
    is a field of the environment and may answer or throw. *)

From Stdlib Require Import String Ascii List Bool Arith Lia NArith DecimalString Sorted.
Import ListNotations.
Open Scope string_scope.

Set Implicit Arguments.
Set Warnings "-register-all".

(** ** JavaScript values *)

(** [String.prototype.toLowerCase].  The source only ever compares two
    lowered strings, so the case folding is left abstract: every theorem
    holds for any folding function. *)
Class CaseFold := toLowerCase : string -> string.

(** [!s] for a [string] *)
Definition emptyString (s : string) : bool :=
  match s with EmptyString => true | _ => false end.

(** [!v] for a [string | null] (also [undefined]) *)
Definition falsy (v : option string) : bool :=
  match v with None => true | Some s => emptyString s end.

(** What [response.json()] can deliver: a parsed JSON document, an object
    holding each of its keys once. [JNull] is also the [null] the source
    assigns to a missing metadata. *)
Inductive JsValue :=
| JNull
| JBool (b : bool)
| JNumber (literal : string)
| JString (s : string)
| JArray (items : list JsValue)
| JObject (props : list (string * JsValue)).

(** Property read [v.key]; [None] is [undefined]. JSON documents carry no
    inherited property of the names the source reads. *)
Fixpoint assoc (key : string) (props : list (string * JsValue)) : option JsValue :=
  match props with
  | [] => None
  | (k, v) :: rest => if String.eqb k key then Some v else assoc key rest
  end.

Definition getProp (v : JsValue) (key : string) : option JsValue :=
  match v with
  | JObject props => assoc key props
  | _ => None
  end.

(** [s.replace(pat, rep)] with a string pattern: the first occurrence only. *)
Fixpoint replace (pat rep s : string) : string :=
  match String.prefix pat s, s with
  | true, _ => rep ++ String.substring (String.length pat) (String.length s - String.length pat) s
  | false, EmptyString => EmptyString
  | false, String c rest => String c (replace pat rep rest)
  end.

(** [id.toString()] of a [bigint] token id *)
Definition toString (n : N) : string := NilZero.string_of_uint (N.to_uint n).

(** [Number(n)] of a [bigint]: the nearest double, a tie going to the even
    significand.  A double keeps 53 significant bits, so the result is [n]
    itself while [n] has at most 53 bits and a multiple of a power of two
    above.  A [uint256] is below 2^1024, so its double is finite and is an
    integer: it is represented by that integer. *)
Definition Number (n : N) : N :=
  let size := N.size n in
  if (size <=? 53)%N then n else
  let shift := (size - 53)%N in
  let significand := N.shiftr n shift in
  let rest := N.land n (N.ones shift) in
  let half := N.shiftl 1 (shift - 1) in
  let roundUp := ((half <? rest) || ((rest =? half) && N.odd significand))%N%bool in
  N.shiftl (if roundUp then significand + 1 else significand)%N shift.

(** ** Exceptions and results *)

Inductive JsError := Error (message : string).

Inductive Result (A : Type) :=
| Ok (a : A)
| Throw (e : JsError).
Arguments Ok {A} a.
Arguments Throw {A} e.

(** The classified errors of the specification, as the source words them. *)
Definition WalletNotConnected := Error "Wallet not connected".
Definition NotOwner := Error "You are not the contract owner".

(** ** The ledger *)

Record RegisteredUser := {
  address : string;
  role : string;
  metadataHash : string
}.

(** [{ ...provider, isAuthorized }]: the objects the two provider listings
    build and return. *)
Record ProviderStatus := {
  user : RegisteredUser;
  isAuthorized : bool
}.

Record CertificateRequest := {
  id : nat;
  student : string;
  name : string;
  message : string;
  studentMetadataHash : string;
  approved : bool;
  institute : string
}.

(** The struct [certificateRequests(id)] returns: the request without its id. *)
Record RequestStruct := {
  req_student : string;
  req_institute : string;
  req_name : string;
  req_message : string;
  req_studentMetadataHash : string;
  req_approved : bool
}.

(** [getCertificateDetails(id)]: name, institute, issueDate, certificateType, student *)
Record CertificateDetails := {
  det_name : string;
  det_institute : string;
  det_issueDate : N;
  det_certificateType : string;
  det_student : string
}.

Record Certificate := {
  cert_id : string;
  cert_name : string;
  cert_institute : string;
  cert_issueDate : N;
  cert_certificateType : string;
  cert_student : string;
  cert_tokenURI : string;
  cert_metadata : JsValue
}.

(** The read methods of the two contracts; each call answers or throws. *)
Record Ledger := {
  (* UserRegistry *)
  getAllUsers : Result (list string);
  getUser : string -> Result (string * string);
  isUserRegistered : string -> Result bool;
  (* CertificateNFT *)
  owner : Result string;
  authorizedInstitutes : string -> Result bool;
  requestCounter : Result nat;
  certificateRequests : nat -> Result RequestStruct;
  getStudentCertificates : string -> Result (list N);
  getCertificateDetails : N -> Result CertificateDetails;
  tokenURI : N -> Result string
}.

(** The write methods, as submitted transactions. *)
Inductive Tx :=
| registerUserTx (role cid : string)
| authorizeInstituteTx (instituteAddress : string)
| revokeInstituteTx (instituteAddress : string)
| requestCertificateTx (providerAddress certificateName message studentMetadataHash : string)
| approveCertificateRequestTx (requestId : nat) (certificateType tokenURI institutionName : string)
| cancelCertificateRequestTx (requestId : nat).

(** ** Content store *)

Record Response := {
  ok : bool;
  json : Result JsValue
}.

Definition File := string.

(** The metadata object [registerUser] builds, one shape per role;
    [documentCid] is [docResponse.cid], which may be [undefined]. *)
Inductive Metadata :=
| StudentMd (name email studentId : string)
| ProviderMd (institutionName accreditationNumber : string) (documentCid : option string).

(** What the upload helpers resolve to: an object whose [cid] may be missing. *)
Record UploadResponse := { cid : option string }.

(** ** Effects *)

Inductive Event :=
| EvFetch (url : string)
| EvUploadFile (document : File)
| EvUploadJSON (metadata : Metadata)
| EvSend (tx : Tx).

Record UserData := {
  ud_role : string;
  ud_registered : bool
}.

Record State := {
  ledger : Ledger;
  trace : list Event;
  userData : option UserData;
  loading : bool
}.

Record BrowserProvider := { getSigner : Result unit }.

(** What the component closes over and what it reaches outside itself. *)
Record Env := {
  provider : option BrowserProvider;
  account : option string;
  userRegistryAddress : string;
  certificateNFTAddress : string;
  (* HTTP GET *)
  fetch : string -> Result Response;
  (* utils/ipfs *)
  uploadFileToIPFS : File -> Result UploadResponse;
  uploadJSONToIPFS : Metadata -> Result UploadResponse;
  (* a contract write followed by [tx.wait()]: the ledger after it, or the rejection *)
  chain : Tx -> Ledger -> Result Ledger;
  (* ethers.isAddress *)
  isAddress : string -> bool
}.

(** ** The monad of asynchronous computations *)

Definition M (A : Type) := State -> Result A * State.

Definition ret {A} (a : A) : M A := fun s => (Ok a, s).

Definition throw {A} (e : JsError) : M A := fun s => (Throw e, s).

Definition bind {A B} (m : M A) (k : A -> M B) : M B :=
  fun s => match m s with
           | (Ok a, s') => k a s'
           | (Throw e, s') => (Throw e, s')
           end.

(** [try { m } catch (e) { h e }]: what [m] did before it threw stays done. *)
Definition try_catch {A} (m : M A) (h : JsError -> M A) : M A :=
  fun s => match m s with
           | (Ok a, s') => (Ok a, s')
           | (Throw e, s') => h e s'
           end.

(** [try { m } finally { f }] *)
Definition try_finally {A} (m : M A) (f : M unit) : M A :=
  fun s => match m s with
           | (r, s') => match f s' with
                        | (Ok _, s'') => (r, s'')
                        | (Throw e, s'') => (Throw e, s'')
                        end
           end.

Declare Scope js_scope.
Delimit Scope js_scope with js.
Notation "x <- m ;; k" := (bind m (fun x => k))
  (at level 61, m at next level, right associativity) : js_scope.
Notation "' pat <- m ;; k" := (bind m (fun x => match x with pat => k end))
  (at level 61, pat pattern, m at next level, right associativity) : js_scope.
Notation "m ;; k" := (bind m (fun _ => k))
  (at level 61, right associativity) : js_scope.
Open Scope js_scope.

(** [await] of something the environment answers *)
Definition await {A} (r : Result A) : M A := fun s => (r, s).

(** a contract read *)
Definition call {A} (read : Ledger -> Result A) : M A := fun s => (read (ledger s), s).

Definition emit (ev : Event) : M unit :=
  fun s => (Ok tt, {| ledger := ledger s; trace := trace s ++ [ev];
                      userData := userData s; loading := loading s |}).

Definition setLedger (l : Ledger) : M unit :=
  fun s => (Ok tt, {| ledger := l; trace := trace s;
                      userData := userData s; loading := loading s |}).

Definition setUserData (u : option UserData) : M unit :=
  fun s => (Ok tt, {| ledger := ledger s; trace := trace s;
                      userData := u; loading := loading s |}).

Definition setLoading (b : bool) : M unit :=
  fun s => (Ok tt, {| ledger := ledger s; trace := trace s;
                      userData := userData s; loading := b |}).

(** [const tx = await contract.method(...); await tx.wait()]: the
    transaction is submitted, then the ledger moves or the call throws. *)
Definition send (env : Env) (tx : Tx) : M unit :=
  emit (EvSend tx) ;;
  l <- call (chain env tx) ;;
  setLedger l.

(** [await fetch(url)] *)
Definition httpGet (env : Env) (url : string) : M Response :=
  emit (EvFetch url) ;;
  await (fetch env url).

(** [Promise.all(items.map(async item => ...))]: every element computation
    is started and runs to its end; the whole resolves to the list of
    results in the order of the items, or rejects if one element rejected.
    The source starts the elements together and they interleave at each
    [await]; here they run one after the other, in the order of the items.
    The list of results does not depend on the schedule; the order of the
    events of different elements, and which error is reported when several
    elements reject, are those of this one schedule only. *)
Fixpoint promise_all {A} (ps : list (M A)) : M (list A) :=
  fun s => match ps with
           | [] => (Ok [], s)
           | p :: rest =>
               match p s with
               | (r, s1) =>
                   match promise_all rest s1 with
                   | (rs, s2) =>
                       (match r, rs with
                        | Throw e, _ => Throw e
                        | Ok _, Throw e => Throw e
                        | Ok a, Ok l => Ok (a :: l)
                        end, s2)
                   end
               end
           end.

(** ** ContractContext.tsx *)

Section ContractContext.

Context {CF : CaseFold}.
Variable env : Env.

(** [!provider || !account] *)
Definition walletMissing : bool :=
  match provider env with None => true | Some _ => falsy (account env) end.

Definition pinata (hash : string) : string := "https://gateway.pinata.cloud/ipfs/" ++ hash.
Definition ipfs_io (hash : string) : string := "https://ipfs.io/ipfs/" ++ hash.

(** A contract instance: only its target address matters here. *)
Record Contract := { target : string }.

Definition getContract (p : option BrowserProvider) : option Contract :=
  match p with
  | None => None
  | Some _ => if emptyString (userRegistryAddress env) then None
              else Some {| target := userRegistryAddress env |}
  end.

Definition getCertificateContract (p : option BrowserProvider) : option Contract :=
  match p with
  | None => None
  | Some _ => if emptyString (certificateNFTAddress env) then None
              else Some {| target := certificateNFTAddress env |}
  end.

(** The account as a string where the source dereferences it after [!account]
    was excluded. *)
Definition accountString : string :=
  match account env with Some a => a | None => "" end.

Definition revokeInstitute (instituteAddress : string) : M unit :=
  match provider env with
  | None => throw WalletNotConnected
  | Some p =>
      if falsy (account env) then throw WalletNotConnected else
      await (getSigner p) ;;
      owner <- call owner ;;
      if negb (String.eqb (toLowerCase owner) (toLowerCase accountString))
      then throw NotOwner
      else send env (revokeInstituteTx instituteAddress)
  end.

Definition authorizeInstitute (instituteAddress : string) : M unit :=
  match provider env with
  | None => throw WalletNotConnected
  | Some p =>
      if falsy (account env) then throw WalletNotConnected else
      await (getSigner p) ;;
      owner <- call owner ;;
      if negb (String.eqb (toLowerCase owner) (toLowerCase accountString))
      then throw NotOwner
      else send env (authorizeInstituteTx instituteAddress)
  end.

Definition checkIsOwner (address : string) : M bool :=
  match provider env with
  | None => ret false
  | Some _ =>
      match getCertificateContract (provider env) with
      | None => ret false
      | Some _ =>
          try_catch
            (owner <- call owner ;;
             ret (String.eqb (toLowerCase owner) (toLowerCase address)))
            (fun _ => ret false)
      end
  end.

(** [user.role.toLowerCase() === 'provider'] *)
Definition isProvider (user : RegisteredUser) : bool :=
  String.eqb (toLowerCase (role user)) "provider".

(** [user.role.toLowerCase() === 'student'] *)
Definition isStudent (user : RegisteredUser) : bool :=
  String.eqb (toLowerCase (role user)) "student".

Definition getAllRegisteredUsers : M (list RegisteredUser) :=
  match provider env with
  | None => throw (Error "Provider not available")
  | Some _ =>
      match getContract (provider env) with
      | None => throw (Error "User Registry contract not initialized")
      | Some _ =>
          addresses <- call getAllUsers ;;
          promise_all
            (map (fun address =>
                    '(role, metadataHash) <- call (fun l => getUser l address) ;;
                    ret {| address := address; role := role; metadataHash := metadataHash |})
                 addresses)
      end
  end.

(** [providers.map(async provider => ({ ...provider, isAuthorized }))] *)
Definition withAuthorization (providers : list RegisteredUser) : M (list ProviderStatus) :=
  promise_all
    (map (fun provider =>
            isAuthorized <- call (fun l => authorizedInstitutes l (address provider)) ;;
            ret {| user := provider; isAuthorized := isAuthorized |})
         providers).

Definition fetchAuthorizedProviders : M (list ProviderStatus) :=
  match provider env with
  | None => ret []
  | Some _ =>
      allUsers <- getAllRegisteredUsers ;;
      let providers := filter isProvider allUsers in
      match getCertificateContract (provider env) with
      | None => ret []
      | Some _ =>
          authorizedProviders <- withAuthorization providers ;;
          ret (filter isAuthorized authorizedProviders)
      end
  end.

Definition fetchPendingProviders : M (list ProviderStatus) :=
  match provider env with
  | None => ret []
  | Some _ =>
      allUsers <- getAllRegisteredUsers ;;
      let providers := filter isProvider allUsers in
      match getCertificateContract (provider env) with
      | None => ret []
      | Some _ =>
          pendingProviders <- withAuthorization providers ;;
          ret (filter (fun provider => negb (isAuthorized provider)) pendingProviders)
      end
  end.

Definition getRegisteredUser (address : string) : M RegisteredUser :=
  match provider env with
  | None => throw (Error "Provider not available")
  | Some _ =>
      match getContract (provider env) with
      | None => throw (Error "User Registry contract not initialized")
      | Some _ =>
          '(role, metadataHash) <- call (fun l => getUser l address) ;;
          ret {| address := address; role := role; metadataHash := metadataHash |}
      end
  end.

(** The two-gateway read that four functions of the context repeat:
    Pinata, then ipfs.io, each with its [response.ok] test; [None] when both
    attempts threw. *)
Definition fromGateway (url : string) (failure : string) : M JsValue :=
  response <- httpGet env url ;;
  if negb (ok response) then throw (Error failure)
  else await (json response).

Definition fetchStudentMetadata (studentAddress metadataHash : string) : M JsValue :=
  if emptyString metadataHash then ret JNull else
  try_catch
    (fromGateway (pinata metadataHash) "Pinata fetch failed")
    (fun _ =>
       try_catch
         (fromGateway (ipfs_io metadataHash) "IPFS.io fetch failed")
         (fun _ => ret JNull)).

Definition fetchProviderMetadata (address : string) : M JsValue :=
  match provider env with
  | None => ret JNull
  | Some p =>
      await (getSigner p) ;;
      '(_, metadataHash) <- call (fun l => getUser l address) ;;
      if emptyString metadataHash then ret JNull else
      try_catch
        (fromGateway (pinata metadataHash) "Pinata fetch failed")
        (fun _ =>
           try_catch
             (fromGateway (ipfs_io metadataHash) "ipfs.io fetch failed")
             (fun _ => ret JNull))
  end.

(** [metadata?.studentId?.toLowerCase() === studentId.toLowerCase()].
    The optional chain yields [undefined] for a [null] metadata and for a
    missing or [null] field, and [undefined] never equals a string; a field
    that is not a string has no [toLowerCase], and calling it throws. *)
Definition studentIdMatches (metadata : JsValue) (studentId : string) : Result bool :=
  match metadata with
  | JNull => Ok false
  | _ =>
      match getProp metadata "studentId" with
      | None => Ok false
      | Some JNull => Ok false
      | Some (JString s) => Ok (String.eqb (toLowerCase s) (toLowerCase studentId))
      | Some _ => Throw (Error "metadata.studentId.toLowerCase is not a function")
      end
  end.

(** The body of [for (const student of students)]: [Some] is the [return]
    out of the loop, [None] goes on with the next student. *)
Definition examineStudent (studentId : string) (student : RegisteredUser)
  : M (option (string * JsValue)) :=
  try_catch
    (metadata <- fetchStudentMetadata (address student) (metadataHash student) ;;
     same <- await (studentIdMatches metadata studentId) ;;
     if same then ret (Some (address student, metadata)) else ret None)
    (fun _ => ret None).

Fixpoint scanStudents (studentId : string) (students : list RegisteredUser)
  : M (option (string * JsValue)) :=
  match students with
  | [] => ret None
  | student :: rest =>
      found <- examineStudent studentId student ;;
      match found with
      | Some hit => ret (Some hit)
      | None => scanStudents studentId rest
      end
  end.

Definition getStudentByStudentId (studentId : string) : M (option (string * JsValue)) :=
  match provider env with
  | None => ret None
  | Some _ =>
      try_catch
        (allUsers <- getAllRegisteredUsers ;;
         let students := filter isStudent allUsers in
         scanStudents studentId students)
        (fun _ => ret None)
  end.

Definition fetchUserData : M unit :=
  match account env, provider env with
  | Some a, Some _ =>
      if emptyString a then ret tt else
      setLoading true ;;
      try_finally
        (try_catch
           (match getContract (provider env) with
            | None => throw (Error "User Registry contract not initialized")
            | Some _ =>
                '(role, _) <- call (fun l => getUser l a) ;;
                registered <- call (fun l => isUserRegistered l a) ;;
                setUserData (Some {| ud_role := toLowerCase role; ud_registered := registered |})
            end)
           (fun _ => setUserData None))
        (setLoading false)
  | _, _ => ret tt
  end.

Inductive Role := student_role | provider_role.

(** The role as the string literal passed to the contract *)
Definition roleString (r : Role) : string :=
  match r with student_role => "student" | provider_role => "provider" end.

Record StudentData := {
  sd_name : string;
  sd_email : string;
  sd_studentId : string
}.

Record ProviderData := {
  pd_institutionName : string;
  pd_accreditationNumber : string;
  pd_document : File
}.

(** [let metadata: any] and the [if (role === 'student') ... else ...]
    that assigns it; the provider branch uploads the document first. *)
Definition buildMetadata (role : Role) (studentData : option StudentData)
    (providerData : option ProviderData) : M Metadata :=
  match role with
  | student_role =>
      match studentData with
      | None => throw (Error "Missing student data")
      | Some sd => ret (StudentMd (sd_name sd) (sd_email sd) (sd_studentId sd))
      end
  | provider_role =>
      match providerData with
      | None => throw (Error "Missing provider data")
      | Some pd =>
          emit (EvUploadFile (pd_document pd)) ;;
          docResponse <- await (uploadFileToIPFS env (pd_document pd)) ;;
          ret (ProviderMd (pd_institutionName pd) (pd_accreditationNumber pd) (cid docResponse))
      end
  end.

Definition registerUser (role : Role) (studentData : option StudentData)
    (providerData : option ProviderData) : M unit :=
  match provider env with
  | None => throw (Error "Please connect your wallet first")
  | Some p =>
      if falsy (account env) then throw (Error "Please connect your wallet first") else
      if emptyString (userRegistryAddress env) then throw (Error "Contract address not configured") else
      await (getSigner p) ;;
      metadata <- buildMetadata role studentData providerData ;;
      emit (EvUploadJSON metadata) ;;
      uploaded <- await (uploadJSONToIPFS env metadata) ;;
      match cid uploaded with
      | None => throw (Error "Failed to upload metadata to IPFS")
      | Some cid =>
          if emptyString cid then throw (Error "Failed to upload metadata to IPFS") else
          send env (registerUserTx (roleString role) cid) ;;
          fetchUserData
      end
  end.

(** The metadata of one certificate in [getCertificatesByAddress]:
    [let metadata = null] and the nested [try]/[catch] that may assign it. *)
Definition certificateMetadata (tokenURI : string) : M JsValue :=
  let metadataHash := replace "ipfs://" "" tokenURI in
  try_catch
    (fromGateway (pinata metadataHash) "Pinata fetch failed")
    (fun _ =>
       try_catch
         (fromGateway (ipfs_io metadataHash) "ipfs.io fetch failed")
         (fun _ => ret JNull)).

Definition mkCertificate (id : N) (d : CertificateDetails) (tokenURI : string)
    (metadata : JsValue) : Certificate :=
  {| cert_id := toString id;
     cert_name := det_name d;
     cert_institute := det_institute d;
     cert_issueDate := Number (det_issueDate d);
     cert_certificateType := det_certificateType d;
     cert_student := det_student d;
     cert_tokenURI := tokenURI;
     cert_metadata := metadata |}.

Definition loadCertificate (id : N) : M Certificate :=
  details <- call (fun l => getCertificateDetails l id) ;;
  tokenURI <- call (fun l => tokenURI l id) ;;
  metadata <- certificateMetadata tokenURI ;;
  ret (mkCertificate id details tokenURI metadata).

Definition getCertificatesByAddress (searchAddress : string) : M (list Certificate) :=
  match provider env with
  | None => throw (Error "Provider not available")
  | Some _ =>
      match getCertificateContract (provider env) with
      | None => throw (Error "CertificateNFT contract not initialized")
      | Some _ =>
          certificateIds <- call (fun l => getStudentCertificates l searchAddress) ;;
          promise_all (map loadCertificate certificateIds)
      end
  end.

(** One element of [requestPromises]: the request when it is a pending one
    of the active account, [None] for the [undefined] of a request that is
    not, and for the [null] of a fetch that threw. *)
Definition loadRequest (requestId : nat) : M (option CertificateRequest) :=
  try_catch
    (req <- call (fun l => certificateRequests l requestId) ;;
     if String.eqb (toLowerCase (req_institute req)) (toLowerCase accountString)
        && negb (req_approved req)
     then ret (Some {| id := requestId;
                       student := req_student req;
                       institute := req_institute req;
                       name := req_name req;
                       message := req_message req;
                       studentMetadataHash := req_studentMetadataHash req;
                       approved := req_approved req |})
     else ret None)
    (fun _ => ret None).

(** [results.filter(Boolean)] *)
Fixpoint filterBoolean {A} (results : list (option A)) : list A :=
  match results with
  | [] => []
  | Some a :: rest => a :: filterBoolean rest
  | None :: rest => filterBoolean rest
  end.

Definition fetchProviderCertificateRequests : M (list CertificateRequest) :=
  match provider env with
  | None => ret []
  | Some p =>
      if falsy (account env) then ret [] else
      try_catch
        (await (getSigner p) ;;
         requestCount <- call requestCounter ;;
         results <- promise_all (map loadRequest (seq 1 requestCount)) ;;
         ret (filterBoolean results))
        (fun _ => ret [])
  end.

Definition approveCertificateRequest (requestId : nat)
    (certificateType tokenURI institutionName : string) : M unit :=
  match provider env with
  | None => throw WalletNotConnected
  | Some p =>
      if falsy (account env) then throw WalletNotConnected else
      await (getSigner p) ;;
      send env (approveCertificateRequestTx requestId certificateType tokenURI institutionName)
  end.

Definition cancelCertificateRequest (requestId : nat) : M unit :=
  match provider env with
  | None => throw WalletNotConnected
  | Some p =>
      if falsy (account env) then throw WalletNotConnected else
      await (getSigner p) ;;
      send env (cancelCertificateRequestTx requestId)
  end.

Definition checkInstituteAuthorization (address : string) : M bool :=
  match provider env with
  | None => ret false
  | Some p =>
      await (getSigner p) ;;
      call (fun l => authorizedInstitutes l address)
  end.

Definition fetchStudentProfile (address : string) : M JsValue :=
  match provider env with
  | None => ret JNull
  | Some _ =>
      try_catch
        (match getContract (provider env) with
         | None => throw (Error "User Registry contract not initialized")
         | Some _ =>
             '(_, ipfsHash) <- call (fun l => getUser l address) ;;
             if emptyString ipfsHash then ret JNull else
             first <- httpGet env (pinata ipfsHash) ;;
             response <-
               (if negb (ok first) then
                  second <- httpGet env (ipfs_io ipfsHash) ;;
                  if negb (ok second)
                  then throw (Error "Both gateways failed to fetch profile metadata")
                  else ret second
                else ret first) ;;
             await (json response)
         end)
        (fun _ => ret JNull)
  end.

Definition requestCertificateIssuance (providerAddress certificateName message : string)
  : M unit :=
  match provider env with
  | None => throw WalletNotConnected
  | Some p =>
      if falsy (account env) then throw WalletNotConnected else
      if emptyString (certificateNFTAddress env)
      then throw (Error "CertificateNFT contract address not set") else
      await (getSigner p) ;;
      match getContract (provider env) with
      | None => throw (Error "User Registry contract not initialized")
      | Some _ =>
          '(_, studentMetadataHash) <- call (fun l => getUser l accountString) ;;
          send env (requestCertificateTx providerAddress certificateName message
                      studentMetadataHash)
      end
  end.

End ContractContext.

(** ** CertificateSearch: [handleSearch] *)

Section CertificateSearch.

Variable env : Env.

(** The component's React state *)
Record SearchView := {
  certificates : list Certificate;
  isLoading : bool;
  error : string
}.

(** One certificate of the search: a single GET to ipfs.io, whose body is
    parsed whatever the status was. *)
Definition searchMetadata (tokenURI : string) : M JsValue :=
  try_catch
    (let metadataHash := replace "ipfs://" "" tokenURI in
     response <- httpGet env (ipfs_io metadataHash) ;;
     await (json response))
    (fun _ => ret JNull).

Definition searchCertificate (id : N) : M Certificate :=
  details <- call (fun l => getCertificateDetails l id) ;;
  tokenURI <- call (fun l => tokenURI l id) ;;
  metadata <- searchMetadata tokenURI ;;
  ret (mkCertificate id details tokenURI metadata).

Definition invalidAddress (view : SearchView) : SearchView :=
  {| certificates := certificates view;
     isLoading := isLoading view;
     error := "Please enter a valid Ethereum address" |}.

Definition handleSearch (searchAddress : string) (view : SearchView) : M SearchView :=
  match provider env with
  | None => ret (invalidAddress view)
  | Some p =>
      if negb (isAddress env searchAddress) then ret (invalidAddress view) else
      try_catch
        (await (getSigner p) ;;
         certificateIds <- call (fun l => getStudentCertificates l searchAddress) ;;
         match certificateIds with
         | [] => ret {| certificates := []; isLoading := false; error := "" |}
         | _ =>
             certificatesData <- promise_all (map searchCertificate certificateIds) ;;
             ret {| certificates := certificatesData; isLoading := false; error := "" |}
         end)
        (fun _ => ret {| certificates := []; isLoading := false;
                         error := "Something went wrong while fetching certificates." |})
  end.

End CertificateSearch.

(** ** CertificateSearch: [convertIpfsUrl] *)

(** [s.split(sep)] for a non-empty separator: the pieces between the
    occurrences of [sep], found left to right without overlap.  [skip]
    counts the characters of a matched separator still to pass over, and
    [current] is the piece being read. *)
Fixpoint splitFrom (sep : string) (skip : nat) (current : string) (s : string) : list string :=
  match s with
  | EmptyString => [current]
  | String c rest =>
      match skip with
      | S k => splitFrom sep k current rest
      | O =>
          if String.prefix sep s
          then current :: splitFrom sep (String.length sep - 1) "" rest
          else splitFrom sep 0 (current ++ String c "") rest
      end
  end.

Definition split (sep s : string) : list string := splitFrom sep 0 "" s.

(** [`${v}`] of an array element that may be [undefined] *)
Definition interpolate (v : option string) : string :=
  match v with Some s => s | None => "undefined" end.

(** [url.startsWith('ipfs://') ? `https://ipfs.io/ipfs/${url.split('ipfs://')[1]}` : url] *)
Definition convertIpfsUrl (url : string) : string :=
  if String.prefix "ipfs://" url
  then "https://ipfs.io/ipfs/" ++ interpolate (nth_error (split "ipfs://" url) 1)
  else url.

(** ** EthereumContext.tsx *)

Module EthereumContext.

(** A wallet module of Web3-Onboard; the sorting reads its label only. *)
Record WalletModule := { label : string }.

(** The reducer of [sort]: [unshift] for the Universal Profiles wallet,
    [push] for any other. *)
Definition sortStep (sorted : list WalletModule) (wallet : WalletModule) : list WalletModule :=
  if String.eqb (label wallet) "Universal Profiles"
  then wallet :: sorted
  else sorted ++ [wallet].

(** [wallets.reduce(..., [])] *)
Definition sort (wallets : list WalletModule) : list WalletModule :=
  fold_left sortStep wallets [].

(** What [connectWallet()] resolves to, per connected wallet: its provider
    and the addresses of its accounts. *)
Record WalletState := {
  wallet_provider : BrowserProvider;
  wallet_accounts : list string
}.

(** What the provider component reaches in the browser and the wallet. *)
Record Browser := {
  (* window.lukso || window.ethereum *)
  injected : option BrowserProvider;
  (* web3OnboardComponent.connectWallet() *)
  connectWallet : Result (list WalletState);
  (* provider.send('eth_requestAccounts', []) *)
  requestAccounts : BrowserProvider -> Result (list string);
  (* (await provider.getNetwork()).chainId *)
  getNetwork : BrowserProvider -> Result N;
  (* new SiweMessage({ address, chainId, ... }).prepareMessage() *)
  prepareMessage : string -> N -> Result string;
  (* ethers.hashMessage *)
  hashMessage : string -> string;
  (* signer.signMessage(message) *)
  signMessage : BrowserProvider -> string -> Result string;
  (* the Universal Profile at [account]: isValidSignature(hash, signature) *)
  isValidSignature : string -> string -> string -> Result string
}.

(** The React state of [EthereumProvider], and the entry
    ['ethereumAccount'] of the local storage. *)
Record Session := {
  provider : option BrowserProvider;
  account : option string;
  useOnboard : bool;
  verified : bool;
  storedAccount : option string
}.

(** The state a fresh mount starts from; the local storage outlives it. *)
Definition initial (stored : option string) : Session :=
  {| provider := None; account := None; useOnboard := true; verified := false;
     storedAccount := stored |}.

(** [updateAccountInfo(newAccount)]: [setItem] stores the string of
    whatever it is given, ["undefined"] for [undefined]. *)
Definition updateAccountInfo (newAccount : option string) (s : Session) : Session :=
  {| provider := provider s; account := newAccount; useOnboard := useOnboard s;
     verified := verified s; storedAccount := Some (interpolate newAccount) |}.

Definition setProvider (p : BrowserProvider) (s : Session) : Session :=
  {| provider := Some p; account := account s; useOnboard := useOnboard s;
     verified := verified s; storedAccount := storedAccount s |}.

Definition setAccount (a : option string) (s : Session) : Session :=
  {| provider := provider s; account := a; useOnboard := useOnboard s;
     verified := verified s; storedAccount := storedAccount s |}.

Definition setVerified (v : bool) (s : Session) : Session :=
  {| provider := provider s; account := account s; useOnboard := useOnboard s;
     verified := v; storedAccount := storedAccount s |}.

Section Provider.

Variable browser : Browser.

(** The effect run on mount: the stored account, if any, is loaded, and
    the injected provider, if any, becomes the provider. *)
Definition mount (s : Session) : Session :=
  let loaded :=
    match storedAccount s with
    | Some a => if emptyString a then s else updateAccountInfo (Some a) s
    | None => s
    end in
  match injected browser with
  | Some providerObject => setProvider providerObject loaded
  | None => loaded
  end.

(** A reload of the page: a fresh mount over the same local storage. *)
Definition reload (s : Session) : Session := mount (initial (storedAccount s)).

(** The handler of ['accountsChanged']: [updateAccountInfo(accounts[0])] *)
Definition accountsChanged (accounts : list string) (s : Session) : Session :=
  updateAccountInfo (hd_error accounts) s.

(** The handler of ['chainChanged'] *)
Definition chainChanged (s : Session) : Session :=
  {| provider := provider s; account := None; useOnboard := useOnboard s;
     verified := false; storedAccount := None |}.

Definition connect (s : Session) : Result unit * Session :=
  if useOnboard s then
    match connectWallet browser with
    | Throw e => (Throw e, s)
    | Ok [] => (Ok tt, s)
    | Ok (first :: _) =>
        let s1 := setProvider (wallet_provider first) s in
        match wallet_accounts first with
        | [] => (Throw (Error "Cannot read properties of undefined (reading 'address')"), s1)
        | a :: _ => (Ok tt, setAccount (Some a) s1)
        end
    end
  else
    match provider s with
    | None => (Ok tt, s)
    | Some p =>
        match requestAccounts browser p with
        | Ok accounts => (Ok tt, setAccount (hd_error accounts) s)
        | Throw _ => (Ok tt, s)
        end
    end.

Definition disconnect (s : Session) : Session :=
  setVerified false (setAccount None s).

Definition toggleOnboard (s : Session) : Session :=
  {| provider := provider s; account := account s; useOnboard := negb (useOnboard s);
     verified := verified s; storedAccount := storedAccount s |}.

(** The magic value of ERC-1271 *)
Definition magicValue : string := "0x1626ba7e".

(** The [try] block of [signInWithEthereum]: the verdict of the profile
    contract on the signature, or what was thrown on the way. *)
Definition checkSignature (p : BrowserProvider) (a message : string) : Result bool :=
  match getSigner p with
  | Throw e => Throw e
  | Ok _ =>
      match signMessage browser p message with
      | Throw e => Throw e
      | Ok signature =>
          match isValidSignature browser a (hashMessage browser message) signature with
          | Throw e => Throw e
          | Ok answer => Ok (String.eqb answer magicValue)
          end
      end
  end.

Definition signInWithEthereum (s : Session) : Result unit * Session :=
  match account s, provider s with
  | Some a, Some p =>
      if emptyString a then (Ok tt, s) else
      match getNetwork browser p with
      | Throw e => (Throw e, s)
      | Ok chainId =>
          match prepareMessage browser a chainId with
          | Throw e => (Throw e, s)
          | Ok message =>
              match checkSignature p a message with
              | Ok valid => (Ok tt, setVerified valid s)
              | Throw _ => (Ok tt, s)
              end
          end
      end
  | _, _ => (Ok tt, s)
  end.

(** What can happen to a mounted provider component. *)
Inductive Action :=
| AccountsChanged (accounts : list string)
| ChainChanged
| Connect
| Disconnect
| ToggleOnboard
| SignIn.

Definition step (action : Action) (s : Session) : Result unit * Session :=
  match action with
  | AccountsChanged accounts => (Ok tt, accountsChanged accounts s)
  | ChainChanged => (Ok tt, chainChanged s)
  | Connect => connect s
  | Disconnect => (Ok tt, disconnect s)
  | ToggleOnboard => (Ok tt, toggleOnboard s)
  | SignIn => signInWithEthereum s
  end.

(** The session after a sequence of actions; a rejected promise leaves the
    state it had reached. *)
Definition run (actions : list Action) (s : Session) : Session :=
  fold_left (fun s action => snd (step action s)) actions s.

End Provider.

End EthereumContext.

(** ** What the specification calls things *)

Section Reference.

Context {CF : CaseFold}.
Variable env : Env.

(** One gateway attempt of the Content Resolver, without the trace: the
    parsed body of a successful response, or the failure (transport error,
    non-success status, body that is not JSON). *)
Definition gatewayRead (url : string) (failure : string) : Result JsValue :=
  match fetch env url with
  | Throw e => Throw e
  | Ok response => if negb (ok response) then Throw (Error failure) else json response
  end.

(** [get] of the Content Resolver on the ordered gateways Pinata, ipfs.io,
    degraded to [null] when both are exhausted. *)
Definition resolve (contentId : string) : JsValue :=
  match gatewayRead (pinata contentId) "Pinata fetch failed" with
  | Ok payload => payload
  | Throw _ =>
      match gatewayRead (ipfs_io contentId) "ipfs.io fetch failed" with
      | Ok payload => payload
      | Throw _ => JNull
      end
  end.

(** The metadata a registered identity points to; no lookup for an empty pointer. *)
Definition resolvedMetadata (u : RegisteredUser) : JsValue :=
  if emptyString (metadataHash u) then JNull else resolve (metadataHash u).

(** The resolved metadata carries the external student identifier, up to case. *)
Definition hasStudentId (metadata : JsValue) (studentId : string) : Prop :=
  exists s, getProp metadata "studentId" = Some (JString s)
            /\ toLowerCase s = toLowerCase studentId.

Definition matchesStudentId (studentId : string) (u : RegisteredUser) : bool :=
  match studentIdMatches (resolvedMetadata u) studentId with
  | Ok true => true
  | _ => false
  end.

(** A pending request of [account], as [listPendingForInstitute] keeps it. *)
Definition pendingRequest (l : Ledger) (account : string) (requestId : nat)
  : option CertificateRequest :=
  match certificateRequests l requestId with
  | Throw _ => None
  | Ok req =>
      if String.eqb (toLowerCase (req_institute req)) (toLowerCase account)
         && negb (req_approved req)
      then Some {| id := requestId;
                   student := req_student req;
                   institute := req_institute req;
                   name := req_name req;
                   message := req_message req;
                   studentMetadataHash := req_studentMetadataHash req;
                   approved := req_approved req |}
      else None
  end.

(** [listPendingForInstitute]: the ids [1..requestCount] in order, each
    kept when its fetch succeeds and it is a pending request of [account]. *)
Definition listPendingForInstitute (l : Ledger) (account : string) (requestCount : nat)
  : list CertificateRequest :=
  filterBoolean (map (pendingRequest l account) (seq 1 requestCount)).

(** [findStudentByExternalId] over the enumerated identities: the first
    student, in enumeration order, whose resolved metadata matches. *)
Definition findStudentByExternalId (studentId : string) (users : list RegisteredUser)
  : option (string * JsValue) :=
  option_map (fun u => (address u, resolvedMetadata u))
             (find (matchesStudentId studentId) (filter isStudent users)).

(** The GETs one resolution issues: Pinata, and ipfs.io when Pinata failed. *)
Definition attempts (contentId : string) : list Event :=
  EvFetch (pinata contentId) ::
  match gatewayRead (pinata contentId) "Pinata fetch failed" with
  | Ok _ => []
  | Throw _ => [EvFetch (ipfs_io contentId)]
  end.

(** The certificate entry of a token id, from the ledger and the resolver. *)
Definition certificateEntry (l : Ledger) (id : N) : Result Certificate :=
  match getCertificateDetails l id, tokenURI l id with
  | Ok d, Ok u => Ok (mkCertificate id d u (resolve (replace "ipfs://" "" u)))
  | Throw e, _ => Throw e
  | Ok _, Throw e => Throw e
  end.

(** The authorization flag of a provider, as the classification reads it. *)
Definition providerStatus (l : Ledger) (u : RegisteredUser) : Result ProviderStatus :=
  match authorizedInstitutes l (address u) with
  | Ok b => Ok {| user := u; isAuthorized := b |}
  | Throw e => Throw e
  end.

(** One identity of the enumeration, as [getAllRegisteredUsers] reads it. *)
Definition identityRecord (l : Ledger) (address : string) : Result RegisteredUser :=
  match getUser l address with
  | Ok (role, metadataHash) =>
      Ok {| address := address; role := role; metadataHash := metadataHash |}
  | Throw e => Throw e
  end.

(** The metadata object built for a role from its payload and, for a
    provider, from what the document upload answered. *)
Definition builtFrom (role : Role) (studentData : option StudentData)
    (providerData : option ProviderData) (metadata : Metadata) : Prop :=
  match role with
  | student_role =>
      exists sd, studentData = Some sd
                 /\ metadata = StudentMd (sd_name sd) (sd_email sd) (sd_studentId sd)
  | provider_role =>
      exists pd docResponse,
        providerData = Some pd
        /\ uploadFileToIPFS env (pd_document pd) = Ok docResponse
        /\ metadata = ProviderMd (pd_institutionName pd) (pd_accreditationNumber pd)
                                 (cid docResponse)
  end.

(** The state after one more effect *)
Definition after (s : State) (evs : list Event) : State :=
  {| ledger := ledger s; trace := trace s ++ evs;
     userData := userData s; loading := loading s |}.

End Reference.

(** What [Promise.all] settles to, from the settled elements. *)
Fixpoint collect {A} (rs : list (Result A)) : Result (list A) :=
  match rs with
  | [] => Ok []
  | r :: rest =>
      match r, collect rest with
      | Throw e, _ => Throw e
      | Ok _, Throw e => Throw e
      | Ok a, Ok l => Ok (a :: l)
      end
  end.

(** The events of a trace that are submitted transactions. *)
Definition isSend (ev : Event) : bool :=
  match ev with EvSend _ => true | _ => false end.

(** ** Views used to state what the operations do and leave alone *)

Section Views.

Context {CF : CaseFold}.
Variable env : Env.

(** The transactions submitted so far *)
Definition sends (s : State) : list Event := filter isSend (trace s).

(** Nothing was written between [s] and [s']: same ledger, no transaction. *)
Definition quiet (s s' : State) : Prop :=
  ledger s' = ledger s /\ sends s' = sends s.

(** A computation that writes nothing, from any state. *)
Definition Quiet {A} (m : M A) : Prop := forall s, quiet s (snd (m s)).

(** What a write operation may come to: it threw having written nothing,
    or it submitted one transaction of the allowed kind, and then it
    succeeded with the ledger the chain answered, or threw the chain's own
    rejection with the ledger as it was. *)
Definition writeOutcome (allowed : Tx -> Prop) (s : State) (out : Result unit * State) : Prop :=
  ((exists e, fst out = Throw e) /\ quiet s (snd out))
  \/ exists tx,
       allowed tx
       /\ sends (snd out) = (sends s ++ [EvSend tx])%list
       /\ match chain env tx (ledger s) with
          | Ok l' => fst out = Ok tt /\ ledger (snd out) = l'
          | Throw e => fst out = Throw e /\ ledger (snd out) = ledger s
          end.

(** The role view [fetchUserData] computes from a ledger for an account. *)
Definition roleView (l : Ledger) (a : string) : option UserData :=
  match getUser l a with
  | Ok (role, _) =>
      match isUserRegistered l a with
      | Ok registered => Some {| ud_role := toLowerCase role; ud_registered := registered |}
      | Throw _ => None
      end
  | Throw _ => None
  end.

(** A certificate entry without its soft-loaded metadata *)
Definition withoutMetadata (c : Certificate) : Certificate :=
  {| cert_id := cert_id c; cert_name := cert_name c; cert_institute := cert_institute c;
     cert_issueDate := cert_issueDate c; cert_certificateType := cert_certificateType c;
     cert_student := cert_student c; cert_tokenURI := cert_tokenURI c;
     cert_metadata := JNull |}.

(** The students a scan looks at: up to and including the first match. *)
Fixpoint scanned (matches : RegisteredUser -> bool) (students : list RegisteredUser)
  : list RegisteredUser :=
  match students with
  | [] => []
  | u :: rest => u :: if matches u then [] else scanned matches rest
  end.

(** The GETs spent on one student *)
Definition lookups (u : RegisteredUser) : list Event :=
  if emptyString (metadataHash u) then [] else attempts env (metadataHash u).

End Views.

(** [sep] occurs somewhere in [s] *)
Fixpoint occurs (sep s : string) : bool :=
  String.prefix sep s ||
  match s with
  | EmptyString => false
  | String _ rest => occurs sep rest
  end.

(** ** A concrete world for examples *)

Module Sample.

(** ASCII case folding, enough for hexadecimal addresses and identifiers. *)
Definition lowerAscii (c : ascii) : ascii :=
  let n := nat_of_ascii c in
  if Nat.leb 65 n && Nat.leb n 90 then ascii_of_nat (n + 32) else c.

Fixpoint lower (s : string) : string :=
  match s with
  | EmptyString => EmptyString
  | String c rest => String (lowerAscii c) (lower rest)
  end.

Definition fold : CaseFold := lower.

Definition unreachable {A} : Result A := Throw (Error "could not coalesce error").

Definition registry : list RegisteredUser :=
  [ {| address := "0xA1"; role := "student"; metadataHash := "QmAlice" |};
    {| address := "0xAA"; role := "Provider"; metadataHash := "QmUni" |};
    {| address := "0xB2"; role := "student"; metadataHash := "QmBob" |};
    {| address := "0xCC"; role := "provider"; metadataHash := "QmCollege" |};
    {| address := "0xC3"; role := "student"; metadataHash := "QmCarol" |} ].

Definition lookupUser (a : string) : Result (string * string) :=
  match find (fun u => String.eqb (address u) a) registry with
  | Some u => Ok (role u, metadataHash u)
  | None => Ok ("", "")
  end.

Definition request (student institute name : string) (approved : bool) : RequestStruct :=
  {| req_student := student; req_institute := institute; req_name := name;
     req_message := "please issue"; req_studentMetadataHash := "QmAlice";
     req_approved := approved |}.

(** Five requests; the read of request 3 throws. *)
Definition requests (requestId : nat) : Result RequestStruct :=
  match requestId with
  | 1 => Ok (request "0xA1" "0xAA" "BSc" false)
  | 2 => Ok (request "0xB2" "0xCC" "MSc" false)
  | 3 => unreachable
  | 4 => Ok (request "0xB2" "0xaa" "PhD" true)
  | 5 => Ok (request "0xC3" "0xaA" "Diploma" false)
  | _ => Throw (Error "execution reverted")
  end.

Definition details : CertificateDetails :=
  {| det_name := "PhD"; det_institute := "Uni"; det_issueDate := 1700000000%N;
     det_certificateType := "Diploma"; det_student := "0xB2" |}.

Definition uriOf (tokenId : N) : string :=
  if N.eqb tokenId 1 then "ipfs://Qm123"
  else if N.eqb tokenId 2 then "ipfs://Qm456"
  else if N.eqb tokenId 3 then "ipfs://Qm789"
  else "ipfs://Qm999".

Definition mkLedger (users : Result (list string)) (authorized : string -> Result bool)
    (count : Result nat) : Ledger :=
  {| getAllUsers := users;
     getUser := lookupUser;
     isUserRegistered := fun a => Ok (existsb (fun u => String.eqb (address u) a) registry);
     owner := Ok "0x0WNER";
     authorizedInstitutes := authorized;
     requestCounter := count;
     certificateRequests := requests;
     getStudentCertificates :=
       fun a => Ok (if String.eqb a "0xB2" then [1%N; 2%N; 3%N; 4%N] else []);
     getCertificateDetails := fun _ => Ok details;
     tokenURI := fun n => Ok (uriOf n) |}.

Definition ledger0 : Ledger :=
  mkLedger (Ok (map address registry)) (fun a => Ok (String.eqb a "0xAA")) (Ok 5).

(** The authorization read of 0xCC throws. *)
Definition ledgerFlaky : Ledger :=
  mkLedger (Ok (map address registry))
           (fun a => if String.eqb a "0xCC" then unreachable else Ok (String.eqb a "0xAA"))
           (Ok 5).

(** The enumeration of identities and the request counter throw. *)
Definition ledgerDown : Ledger :=
  mkLedger unreachable (fun a => Ok (String.eqb a "0xAA")) unreachable.

Definition profile (studentId : string) : JsValue :=
  JObject [("name", JString "N"); ("email", JString "n@example.org");
           ("studentId", JString studentId)].

Definition picture (name : string) : JsValue := JObject [("image", JString name)].

Definition body (v : JsValue) : Result Response := Ok {| ok := true; json := Ok v |}.

Definition http500 : Result Response :=
  Ok {| ok := false; json := Throw (Error "Unexpected token < in JSON") |}.

Definition timeoutBody : JsValue := JObject [("error", JString "gateway timeout")].

Definition http504 : Result Response := Ok {| ok := false; json := Ok timeoutBody |}.

Definition offline {A} : Result A := Throw (Error "Failed to fetch").

(** Pinata answers HTTP 500 for Bob's profile and cannot be reached for
    Carol's profile and for Qm123; ipfs.io serves all three.  Qm456 and
    Qm999 are on Pinata, while ipfs.io answers HTTP 504 with a JSON error
    body for the first and cannot be reached for the second.  Qm789 is on
    no gateway. *)
Definition gateways (url : string) : Result Response :=
  if String.eqb url "https://gateway.pinata.cloud/ipfs/QmAlice" then body (profile "S007")
  else if String.eqb url "https://gateway.pinata.cloud/ipfs/QmBob" then http500
  else if String.eqb url "https://ipfs.io/ipfs/QmBob" then body (profile "s100")
  else if String.eqb url "https://ipfs.io/ipfs/QmCarol" then body (profile "S300")
  else if String.eqb url "https://ipfs.io/ipfs/Qm123" then body (picture "ipfs://QmImg1")
  else if String.eqb url "https://gateway.pinata.cloud/ipfs/Qm456" then body (picture "ipfs://QmImg2")
  else if String.eqb url "https://ipfs.io/ipfs/Qm456" then http504
  else if String.eqb url "https://gateway.pinata.cloud/ipfs/Qm999" then body (picture "ipfs://QmImg4")
  else offline.

Definition wallet : BrowserProvider := {| getSigner := Ok tt |}.

Definition setAuthorized (a : string) (flag : bool) (l : Ledger) : Ledger :=
  {| getAllUsers := getAllUsers l; getUser := getUser l;
     isUserRegistered := isUserRegistered l; owner := owner l;
     authorizedInstitutes := fun x => if String.eqb x a then Ok flag else authorizedInstitutes l x;
     requestCounter := requestCounter l; certificateRequests := certificateRequests l;
     getStudentCertificates := getStudentCertificates l;
     getCertificateDetails := getCertificateDetails l; tokenURI := tokenURI l |}.

(** A permissive ledger: every write is accepted; (de)authorization moves
    the authorization flag of its target. *)
Definition accept (tx : Tx) (l : Ledger) : Result Ledger :=
  match tx with
  | authorizeInstituteTx a => Ok (setAuthorized a true l)
  | revokeInstituteTx a => Ok (setAuthorized a false l)
  | _ => Ok l
  end.

Definition mkEnv (p : option BrowserProvider) (a : option string)
    (uploadFile : File -> Result UploadResponse) : Env :=
  {| provider := p;
     account := a;
     userRegistryAddress := "0xRegistry";
     certificateNFTAddress := "0xCertificates";
     fetch := gateways;
     uploadFileToIPFS := uploadFile;
     uploadJSONToIPFS := fun _ => Ok {| cid := Some "QmMeta" |};
     chain := accept;
     isAddress := fun a => String.prefix "0x" a |}.

(** The institute 0xAA is connected. *)
Definition env0 : Env := mkEnv (Some wallet) (Some "0xAA") (fun _ => Ok {| cid := Some "QmDoc" |}).

(** The student 0xA1 is connected. *)
Definition envStudent : Env :=
  mkEnv (Some wallet) (Some "0xA1") (fun _ => Ok {| cid := Some "QmDoc" |}).

(** No wallet extension was found. *)
Definition envNoProvider : Env := mkEnv None None (fun _ => Ok {| cid := Some "QmDoc" |}).

(** A new institute 0xDD is connected; the document upload answers
    without a content identifier. *)
Definition envNoDocumentCid : Env :=
  mkEnv (Some wallet) (Some "0xDD") (fun _ => Ok {| cid := None |}).

Definition newInstitute : ProviderData :=
  {| pd_institutionName := "Uni"; pd_accreditationNumber := "ACC-1";
     pd_document := "accreditation.pdf" |}.

Definition stateOf (l : Ledger) : State :=
  {| ledger := l; trace := []; userData := None; loading := false |}.

Definition st0 : State := stateOf ledger0.
Definition stFlaky : State := stateOf ledgerFlaky.
Definition stDown : State := stateOf ledgerDown.

Definition emptyView : SearchView := {| certificates := []; isLoading := false; error := "" |}.

(** The metadata of the listed certificates, [[]] if the listing threw. *)
Definition metadataOf (r : Result (list Certificate)) : list JsValue :=
  match r with Ok certs => map cert_metadata certs | Throw _ => [] end.

End Sample.

(** ** More of the sample world *)

Module Cases.

Import Sample.

(** The owner of the credential ledger is connected, in another casing. *)
Definition envOwner : Env :=
  mkEnv (Some wallet) (Some "0x0wner") (fun _ => Ok {| cid := Some "QmDoc" |}).

(** The registry does not answer [getUser]. *)
Definition ledgerUnreadable : Ledger :=
  {| getAllUsers := getAllUsers ledger0;
     getUser := fun _ => unreachable;
     isUserRegistered := isUserRegistered ledger0;
     owner := owner ledger0;
     authorizedInstitutes := authorizedInstitutes ledger0;
     requestCounter := requestCounter ledger0;
     certificateRequests := certificateRequests ledger0;
     getStudentCertificates := getStudentCertificates ledger0;
     getCertificateDetails := getCertificateDetails ledger0;
     tokenURI := tokenURI ledger0 |}.

Definition stUnreadable : State := stateOf ledgerUnreadable.

Definition alice : StudentData :=
  {| sd_name := "Alice"; sd_email := "alice@example.org"; sd_studentId := "S007" |}.

(** A browser with an injected wallet of one account, whose user declines
    to sign. *)
Definition browser0 : EthereumContext.Browser :=
  {| EthereumContext.injected := Some wallet;
     EthereumContext.connectWallet :=
       Ok [ {| EthereumContext.wallet_provider := wallet;
               EthereumContext.wallet_accounts := ["0xAA"] |} ];
     EthereumContext.requestAccounts := fun _ => Ok ["0xAA"];
     EthereumContext.getNetwork := fun _ => Ok 42%N;
     EthereumContext.prepareMessage := fun a _ => Ok ("Sign in as " ++ a);
     EthereumContext.hashMessage := fun m => "hash of " ++ m;
     EthereumContext.signMessage := fun _ _ => Throw (Error "user rejected signing");
     EthereumContext.isValidSignature := fun _ _ _ => Ok "0xffffffff" |}.

(** A verified session of 0xAA, whose address is in the local storage. *)
Definition session0 : EthereumContext.Session :=
  {| EthereumContext.provider := Some wallet;
     EthereumContext.account := Some "0xAA";
     EthereumContext.useOnboard := true;
     EthereumContext.verified := true;
     EthereumContext.storedAccount := Some "0xAA" |}.

End Cases.

(** * Properties *)

Section Properties.

Context {CF : CaseFold}.

(** ** The monad *)

Ltac unfold_monad :=
  unfold send, httpGet, bind, ret, throw, try_catch, try_finally, await, call, emit,
    setLedger, setUserData, setLoading in *.

Lemma falsy_some (a : string) : a <> "" -> falsy (Some a) = false.
Proof. destruct a; [congruence | reflexivity]. Qed.

Lemma emptyString_false (a : string) : a <> "" -> emptyString a = false.
Proof. destruct a; [congruence | reflexivity]. Qed.

Lemma emptyString_true (a : string) : emptyString a = true -> a = "".
Proof. destruct a; [reflexivity | discriminate]. Qed.

(** [Promise.all] over element computations that keep an invariant of the
    state and whose outcome, under it, is a function of the item alone. *)
Lemma promise_all_collect {X A} (P : State -> Prop) (f : X -> M A) (g : X -> Result A)
    (xs : list X) :
  (forall x s, In x xs -> P s -> fst (f x s) = g x /\ P (snd (f x s))) ->
  forall s, P s ->
    fst (promise_all (map f xs) s) = collect (map g xs)
    /\ P (snd (promise_all (map f xs) s)).
Proof.
  induction xs as [|x xs IH]; intros Hf s Hs.
  - split; [reflexivity | exact Hs].
  - cbn [map promise_all collect].
    destruct (Hf x s (or_introl eq_refl) Hs) as [Hr HP].
    destruct (f x s) as [r s1] eqn:E. cbn in Hr, HP. subst r.
    destruct (IH (fun y t Hy => Hf y t (or_intror Hy)) s1 HP) as [Hrs HP2].
    destruct (promise_all (map f xs) s1) as [rs s2]. cbn in Hrs, HP2. subst rs.
    split; [reflexivity | exact HP2].
Qed.

(** The same for element computations that only read: the state is untouched. *)
Lemma promise_all_reads {X A} (f : X -> M A) (g : X -> Result A) (xs : list X) (s : State) :
  (forall x, In x xs -> f x s = (g x, s)) ->
  promise_all (map f xs) s = (collect (map g xs), s).
Proof.
  intros Hf.
  destruct (@promise_all_collect X A (fun t => t = s) f g xs) with (s := s) as [H1 H2].
  - intros x t Hx ->. rewrite (Hf x Hx). split; reflexivity.
  - reflexivity.
  - destruct (promise_all (map f xs) s) as [r t]. cbn in *. congruence.
Qed.

Lemma collect_all_ok {A} (rs : list (Result A)) (l : list A) :
  collect rs = Ok l <-> rs = map Ok l.
Proof.
  revert l. induction rs as [|r rs IH]; intros l; cbn.
  - split; intros H.
    + injection H as <-. reflexivity.
    + destruct l; [reflexivity | discriminate].
  - split; intros H.
    + destruct r as [a|e]; [|discriminate].
      destruct (collect rs) as [l'|e'] eqn:E; [|discriminate].
      injection H as <-. cbn. f_equal. apply IH. reflexivity.
    + destruct l as [|b l]; [discriminate|]. cbn in H.
      injection H as -> Hrs. apply IH in Hrs. rewrite Hrs. reflexivity.
Qed.

Lemma collect_throws {A} (rs : list (Result A)) :
  (exists e, In (Throw e) rs) <-> (exists e, collect rs = Throw e).
Proof.
  induction rs as [|r rs IH]; cbn.
  - split; intros [e H]; [contradiction | discriminate].
  - destruct r as [a|e0].
    + destruct (collect rs) as [l|e'] eqn:E.
      * split; intros [e H]; [|discriminate].
        destruct H as [H|H]; [discriminate|].
        destruct (proj1 IH (ex_intro _ e H)) as [e2 H2]. discriminate.
      * split; intros _; [eauto|].
        destruct (proj2 IH (ex_intro _ e' eq_refl)) as [e2 H2]. eauto.
    + split; intros _; eauto.
Qed.

(** ** Ownership (C10, C1) *)

(** C10. [checkIsOwner] never raises: for every address, environment and
    state it returns a boolean and leaves the state alone.  It returns
    [false] when no provider is connected, when the credential-ledger
    address is unset, and when the [owner()] read throws -- the very answer
    it gives for an address that is not the owner, so the caller cannot
    tell 'not the owner' from 'could not be determined'. *)
Theorem checkIsOwner_total (env : Env) (address : string) (st : State) :
  (exists b, checkIsOwner env address st = (Ok b, st))
  /\ (provider env = None -> checkIsOwner env address st = (Ok false, st))
  /\ (certificateNFTAddress env = "" -> checkIsOwner env address st = (Ok false, st))
  /\ (forall e, owner (ledger st) = Throw e -> checkIsOwner env address st = (Ok false, st))
  /\ (forall o, owner (ledger st) = Ok o -> toLowerCase o <> toLowerCase address ->
        checkIsOwner env address st = (Ok false, st)).
Proof.
  unfold checkIsOwner, getCertificateContract.
  destruct (provider env) as [p|].
  2: { split; [eexists; reflexivity|]. split; [reflexivity|]. split; [reflexivity|].
       split; intros; reflexivity. }
  destruct (certificateNFTAddress env) as [|c rest] eqn:Ha; cbn [emptyString].
  { split; [eexists; reflexivity|]. split; [reflexivity|]. split; [reflexivity|].
    split; intros; reflexivity. }
  unfold_monad.
  destruct (owner (ledger st)) as [o|e] eqn:Ho.
  - split; [eexists; reflexivity|]. split; [discriminate|]. split; [discriminate|].
    split; [discriminate|].
    intros o' Ho' Hdiff. injection Ho' as <-.
    apply String.eqb_neq in Hdiff. rewrite Hdiff. reflexivity.
  - split; [eexists; reflexivity|]. split; [discriminate|]. split; [discriminate|].
    split; [reflexivity | discriminate].
Qed.

(** The gate of both authorization writes: whoever calls, with whatever
    wallet, if the [owner()] read does not return the active account (up to
    case) then nothing is submitted and the state is what it was. *)
Lemma authorization_gate (env : Env) (instituteAddress : string) (st st' : State)
    (r : Result unit) :
  (authorizeInstitute env instituteAddress st = (r, st')
   \/ revokeInstitute env instituteAddress st = (r, st')) ->
  (forall o, owner (ledger st) = Ok o ->
             toLowerCase o <> toLowerCase (accountString env)) ->
  st' = st /\ exists e, r = Throw e.
Proof.
  intros H Hno.
  unfold authorizeInstitute, revokeInstitute in H.
  destruct (provider env) as [p|].
  2: { unfold_monad. destruct H as [H|H]; inversion H; eauto. }
  destruct (falsy (account env)).
  { unfold_monad. destruct H as [H|H]; inversion H; eauto. }
  unfold_monad.
  destruct (getSigner p) as [[]|e].
  2: { destruct H as [H|H]; inversion H; eauto. }
  destruct (owner (ledger st)) as [o|e] eqn:Ho.
  2: { destruct H as [H|H]; inversion H; eauto. }
  specialize (Hno o eq_refl). apply String.eqb_neq in Hno. rewrite Hno in H.
  cbn in H. destruct H as [H|H]; inversion H; eauto.
Qed.

(** C1. With a wallet connected whose active account differs, up to case,
    from the owner that [owner()] returns, [authorizeInstitute] and
    [revokeInstitute] both fail with [NotOwner] for every institute
    address; they fail before any transaction is submitted: the trace of
    effects and the ledger are unchanged, and so is what
    [authorizedInstitutes] answers for every address. *)
Theorem setAuthorization_requires_owner (env : Env) (p : BrowserProvider)
    (a o instituteAddress : string) (st : State) :
  provider env = Some p ->
  account env = Some a ->
  a <> "" ->
  getSigner p = Ok tt ->
  owner (ledger st) = Ok o ->
  toLowerCase o <> toLowerCase a ->
  forall op, op = authorizeInstitute env \/ op = revokeInstitute env ->
    fst (op instituteAddress st) = Throw NotOwner
    /\ trace (snd (op instituteAddress st)) = trace st
    /\ ledger (snd (op instituteAddress st)) = ledger st
    /\ forall target,
         authorizedInstitutes (ledger (snd (op instituteAddress st))) target
         = authorizedInstitutes (ledger st) target.
Proof.
  intros Hp Ha Hne Hs Ho Hdiff op Hop.
  assert (E : op instituteAddress st = (Throw NotOwner, st)).
  { apply String.eqb_neq in Hdiff.
    destruct Hop; subst op; unfold authorizeInstitute, revokeInstitute, accountString;
      rewrite Hp, Ha, (falsy_some Hne); unfold_monad; rewrite Hs, Ho, Hdiff; reflexivity. }
  rewrite E. cbn. repeat split; reflexivity.
Qed.

(** ** Issuance (C5, C2) *)

(** [requestCertificateIssuance] itself looks at no role: whatever
    [getUser] returns for the active account, the request is submitted with
    the pointer found there. *)
Lemma requestCertificateIssuance_submits (env : Env) (p : BrowserProvider)
    (a providerAddress certificateName message role pointer : string) (l' : Ledger)
    (st : State) :
  provider env = Some p -> account env = Some a -> a <> "" ->
  certificateNFTAddress env <> "" -> userRegistryAddress env <> "" ->
  getSigner p = Ok tt ->
  getUser (ledger st) a = Ok (role, pointer) ->
  let tx := requestCertificateTx providerAddress certificateName message pointer in
  chain env tx (ledger st) = Ok l' ->
  requestCertificateIssuance env providerAddress certificateName message st
  = (Ok tt, {| ledger := l'; trace := trace st ++ [EvSend tx];
               userData := userData st; loading := loading st |}).
Proof.
  intros Hp Ha Hne Hc Hr Hs Hu tx Htx.
  unfold requestCertificateIssuance, getContract, accountString.
  rewrite Hp, Ha, (falsy_some Hne), (emptyString_false Hc), (emptyString_false Hr).
  unfold_monad. rewrite Hs. cbn. rewrite Hu. cbn. fold tx. rewrite Htx. reflexivity.
Qed.

(** C5. [requestCertificateIssuance] fails with [WalletNotConnected],
    touching nothing, when there is no provider or no active account.  For
    a caller who holds a Registered student identity -- [getUser] of the
    active account returns the role student and a metadata pointer -- and
    whose write the ledger accepts, it succeeds having submitted exactly one
    transaction, the certificate request that embeds that pointer.  And
    whenever it succeeds, the one transaction it submitted is the request
    embedding the pointer [getUser] returns for the active account. *)
Theorem requestCertificateIssuance_spec (env : Env)
    (providerAddress certificateName message : string) (st : State) :
  (walletMissing env = true ->
     requestCertificateIssuance env providerAddress certificateName message st
     = (Throw WalletNotConnected, st))
  /\ (forall p a role pointer l',
        provider env = Some p -> account env = Some a -> a <> "" ->
        certificateNFTAddress env <> "" -> userRegistryAddress env <> "" ->
        getSigner p = Ok tt ->
        isUserRegistered (ledger st) a = Ok true ->
        getUser (ledger st) a = Ok (role, pointer) ->
        toLowerCase role = "student" ->
        chain env (requestCertificateTx providerAddress certificateName message pointer)
              (ledger st) = Ok l' ->
        requestCertificateIssuance env providerAddress certificateName message st
        = (Ok tt, {| ledger := l';
                     trace := trace st ++ [EvSend (requestCertificateTx providerAddress
                                                     certificateName message pointer)];
                     userData := userData st; loading := loading st |}))
  /\ (forall st',
        requestCertificateIssuance env providerAddress certificateName message st
        = (Ok tt, st') ->
        exists role pointer,
          getUser (ledger st) (accountString env) = Ok (role, pointer)
          /\ trace st' = (trace st ++ [EvSend (requestCertificateTx providerAddress
                                                certificateName message pointer)])%list).
Proof.
  split; [|split].
  - unfold walletMissing, requestCertificateIssuance.
    destruct (provider env); [|reflexivity].
    intros ->. reflexivity.
  - intros p a role pointer l' Hp Ha Hne Hc Hr Hs _ Hu _ Htx.
    eapply requestCertificateIssuance_submits; eauto.
  - intros st'. unfold requestCertificateIssuance, getContract.
    destruct (provider env) as [p|]; [|discriminate].
    destruct (falsy (account env)); [discriminate|].
    destruct (emptyString (certificateNFTAddress env)); [discriminate|].
    unfold_monad. destruct (getSigner p) as [[]|e]; [|discriminate].
    destruct (emptyString (userRegistryAddress env)); [discriminate|].
    destruct (getUser (ledger st) (accountString env)) as [[role pointer]|e]; [|discriminate].
    cbn.
    destruct (chain env _ _) as [l'|e]; [|discriminate].
    intros H. injection H as <-. exists role, pointer. split; reflexivity.
Qed.

Lemma collect_map_ok {X A} (h : X -> A) (xs : list X) :
  collect (map (fun x => Ok (h x)) xs) = Ok (map h xs).
Proof.
  apply collect_all_ok. rewrite map_map. reflexivity.
Qed.

Lemma in_filterBoolean {X A} (f : X -> option A) (xs : list X) (a : A) :
  In a (filterBoolean (map f xs)) <-> exists x, In x xs /\ f x = Some a.
Proof.
  induction xs as [|x xs IH]; cbn.
  - split; [contradiction | intros [x [[] _]]].
  - destruct (f x) as [b|] eqn:E; cbn; rewrite IH.
    + split.
      * intros [<- | [y [Hy Hf]]]; [exists x; auto | exists y; auto].
      * intros [y [[<- | Hy] Hf]]; [left; congruence | right; eauto].
    + split.
      * intros [y [Hy Hf]]; eauto.
      * intros [y [[<- | Hy] Hf]]; [congruence | eauto].
Qed.

(** One element of the scan: a read, and what it keeps. *)
Lemma loadRequest_reads (env : Env) (a : string) (requestId : nat) (s : State) :
  account env = Some a ->
  loadRequest env requestId s = (Ok (pendingRequest (ledger s) a requestId), s).
Proof.
  intros Ha. unfold loadRequest, pendingRequest, accountString. rewrite Ha.
  unfold_monad.
  destruct (certificateRequests (ledger s) requestId) as [req|e]; [|reflexivity].
  destruct (_ && _); reflexivity.
Qed.

Lemma pendingRequest_id (l : Ledger) (a : string) (requestId : nat) (r : CertificateRequest) :
  pendingRequest l a requestId = Some r -> id r = requestId.
Proof.
  unfold pendingRequest.
  destruct (certificateRequests l requestId) as [req|e]; [|discriminate].
  destruct (_ && _); [|discriminate].
  intros H. injection H as <-. reflexivity.
Qed.

(** The kept requests come in ascending order of id, each id at most once. *)
Lemma kept_ids_ascending (l : Ledger) (a : string) (start len : nat) :
  StronglySorted lt (map id (filterBoolean (map (pendingRequest l a) (seq start len))))
  /\ Forall (fun i => start <= i)
            (map id (filterBoolean (map (pendingRequest l a) (seq start len)))).
Proof.
  revert start. induction len as [|len IH]; intros start; cbn.
  - split; constructor.
  - destruct (IH (S start)) as [Hs Hb].
    assert (Hb' : Forall (fun i => start <= i)
                    (map id (filterBoolean (map (pendingRequest l a) (seq (S start) len))))).
    { eapply Forall_impl; [|exact Hb]. cbn. intros; lia. }
    destruct (pendingRequest l a start) as [r|] eqn:E; cbn.
    + rewrite (pendingRequest_id _ _ _ E). split.
      * constructor; [exact Hs|]. eapply Forall_impl; [|exact Hb]. cbn. intros; lia.
      * constructor; [lia | exact Hb'].
    + split; assumption.
Qed.

(** A fetch that throws for one id takes that id, and no other, out of the
    listing. *)
Lemma failed_fetch_removes_its_id (l l2 : Ledger) (a : string) (k : nat) (e : JsError)
    (ids : list nat) :
  certificateRequests l2 k = Throw e ->
  (forall i, i <> k -> certificateRequests l2 i = certificateRequests l i) ->
  filterBoolean (map (pendingRequest l2 a) ids)
  = filter (fun r => negb (Nat.eqb (id r) k)) (filterBoolean (map (pendingRequest l a) ids)).
Proof.
  intros Hk Hsame. induction ids as [|i ids IH]; [reflexivity|]. cbn.
  destruct (Nat.eq_dec i k) as [->|Hik].
  - assert (E2 : pendingRequest l2 a k = None) by (unfold pendingRequest; rewrite Hk; reflexivity).
    rewrite E2. destruct (pendingRequest l a k) as [r|] eqn:E; [|exact IH].
    cbn. rewrite (pendingRequest_id _ _ _ E), Nat.eqb_refl. exact IH.
  - assert (E2 : pendingRequest l2 a i = pendingRequest l a i)
      by (unfold pendingRequest; rewrite (Hsame i Hik); reflexivity).
    rewrite E2. destruct (pendingRequest l a i) as [r|] eqn:E; [|exact IH].
    cbn. rewrite (pendingRequest_id _ _ _ E).
    apply Nat.eqb_neq in Hik. rewrite Hik. cbn. f_equal. exact IH.
Qed.

Lemma fetchProviderCertificateRequests_lists (env : Env) (p : BrowserProvider) (a : string)
    (n : nat) (st : State) :
  provider env = Some p -> account env = Some a -> a <> "" ->
  getSigner p = Ok tt -> requestCounter (ledger st) = Ok n ->
  fetchProviderCertificateRequests env st = (Ok (listPendingForInstitute (ledger st) a n), st).
Proof.
  intros Hp Ha Hne Hs Hn.
  unfold fetchProviderCertificateRequests. rewrite Hp, Ha, (falsy_some Hne).
  unfold try_catch, bind at 1, await. rewrite Hs.
  unfold bind at 1, call. rewrite Hn.
  unfold bind at 1.
  rewrite (@promise_all_reads _ _ (loadRequest env)
             (fun i => Ok (pendingRequest (ledger st) a i)) (seq 1 n) st)
    by (intros; apply loadRequest_reads; assumption).
  rewrite collect_map_ok. reflexivity.
Qed.

(** C2. With a wallet and an active account connected and [requestCounter]
    answering [n], [fetchProviderCertificateRequests] returns, in ascending
    order of id and each once, exactly the requests with an id in [1..n]
    whose fetch succeeds, whose institute equals the active account up to
    case and whose approved flag is false.  A fetch that throws for one id
    removes that id alone: against a ledger that differs only in throwing at
    [k], the listing is the former one without the request of id [k]. *)
Theorem fetchProviderCertificateRequests_spec (env : Env) (p : BrowserProvider)
    (a : string) (n : nat) (st : State) :
  provider env = Some p ->
  account env = Some a ->
  a <> "" ->
  getSigner p = Ok tt ->
  requestCounter (ledger st) = Ok n ->
  fetchProviderCertificateRequests env st = (Ok (listPendingForInstitute (ledger st) a n), st)
  /\ (forall r,
        In r (listPendingForInstitute (ledger st) a n) <->
        exists req,
          1 <= id r <= n
          /\ certificateRequests (ledger st) (id r) = Ok req
          /\ toLowerCase (req_institute req) = toLowerCase a
          /\ req_approved req = false
          /\ r = {| id := id r; student := req_student req; name := req_name req;
                    message := req_message req;
                    studentMetadataHash := req_studentMetadataHash req;
                    approved := req_approved req; institute := req_institute req |})
  /\ StronglySorted lt (map id (listPendingForInstitute (ledger st) a n))
  /\ (forall k e st2,
        requestCounter (ledger st2) = Ok n ->
        certificateRequests (ledger st2) k = Throw e ->
        (forall i, i <> k ->
                   certificateRequests (ledger st2) i = certificateRequests (ledger st) i) ->
        fetchProviderCertificateRequests env st2
        = (Ok (filter (fun r => negb (Nat.eqb (id r) k)) (listPendingForInstitute (ledger st) a n)),
           st2)).
Proof.
  intros Hp Ha Hne Hs Hn. split; [|split; [|split]].
  - eapply fetchProviderCertificateRequests_lists; eassumption.
  - intros r. unfold listPendingForInstitute. rewrite in_filterBoolean. split.
    + intros [i [Hi Hr]]. apply in_seq in Hi.
      pose proof (pendingRequest_id _ _ _ Hr) as Hid. unfold pendingRequest in Hr.
      destruct (certificateRequests (ledger st) i) as [req|e] eqn:Hreq; [|discriminate].
      destruct (String.eqb _ _) eqn:Hinst; [|discriminate].
      destruct (req_approved req) eqn:Happ; [discriminate|]. cbn in Hr.
      injection Hr as <-. cbn in *. exists req. rewrite Happ.
      apply String.eqb_eq in Hinst. repeat split; try assumption; lia.
    + intros [req [Hi [Hreq [Hinst [Happ Hr]]]]]. exists (id r). split.
      * apply in_seq. lia.
      * unfold pendingRequest. rewrite Hreq, Hinst, String.eqb_refl, Happ. cbn.
        rewrite Hr at 2. cbn. rewrite Happ. reflexivity.
  - apply kept_ids_ascending.
  - intros k e st2 Hn2 Hk Hsame.
    rewrite (fetchProviderCertificateRequests_lists env st2 Hp Ha Hne Hs Hn2).
    unfold listPendingForInstitute.
    rewrite (failed_fetch_removes_its_id (ledger st) (ledger st2) a (seq 1 n) Hk Hsame).
    reflexivity.
Qed.

(** ** Content resolution (C8, C9, C3) *)

Lemma fromGateway_attempt (env : Env) (url failure : string) (s : State) :
  fromGateway env url failure s = (gatewayRead env url failure, after s [EvFetch url]).
Proof.
  unfold fromGateway, gatewayRead, after. unfold_monad. cbn.
  destruct (fetch env url) as [response|e]; [|reflexivity].
  destruct (ok response); reflexivity.
Qed.

Lemma after_after (s : State) (evs evs' : list Event) :
  after (after s evs) evs' = after s (evs ++ evs').
Proof. unfold after. cbn. rewrite <- app_assoc. reflexivity. Qed.

(** The nested [try]/[catch] over the two gateways, whatever the wording of
    the second failure: Pinata is asked; if that attempt fails -- transport
    error, non-success status or unparsable body -- ipfs.io is asked; the
    payload of the first attempt that succeeds is returned, [null] if none. *)
Lemma two_gateways (env : Env) (contentId failure2 : string) (s : State) :
  try_catch
    (fromGateway env (pinata contentId) "Pinata fetch failed")
    (fun _ =>
       try_catch (fromGateway env (ipfs_io contentId) failure2) (fun _ => ret JNull)) s
  = (Ok (resolve env contentId), after s (attempts env contentId)).
Proof.
  unfold try_catch. rewrite fromGateway_attempt. unfold resolve, attempts.
  destruct (gatewayRead env (pinata contentId) "Pinata fetch failed") as [j|e] eqn:E1.
  - reflexivity.
  - rewrite fromGateway_attempt, after_after. unfold ret.
    assert (E2 : forall m m', (exists j, gatewayRead env (ipfs_io contentId) m = Ok j
                                         /\ gatewayRead env (ipfs_io contentId) m' = Ok j)
                              \/ ((exists e1, gatewayRead env (ipfs_io contentId) m = Throw e1)
                                  /\ exists e2, gatewayRead env (ipfs_io contentId) m' = Throw e2)).
    { intros m m'. unfold gatewayRead.
      destruct (fetch env (ipfs_io contentId)) as [response|e2]; [|right; eauto].
      destruct (ok response); cbn; [|right; eauto].
      destruct (json response); [left | right]; eauto. }
    destruct (E2 failure2 "ipfs.io fetch failed") as [[j [-> ->]] | [[e1 ->] [e2 ->]]];
      reflexivity.
Qed.

Lemma fetchStudentMetadata_resolves (env : Env) (studentAddress : string)
    (u : RegisteredUser) (s : State) :
  fetchStudentMetadata env studentAddress (metadataHash u) s
  = (Ok (resolvedMetadata env u),
     if emptyString (metadataHash u) then s else after s (attempts env (metadataHash u))).
Proof.
  unfold fetchStudentMetadata, resolvedMetadata.
  destruct (emptyString (metadataHash u)); [reflexivity|].
  apply two_gateways.
Qed.

(** For every content identifier: when the attempt at Pinata fails, by
    transport error, non-success status or unparsable body, and ipfs.io
    serves a payload, [fetchStudentMetadata] asks ipfs.io after Pinata and
    returns that payload; the failure of Pinata does not reach the caller. *)
Lemma fetchStudentMetadata_falls_back (env : Env) (studentAddress metadataHash : string)
    (e : JsError) (payload : JsValue) (s : State) :
  metadataHash <> "" ->
  gatewayRead env (pinata metadataHash) "Pinata fetch failed" = Throw e ->
  gatewayRead env (ipfs_io metadataHash) "ipfs.io fetch failed" = Ok payload ->
  fetchStudentMetadata env studentAddress metadataHash s
  = (Ok payload, after s [EvFetch (pinata metadataHash); EvFetch (ipfs_io metadataHash)]).
Proof.
  intros Hne H1 H2. unfold fetchStudentMetadata.
  rewrite (emptyString_false Hne), two_gateways. unfold resolve, attempts.
  rewrite H1, H2. reflexivity.
Qed.

(** The comparison of the source is the case-insensitive equality of the
    [studentId] field. *)
Lemma studentIdMatches_iff (metadata : JsValue) (studentId : string) :
  studentIdMatches metadata studentId = Ok true <-> hasStudentId metadata studentId.
Proof.
  unfold studentIdMatches, hasStudentId. split.
  - intros H.
    destruct metadata; try discriminate;
      destruct (getProp _ "studentId") as [[]|] eqn:E; try discriminate.
    all: injection H as H; apply String.eqb_eq in H; eauto.
  - intros [s [Hget Heq]].
    destruct metadata; try discriminate; rewrite Hget, Heq, String.eqb_refl; reflexivity.
Qed.

Lemma matchesStudentId_iff (env : Env) (studentId : string) (u : RegisteredUser) :
  matchesStudentId env studentId u = true
  <-> hasStudentId (resolvedMetadata env u) studentId.
Proof.
  unfold matchesStudentId. rewrite <- studentIdMatches_iff.
  destruct (studentIdMatches _ _) as [[]|]; split; congruence.
Qed.

(** Examining a student reads the gateways only, and says whether it matches. *)
Lemma examineStudent_result (env : Env) (studentId : string) (u : RegisteredUser)
    (s : State) :
  fst (examineStudent env studentId u s)
  = Ok (if matchesStudentId env studentId u
        then Some (address u, resolvedMetadata env u) else None)
  /\ ledger (snd (examineStudent env studentId u s)) = ledger s.
Proof.
  unfold examineStudent, try_catch, bind.
  rewrite fetchStudentMetadata_resolves. unfold matchesStudentId, await, ret.
  destruct (studentIdMatches (resolvedMetadata env u) studentId) as [[]|e];
    cbn; destruct (emptyString (metadataHash u)); split; reflexivity.
Qed.

Lemma scanStudents_finds (env : Env) (studentId : string) (students : list RegisteredUser) :
  forall s,
    fst (scanStudents env studentId students s)
    = Ok (option_map (fun u => (address u, resolvedMetadata env u))
                     (find (matchesStudentId env studentId) students))
    /\ ledger (snd (scanStudents env studentId students s)) = ledger s.
Proof.
  induction students as [|u rest IH]; intros s; cbn [scanStudents find].
  - split; reflexivity.
  - unfold bind.
    destruct (examineStudent_result env studentId u s) as [Hr Hl].
    destruct (examineStudent env studentId u s) as [r s1]. cbn in Hr, Hl. subst r.
    destruct (matchesStudentId env studentId u).
    + split; [reflexivity | exact Hl].
    + destruct (IH s1) as [H1 H2]. split; [exact H1 | congruence].
Qed.

Lemma find_first {A} (f : A -> bool) (l : list A) (x : A) :
  find f l = Some x ->
  exists before after_, l = (before ++ x :: after_)%list /\ f x = true
                        /\ forall y, In y before -> f y = false.
Proof.
  induction l as [|a l IH]; cbn; [discriminate|].
  destruct (f a) eqn:E.
  - intros H. injection H as <-. exists [], l. repeat split; [assumption | contradiction].
  - intros H. destruct (IH H) as [before [after_ [-> [Hx Hb]]]].
    exists (a :: before), after_. repeat split; [assumption|].
    intros y [<- | Hy]; [assumption | auto].
Qed.

(** C8. With a provider connected and the identities enumerated
    ([getAllRegisteredUsers] returned [users]), [getStudentByStudentId]
    scans exactly the identities whose role is student, in enumeration
    order, resolves the metadata of each through the two gateways and
    compares its [studentId] with the identifier up to case.  It returns the
    address and the resolved metadata of the first student that matches, and
    [null] exactly when no enumerated student matches. *)
Theorem getStudentByStudentId_spec (env : Env) (p : BrowserProvider)
    (users : list RegisteredUser) (studentId : string) (st : State) :
  provider env = Some p ->
  getAllRegisteredUsers env st = (Ok users, st) ->
  fst (getStudentByStudentId env studentId st)
  = Ok (findStudentByExternalId env studentId users)
  /\ (forall u, In u (filter isStudent users)
               <-> In u users /\ toLowerCase (role u) = "student")
  /\ (forall found metadata,
        findStudentByExternalId env studentId users = Some (found, metadata) ->
        exists before u after_,
          filter isStudent users = (before ++ u :: after_)%list
          /\ found = address u
          /\ metadata = resolvedMetadata env u
          /\ hasStudentId metadata studentId
          /\ forall v, In v before -> ~ hasStudentId (resolvedMetadata env v) studentId)
  /\ (findStudentByExternalId env studentId users = None
      <-> forall u, In u (filter isStudent users) ->
                    ~ hasStudentId (resolvedMetadata env u) studentId).
Proof.
  intros Hp Hall. split; [|split; [|split]].
  - unfold getStudentByStudentId. rewrite Hp. unfold try_catch, bind. rewrite Hall.
    destruct (scanStudents_finds env studentId (filter isStudent users) st) as [Hr _].
    destruct (scanStudents env studentId (filter isStudent users) st) as [r s1].
    cbn in Hr. subst r. reflexivity.
  - intros u. rewrite filter_In. unfold isStudent. rewrite String.eqb_eq. reflexivity.
  - unfold findStudentByExternalId. intros found metadata H.
    destruct (find _ _) as [u|] eqn:E; [|discriminate].
    cbn in H. injection H as <- <-.
    destruct (find_first _ _ E) as [before [after_ [Hsplit [Hu Hb]]]].
    exists before, u, after_. repeat split; try assumption; try reflexivity.
    + apply matchesStudentId_iff. exact Hu.
    + intros v Hv Hmatch. apply matchesStudentId_iff in Hmatch.
      rewrite (Hb v Hv) in Hmatch. discriminate.
  - unfold findStudentByExternalId. split.
    + intros H u Hu Hmatch. destruct (find _ _) as [w|] eqn:E; [discriminate|].
      apply matchesStudentId_iff in Hmatch.
      rewrite (find_none _ _ E u Hu) in Hmatch. discriminate.
    + intros H. destruct (find _ _) as [w|] eqn:E; [|reflexivity].
      apply find_some in E. destruct E as [Hin Hm].
      apply matchesStudentId_iff in Hm. destruct (H w Hin Hm).
Qed.

Lemma certificateMetadata_resolves (env : Env) (tokenURI : string) (s : State) :
  certificateMetadata env tokenURI s
  = (Ok (resolve env (replace "ipfs://" "" tokenURI)),
     after s (attempts env (replace "ipfs://" "" tokenURI))).
Proof. unfold certificateMetadata. apply two_gateways. Qed.

Lemma loadCertificate_entry (env : Env) (id : N) (s : State) :
  fst (loadCertificate env id s) = certificateEntry env (ledger s) id
  /\ ledger (snd (loadCertificate env id s)) = ledger s.
Proof.
  unfold loadCertificate, certificateEntry, bind, call.
  destruct (getCertificateDetails (ledger s) id) as [d|e]; [|split; reflexivity].
  destruct (tokenURI (ledger s) id) as [u|e]; [|split; reflexivity].
  rewrite certificateMetadata_resolves. split; reflexivity.
Qed.

Lemma collect_each_ok {X A} (g : X -> Result A) (xs : list X) :
  (forall x, In x xs -> exists a, g x = Ok a) ->
  exists l, collect (map g xs) = Ok l /\ Forall2 (fun x a => g x = Ok a) xs l.
Proof.
  induction xs as [|x xs IH]; intros H; cbn.
  - exists []. split; [reflexivity | constructor].
  - destruct (H x (or_introl eq_refl)) as [a Ha].
    destruct (IH (fun y Hy => H y (or_intror Hy))) as [l [Hl HF]].
    exists (a :: l). rewrite Ha, Hl. split; [reflexivity | constructor; assumption].
Qed.

(** When both gateways are exhausted the resolution is [null]. *)
Lemma resolve_exhausted (env : Env) (contentId : string) :
  (exists e, gatewayRead env (pinata contentId) "Pinata fetch failed" = Throw e) ->
  (exists e, gatewayRead env (ipfs_io contentId) "ipfs.io fetch failed" = Throw e) ->
  resolve env contentId = JNull.
Proof. intros [e1 H1] [e2 H2]. unfold resolve. rewrite H1, H2. reflexivity. Qed.

(** [Number] is exact below 2^53, where every integer is a double: a
    timestamp in seconds or milliseconds is returned as the ledger has it. *)
Lemma Number_safe (n : N) : (n < 2 ^ 53)%N -> Number n = n.
Proof.
  intros H. unfold Number.
  destruct (N.leb_spec (N.size n) 53) as [_|Hs]; [reflexivity|].
  exfalso. destruct (N.eq_dec n 0) as [->|Hn]; [cbn in Hs; lia|].
  rewrite N.size_log2 in Hs by exact Hn.
  assert (N.log2 n < 53)%N by (apply N.log2_lt_pow2; lia). lia.
Qed.

(** Above 2^53 it rounds to the nearest double, a tie going to the even
    significand. *)
Lemma Number_rounds :
  Number 9007199254740993 = 9007199254740992%N
  /\ Number 9007199254740995 = 9007199254740996%N
  /\ Number 18014398509481987 = 18014398509481988%N.
Proof. repeat split. Qed.

(** C9. With a provider connected, the credential ledger configured and
    its reads answering ([getStudentCertificates] returns [ids], and
    [getCertificateDetails] and [tokenURI] answer for each of them),
    [getCertificatesByAddress] returns one entry per token id, in order.
    Field by field, the entry of a token id carries the decimal id, the
    name, institute, certificate type and student that
    [getCertificateDetails] returned, the issue date it returned as a
    [Number] (the date itself below 2^53), and the tokenURI that [tokenURI]
    returned.  Its metadata is the payload of Pinata for the tokenURI
    without its first [ipfs://] when Pinata answers, that of ipfs.io when
    only ipfs.io answers, and [null] when both fail.  No outcome of the
    gateways makes the call throw or changes the number of entries or one of
    the other fields, and the ledger is untouched. *)
Theorem getCertificatesByAddress_spec (env : Env) (p : BrowserProvider)
    (searchAddress : string) (ids : list N) (st : State) :
  provider env = Some p ->
  certificateNFTAddress env <> "" ->
  getStudentCertificates (ledger st) searchAddress = Ok ids ->
  (forall id, In id ids ->
     exists d u, getCertificateDetails (ledger st) id = Ok d /\ tokenURI (ledger st) id = Ok u) ->
  exists certs,
    fst (getCertificatesByAddress env searchAddress st) = Ok certs
    /\ length certs = length ids
    /\ Forall2 (fun id c =>
                  exists d u,
                    getCertificateDetails (ledger st) id = Ok d
                    /\ tokenURI (ledger st) id = Ok u
                    /\ cert_id c = toString id
                    /\ cert_name c = det_name d
                    /\ cert_institute c = det_institute d
                    /\ cert_issueDate c = Number (det_issueDate d)
                    /\ ((det_issueDate d < 2 ^ 53)%N -> cert_issueDate c = det_issueDate d)
                    /\ cert_certificateType c = det_certificateType d
                    /\ cert_student c = det_student d
                    /\ cert_tokenURI c = u
                    /\ cert_metadata c = resolve env (replace "ipfs://" "" u)
                    /\ (forall payload,
                          gatewayRead env (pinata (replace "ipfs://" "" u))
                            "Pinata fetch failed" = Ok payload ->
                          cert_metadata c = payload)
                    /\ (forall e payload,
                          gatewayRead env (pinata (replace "ipfs://" "" u))
                            "Pinata fetch failed" = Throw e ->
                          gatewayRead env (ipfs_io (replace "ipfs://" "" u))
                            "ipfs.io fetch failed" = Ok payload ->
                          cert_metadata c = payload)
                    /\ (forall e1 e2,
                          gatewayRead env (pinata (replace "ipfs://" "" u))
                            "Pinata fetch failed" = Throw e1 ->
                          gatewayRead env (ipfs_io (replace "ipfs://" "" u))
                            "ipfs.io fetch failed" = Throw e2 ->
                          cert_metadata c = JNull))
               ids certs
    /\ (forall contentId,
          (exists e, gatewayRead env (pinata contentId) "Pinata fetch failed" = Throw e) ->
          (exists e, gatewayRead env (ipfs_io contentId) "ipfs.io fetch failed" = Throw e) ->
          resolve env contentId = JNull)
    /\ ledger (snd (getCertificatesByAddress env searchAddress st)) = ledger st.
Proof.
  intros Hp Hc Hids Hreads.
  destruct (@collect_each_ok _ _ (certificateEntry env (ledger st)) ids) as [certs [Hcol HF]].
  { intros id Hid. destruct (Hreads id Hid) as [d [u [Hd Hu]]].
    unfold certificateEntry. rewrite Hd, Hu. eauto. }
  destruct (@promise_all_collect _ _ (fun s => ledger s = ledger st)
              (loadCertificate env) (certificateEntry env (ledger st)) ids) with (s := st)
    as [Hr Hl].
  { intros id s _ Hs. destruct (loadCertificate_entry env id s) as [H1 H2].
    rewrite H1, H2, Hs. split; reflexivity. }
  { reflexivity. }
  assert (E : getCertificatesByAddress env searchAddress st
              = promise_all (map (loadCertificate env) ids) st).
  { unfold getCertificatesByAddress, getCertificateContract.
    rewrite Hp, (emptyString_false Hc). unfold bind, call. rewrite Hids. reflexivity. }
  exists certs. rewrite E, Hr. split; [exact Hcol|]. split; [|split; [|split]].
  - symmetry. eapply Forall2_length. exact HF.
  - eapply Forall2_impl; [|exact HF]. cbv beta. intros id c Hc'.
    unfold certificateEntry in Hc'.
    destruct (getCertificateDetails (ledger st) id) as [d|e]; [|discriminate].
    destruct (tokenURI (ledger st) id) as [u|e]; [|discriminate].
    injection Hc' as <-. exists d, u.
    cbn [mkCertificate cert_id cert_name cert_institute cert_issueDate
         cert_certificateType cert_student cert_tokenURI cert_metadata].
    do 6 (split; [reflexivity|]). split; [apply Number_safe|].
    do 4 (split; [reflexivity|]). unfold resolve. split; [|split].
    + intros payload H1. rewrite H1. reflexivity.
    + intros e payload H1 H2. rewrite H1, H2. reflexivity.
    + intros e1 e2 H1 H2. rewrite H1, H2. reflexivity.
  - apply resolve_exhausted.
  - exact Hl.
Qed.

(** [fetchStudentProfile] asks ipfs.io only after a non-success response of
    Pinata: when the GET to Pinata itself throws, the outer [catch] returns
    [null] and ipfs.io is never asked. *)
Lemma fetchStudentProfile_transport_error (env : Env) (p : BrowserProvider)
    (address role hash : string) (e : JsError) (st : State) :
  provider env = Some p -> userRegistryAddress env <> "" ->
  getUser (ledger st) address = Ok (role, hash) -> hash <> "" ->
  fetch env (pinata hash) = Throw e ->
  fetchStudentProfile env address st = (Ok JNull, after st [EvFetch (pinata hash)]).
Proof.
  intros Hp Hr Hu Hh Hf. unfold fetchStudentProfile, getContract.
  rewrite Hp, (emptyString_false Hr). unfold_monad. rewrite Hu. cbv beta iota.
  rewrite (emptyString_false Hh). cbv beta iota. rewrite Hf. reflexivity.
Qed.

(** The search component asks one gateway, ipfs.io, and parses whatever
    body comes back, whatever the status. *)
Lemma searchMetadata_one_gateway (env : Env) (tokenURI : string) (s : State) :
  searchMetadata env tokenURI s
  = (Ok match fetch env (ipfs_io (replace "ipfs://" "" tokenURI)) with
        | Ok response => match json response with Ok payload => payload | Throw _ => JNull end
        | Throw _ => JNull
        end,
     after s [EvFetch (ipfs_io (replace "ipfs://" "" tokenURI))]).
Proof.
  unfold searchMetadata. unfold_monad. cbn.
  destruct (fetch env _) as [response|e]; [|reflexivity].
  destruct (json response); reflexivity.
Qed.

(** ** Provider classification and silent failures (C4, C7) *)

Lemma getAllRegisteredUsers_reads (env : Env) (st : State) :
  snd (getAllRegisteredUsers env st) = st.
Proof.
  unfold getAllRegisteredUsers.
  destruct (provider env); [|reflexivity].
  destruct (getContract env _); [|reflexivity].
  unfold bind, call. destruct (getAllUsers (ledger st)) as [addresses|e]; [|reflexivity].
  rewrite (@promise_all_reads _ _ _ (identityRecord (ledger st)) addresses st); [reflexivity|].
  intros a _. unfold identityRecord, bind, call, ret.
  destruct (getUser (ledger st) a) as [[r h]|e]; reflexivity.
Qed.

Lemma withAuthorization_reads (providers : list RegisteredUser) (s : State) :
  withAuthorization providers s
  = (collect (map (providerStatus (ledger s)) providers), s).
Proof.
  unfold withAuthorization. apply promise_all_reads.
  intros u _. unfold providerStatus, bind, call, ret.
  destruct (authorizedInstitutes (ledger s) (address u)); reflexivity.
Qed.

(** Both listings are one classification, filtered. *)
Lemma provider_listings (env : Env) (p : BrowserProvider) (users : list RegisteredUser)
    (st : State) :
  provider env = Some p -> certificateNFTAddress env <> "" ->
  getAllRegisteredUsers env st = (Ok users, st) ->
  fetchAuthorizedProviders env st
  = (match collect (map (providerStatus (ledger st)) (filter isProvider users)) with
     | Ok statuses => Ok (filter isAuthorized statuses)
     | Throw e => Throw e
     end, st)
  /\ fetchPendingProviders env st
     = (match collect (map (providerStatus (ledger st)) (filter isProvider users)) with
        | Ok statuses => Ok (filter (fun ps => negb (isAuthorized ps)) statuses)
        | Throw e => Throw e
        end, st).
Proof.
  intros Hp Hc Hall.
  unfold fetchAuthorizedProviders, fetchPendingProviders, getCertificateContract.
  rewrite Hp, (emptyString_false Hc). unfold bind. rewrite Hall, withAuthorization_reads.
  destruct (collect _); split; reflexivity.
Qed.

(** C4, as the code has it.  With the identities enumerated and the
    credential ledger configured, the two provider listings are all or
    nothing: if [authorizedInstitutes] throws for any one registered
    provider, both [fetchAuthorizedProviders] and [fetchPendingProviders]
    throw and return no listing at all; if it answers for every registered
    provider, every provider is classified, in enumeration order, and the
    listings are the providers whose flag is true, respectively false. *)
Theorem provider_classification_all_or_nothing (env : Env) (p : BrowserProvider)
    (users : list RegisteredUser) (st : State) :
  provider env = Some p ->
  certificateNFTAddress env <> "" ->
  getAllRegisteredUsers env st = (Ok users, st) ->
  ((exists u e, In u users /\ isProvider u = true
                /\ authorizedInstitutes (ledger st) (address u) = Throw e) ->
     (exists e, fetchAuthorizedProviders env st = (Throw e, st))
     /\ (exists e, fetchPendingProviders env st = (Throw e, st)))
  /\ ((forall u, In u users -> isProvider u = true ->
                 exists b, authorizedInstitutes (ledger st) (address u) = Ok b) ->
      exists statuses,
        map user statuses = filter isProvider users
        /\ (forall ps, In ps statuses ->
               authorizedInstitutes (ledger st) (address (user ps)) = Ok (isAuthorized ps))
        /\ fetchAuthorizedProviders env st = (Ok (filter isAuthorized statuses), st)
        /\ fetchPendingProviders env st
           = (Ok (filter (fun ps => negb (isAuthorized ps)) statuses), st)).
Proof.
  intros Hp Hc Hall.
  destruct (@provider_listings env p users st Hp Hc Hall) as [-> ->]. split.
  - intros [u [e [Hu [Hprov Hthrow]]]].
    assert (Hin : exists e', In (Throw e') (map (providerStatus (ledger st))
                                              (filter isProvider users))).
    { exists e. apply in_map_iff. exists u. split.
      - unfold providerStatus. rewrite Hthrow. reflexivity.
      - apply filter_In. auto. }
    apply collect_throws in Hin. destruct Hin as [e' ->]. split; eauto.
  - intros Hok.
    destruct (@collect_each_ok _ _ (providerStatus (ledger st)) (filter isProvider users))
      as [statuses [-> HF]].
    { intros u Hu. apply filter_In in Hu. destruct Hu as [Hu Hprov].
      destruct (Hok u Hu Hprov) as [b Hb]. unfold providerStatus. rewrite Hb. eauto. }
    exists statuses. split; [|split; [|split; reflexivity]].
    + induction HF as [|u ps us pss Hu _ IH]; [reflexivity|]. cbn. f_equal; [|exact IH].
      unfold providerStatus in Hu.
      destruct (authorizedInstitutes (ledger st) (address u)); [|discriminate].
      injection Hu as <-. reflexivity.
    + induction HF as [|u ps us pss Hu _ IH]; [contradiction|].
      intros ps' [<- | Hin]; [|auto].
      unfold providerStatus in Hu.
      destruct (authorizedInstitutes (ledger st) (address u)) eqn:E; [|discriminate].
      injection Hu as <-. exact E.
Qed.

(** C7, as the code has it.  Besides the per-item degradations, these
    failures of a whole operation come back as an empty success:
    [fetchProviderCertificateRequests] returns [[]] without a provider or
    active account and when [getSigner] or [requestCounter] throws;
    [getStudentByStudentId] returns [null] without a provider and when the
    enumeration of identities throws; [fetchPendingProviders] and
    [fetchAuthorizedProviders] return [[]] without a provider and when the
    credential-ledger address is unset.  A failed enumeration does make the
    two provider listings throw, and without a provider
    [getAllRegisteredUsers] and [getCertificatesByAddress] throw. *)
Theorem failures_returned_as_empty_results (env : Env) (st : State) :
  (walletMissing env = true -> fetchProviderCertificateRequests env st = (Ok [], st))
  /\ (forall p e, provider env = Some p ->
         getSigner p = Throw e \/ requestCounter (ledger st) = Throw e ->
         fetchProviderCertificateRequests env st = (Ok [], st))
  /\ (forall studentId, provider env = None ->
         getStudentByStudentId env studentId st = (Ok None, st))
  /\ (forall studentId e, getAllRegisteredUsers env st = (Throw e, st) ->
         getStudentByStudentId env studentId st = (Ok None, st))
  /\ (provider env = None ->
         fetchPendingProviders env st = (Ok [], st)
         /\ fetchAuthorizedProviders env st = (Ok [], st))
  /\ (forall users, certificateNFTAddress env = "" ->
         getAllRegisteredUsers env st = (Ok users, st) ->
         fetchPendingProviders env st = (Ok [], st)
         /\ fetchAuthorizedProviders env st = (Ok [], st))
  /\ (forall p e, provider env = Some p ->
         getAllRegisteredUsers env st = (Throw e, st) ->
         fetchPendingProviders env st = (Throw e, st)
         /\ fetchAuthorizedProviders env st = (Throw e, st))
  /\ (provider env = None ->
         getAllRegisteredUsers env st = (Throw (Error "Provider not available"), st)
         /\ forall searchAddress,
              getCertificatesByAddress env searchAddress st
              = (Throw (Error "Provider not available"), st)).
Proof.
  repeat match goal with |- _ /\ _ => split end.
  - unfold walletMissing, fetchProviderCertificateRequests.
    destruct (provider env); [|reflexivity]. intros ->. reflexivity.
  - intros p e Hp H. unfold fetchProviderCertificateRequests. rewrite Hp.
    destruct (falsy (account env)); [reflexivity|].
    unfold try_catch, bind at 1, await, ret.
    destruct (getSigner p) as [[]|e']; [|reflexivity].
    destruct H as [H|H]; [discriminate|].
    unfold bind at 1, call. rewrite H. reflexivity.
  - intros studentId Hp. unfold getStudentByStudentId. rewrite Hp. reflexivity.
  - intros studentId e Hall. unfold getStudentByStudentId.
    destruct (provider env); [|reflexivity].
    unfold try_catch, bind. rewrite Hall. reflexivity.
  - intros Hp. unfold fetchPendingProviders, fetchAuthorizedProviders. rewrite Hp.
    split; reflexivity.
  - intros users Hc Hall. unfold fetchPendingProviders, fetchAuthorizedProviders.
    destruct (provider env) as [p|] eqn:Hp; [|split; reflexivity].
    unfold bind, getCertificateContract. rewrite Hall, Hc. split; reflexivity.
  - intros p e Hp Hall. unfold fetchPendingProviders, fetchAuthorizedProviders.
    rewrite Hp. unfold bind. rewrite Hall. split; reflexivity.
  - intros Hp. unfold getAllRegisteredUsers, getCertificatesByAddress. rewrite Hp.
    split; reflexivity.
Qed.

(** ** Registration (C6) *)

Lemma fetchUserData_refreshes (env : Env) (s : State) :
  fst (fetchUserData env s) = Ok tt
  /\ ledger (snd (fetchUserData env s)) = ledger s
  /\ trace (snd (fetchUserData env s)) = trace s.
Proof.
  unfold fetchUserData.
  destruct (account env) as [a|]; [|split; [|split]; reflexivity].
  destruct (provider env) as [p|]; [|split; [|split]; reflexivity].
  destruct (emptyString a); [split; [|split]; reflexivity|].
  unfold getContract. destruct (emptyString (userRegistryAddress env)).
  { split; [|split]; reflexivity. }
  unfold_monad. cbn.
  destruct (getUser (ledger s) a) as [[r h]|e]; [|split; [|split]; reflexivity].
  cbn. destruct (isUserRegistered (ledger s) a) as [b|e]; (split; [|split]; reflexivity).
Qed.

Lemma sends_after (s : State) (evs : list Event) :
  filter isSend (trace (after s evs)) = (filter isSend (trace s) ++ filter isSend evs)%list.
Proof. unfold after. cbn. apply filter_app. Qed.

Lemma after_nothing (st : State) : after st [] = st.
Proof. destruct st. unfold after. cbn. rewrite app_nil_r. reflexivity. Qed.

Lemma buildMetadata_outcome (env : Env) (role : Role) (studentData : option StudentData)
    (providerData : option ProviderData) (st : State) :
  exists evs, filter isSend evs = []
    /\ ((exists e, buildMetadata env role studentData providerData st
                   = (Throw e, after st evs))
        \/ (exists metadata,
              builtFrom env role studentData providerData metadata
              /\ buildMetadata env role studentData providerData st
                 = (Ok metadata, after st evs))).
Proof.
  unfold buildMetadata, builtFrom. destruct role.
  - exists []. split; [reflexivity|]. rewrite after_nothing.
    destruct studentData as [sd|].
    + right. eexists. split; [eauto|]. reflexivity.
    + left. eexists. reflexivity.
  - destruct providerData as [pd|].
    + exists [EvUploadFile (pd_document pd)]. split; [reflexivity|]. unfold_monad.
      destruct (uploadFileToIPFS env (pd_document pd)) as [docResponse|e] eqn:Hdoc.
      * right. eexists. split; [eauto|]. reflexivity.
      * left. eexists. reflexivity.
    + exists []. split; [reflexivity|]. rewrite after_nothing. left. eexists. reflexivity.
Qed.

(** Every run of [registerUser] either throws with the ledger as it was and
    no transaction submitted, or submits exactly one transaction -- and then
    the payload was present, the document upload (for a provider) answered,
    and the metadata upload answered with a non-empty content identifier,
    the one the transaction carries.  Whether the document upload answered
    with a content identifier is not looked at. *)
Lemma registerUser_outcome (env : Env) (role : Role) (studentData : option StudentData)
    (providerData : option ProviderData) (st st' : State) (r : Result unit) :
  registerUser env role studentData providerData st = (r, st') ->
  ((exists e, r = Throw e)
   /\ ledger st' = ledger st
   /\ filter isSend (trace st') = filter isSend (trace st))
  \/ (exists metadata c,
        builtFrom env role studentData providerData metadata
        /\ uploadJSONToIPFS env metadata = Ok {| cid := Some c |}
        /\ c <> ""
        /\ filter isSend (trace st')
           = (filter isSend (trace st) ++ [EvSend (registerUserTx (roleString role) c)])%list).
Proof.
  unfold registerUser. intros H.
  destruct (provider env) as [p|]; [|left; inversion H; eauto].
  destruct (falsy (account env)); [left; inversion H; eauto|].
  destruct (emptyString (userRegistryAddress env)); [left; inversion H; eauto|].
  unfold bind at 1, await in H.
  destruct (getSigner p) as [[]|e]; [|left; inversion H; eauto].
  unfold bind at 1 in H.
  destruct (buildMetadata_outcome env role studentData providerData st)
    as [evs [Hevs [[e Hmd] | [metadata [Hbuilt Hmd]]]]]; rewrite Hmd in H.
  { left. inversion H; subst. rewrite sends_after, Hevs, app_nil_r. eauto. }
  unfold_monad. cbn in H.
  destruct (uploadJSONToIPFS env metadata) as [[[c|]]|e] eqn:Hup; cbn in H.
  - destruct (emptyString c) eqn:Hc.
    + left. inversion H; subst. cbn. rewrite !filter_app, Hevs. cbn.
      rewrite !app_nil_r. eauto.
    + right. exists metadata, c. split; [exact Hbuilt|]. split; [exact Hup|].
      split; [intros ->; discriminate|].
      cbn in H.
      destruct (chain env (registerUserTx (roleString role) c) (ledger st)) as [l'|e].
      * match type of H with
        | fetchUserData env ?s = _ =>
            destruct (fetchUserData_refreshes env s) as [_ [_ Ht]]
        end.
        rewrite H in Ht. cbn in Ht. rewrite Ht, !filter_app, Hevs. cbn.
        rewrite !app_nil_r. reflexivity.
      * inversion H; subst. cbn. rewrite !filter_app, Hevs. cbn.
        rewrite !app_nil_r. reflexivity.
  - left. inversion H; subst. cbn. rewrite !filter_app, Hevs. cbn.
    rewrite !app_nil_r. eauto.
  - left. inversion H; subst. cbn. rewrite !filter_app, Hevs. cbn.
    rewrite !app_nil_r. eauto.
Qed.

(** A missing payload is refused before any upload or write. *)
Lemma registerUser_missing_payload (env : Env) (p : BrowserProvider) (st : State) :
  provider env = Some p -> falsy (account env) = false ->
  userRegistryAddress env <> "" -> getSigner p = Ok tt ->
  (forall providerData,
     registerUser env student_role None providerData st
     = (Throw (Error "Missing student data"), st))
  /\ (forall studentData,
        registerUser env provider_role studentData None st
        = (Throw (Error "Missing provider data"), st)).
Proof.
  intros Hp Ha Hr Hs. unfold registerUser.
  rewrite Hp, Ha, (emptyString_false Hr). unfold_monad. rewrite Hs. split; reflexivity.
Qed.

End Properties.

(** * More of the code *)

Section Further.

Context {CF : CaseFold}.

Ltac unfold_js :=
  unfold send, httpGet, bind, ret, throw, try_catch, try_finally, await, call, emit,
    setLedger, setUserData, setLoading in *.

(** ** Reads write nothing *)

Lemma quiet_refl (s : State) : quiet s s.
Proof. split; reflexivity. Qed.

Lemma quiet_trans (s1 s2 s3 : State) : quiet s1 s2 -> quiet s2 s3 -> quiet s1 s3.
Proof. unfold quiet. intros [H1 H2] [H3 H4]. split; congruence. Qed.

Lemma quiet_after (s : State) (evs : list Event) :
  filter isSend evs = [] -> quiet s (after s evs).
Proof.
  intros H. split; [reflexivity|]. unfold sends, after. cbn.
  rewrite filter_app, H, app_nil_r. reflexivity.
Qed.

Lemma Quiet_ret {A} (a : A) : Quiet (ret a).
Proof. intros s. apply quiet_refl. Qed.

Lemma Quiet_throw {A} (e : JsError) : Quiet (@throw A e).
Proof. intros s. apply quiet_refl. Qed.

Lemma Quiet_await {A} (r : Result A) : Quiet (await r).
Proof. intros s. apply quiet_refl. Qed.

Lemma Quiet_call {A} (read : Ledger -> Result A) : Quiet (call read).
Proof. intros s. apply quiet_refl. Qed.

Lemma Quiet_setUserData (u : option UserData) : Quiet (setUserData u).
Proof. intros s. split; reflexivity. Qed.

Lemma Quiet_setLoading (b : bool) : Quiet (setLoading b).
Proof. intros s. split; reflexivity. Qed.

Lemma Quiet_bind {A B} (m : M A) (k : A -> M B) :
  Quiet m -> (forall a, Quiet (k a)) -> Quiet (bind m k).
Proof.
  intros Hm Hk s. unfold bind. specialize (Hm s).
  destruct (m s) as [[a|e] s1]; cbn in Hm; [|exact Hm].
  eapply quiet_trans; [exact Hm | apply Hk].
Qed.

Lemma Quiet_try_catch {A} (m : M A) (h : JsError -> M A) :
  Quiet m -> (forall e, Quiet (h e)) -> Quiet (try_catch m h).
Proof.
  intros Hm Hh s. unfold try_catch. specialize (Hm s).
  destruct (m s) as [[a|e] s1]; cbn in Hm; [exact Hm|].
  eapply quiet_trans; [exact Hm | apply Hh].
Qed.

Lemma Quiet_try_finally {A} (m : M A) (f : M unit) :
  Quiet m -> Quiet f -> Quiet (try_finally m f).
Proof.
  intros Hm Hf s. unfold try_finally. specialize (Hm s).
  destruct (m s) as [r s1]. cbn in Hm. specialize (Hf s1).
  destruct (f s1) as [[[]|e] s2]; cbn in Hf; eapply quiet_trans; eassumption.
Qed.

Lemma Quiet_httpGet (env : Env) (url : string) : Quiet (httpGet env url).
Proof.
  intros s. unfold httpGet, bind, emit, await. cbn.
  apply (@quiet_after s [EvFetch url]). reflexivity.
Qed.

Lemma Quiet_promise_all {X A} (f : X -> M A) (xs : list X) :
  (forall x, Quiet (f x)) -> Quiet (promise_all (map f xs)).
Proof.
  intros Hf. induction xs as [|x xs IH]; intros s; cbn.
  - apply quiet_refl.
  - specialize (Hf x s). destruct (f x s) as [r s1]. cbn in Hf.
    specialize (IH s1). destruct (promise_all (map f xs) s1) as [rs s2]. cbn in IH |- *.
    eapply quiet_trans; eassumption.
Qed.

Ltac quiet_step :=
  match goal with
  | |- Quiet (bind _ _) => apply Quiet_bind; [|intros ?]
  | |- Quiet (try_catch _ _) => apply Quiet_try_catch; [|intros ?]
  | |- Quiet (try_finally _ _) => apply Quiet_try_finally
  | |- Quiet (ret _) => apply Quiet_ret
  | |- Quiet (throw _) => apply Quiet_throw
  | |- Quiet (await _) => apply Quiet_await
  | |- Quiet (call _) => apply Quiet_call
  | |- Quiet (setUserData _) => apply Quiet_setUserData
  | |- Quiet (setLoading _) => apply Quiet_setLoading
  | |- Quiet (httpGet _ _) => apply Quiet_httpGet
  | |- Quiet (promise_all (map _ _)) => apply Quiet_promise_all; intros ?
  | |- Quiet (match ?x with _ => _ end) => destruct x
  end.

Ltac quiet := repeat quiet_step.

Lemma Quiet_fromGateway (env : Env) (url failure : string) :
  Quiet (fromGateway env url failure).
Proof. unfold fromGateway. quiet. Qed.

Lemma Quiet_fetchStudentMetadata (env : Env) (a h : string) :
  Quiet (fetchStudentMetadata env a h).
Proof. unfold fetchStudentMetadata. quiet; apply Quiet_fromGateway. Qed.

Lemma Quiet_getAllRegisteredUsers (env : Env) : Quiet (getAllRegisteredUsers env).
Proof. unfold getAllRegisteredUsers. quiet. Qed.

Lemma Quiet_withAuthorization (providers : list RegisteredUser) :
  Quiet (withAuthorization providers).
Proof. unfold withAuthorization. quiet. Qed.

Lemma Quiet_scanStudents (env : Env) (studentId : string) (students : list RegisteredUser) :
  Quiet (scanStudents env studentId students).
Proof.
  induction students as [|u rest IH]; cbn [scanStudents]; [apply Quiet_ret|].
  apply Quiet_bind.
  - unfold examineStudent. quiet. apply Quiet_fetchStudentMetadata.
  - intros [hit|]; [apply Quiet_ret | exact IH].
Qed.

Lemma Quiet_certificateMetadata (env : Env) (tokenURI : string) :
  Quiet (certificateMetadata env tokenURI).
Proof. unfold certificateMetadata. quiet; apply Quiet_fromGateway. Qed.

Lemma Quiet_fetchUserData (env : Env) : Quiet (fetchUserData env).
Proof. unfold fetchUserData. quiet. Qed.

(** X1. No read operation of the context, nor the certificate search,
    ever submits a transaction or changes the ledger, whatever the
    environment answers and whether the operation returns or throws. *)
Theorem reads_write_nothing (env : Env) :
  (forall a, Quiet (checkIsOwner env a))
  /\ Quiet (getAllRegisteredUsers env)
  /\ (forall a, Quiet (getRegisteredUser env a))
  /\ Quiet (fetchAuthorizedProviders env)
  /\ Quiet (fetchPendingProviders env)
  /\ (forall studentId, Quiet (getStudentByStudentId env studentId))
  /\ (forall a, Quiet (getCertificatesByAddress env a))
  /\ Quiet (fetchProviderCertificateRequests env)
  /\ (forall a h, Quiet (fetchStudentMetadata env a h))
  /\ (forall a, Quiet (fetchProviderMetadata env a))
  /\ (forall a, Quiet (checkInstituteAuthorization env a))
  /\ (forall a, Quiet (fetchStudentProfile env a))
  /\ Quiet (fetchUserData env)
  /\ (forall a view, Quiet (handleSearch env a view)).
Proof.
  repeat match goal with |- _ /\ _ => split end.
  - intros a. unfold checkIsOwner. quiet.
  - apply Quiet_getAllRegisteredUsers.
  - intros a. unfold getRegisteredUser. quiet.
  - unfold fetchAuthorizedProviders. quiet.
    + apply Quiet_getAllRegisteredUsers.
    + apply Quiet_withAuthorization.
  - unfold fetchPendingProviders. quiet.
    + apply Quiet_getAllRegisteredUsers.
    + apply Quiet_withAuthorization.
  - intros studentId. unfold getStudentByStudentId. quiet.
    + apply Quiet_getAllRegisteredUsers.
    + apply Quiet_scanStudents.
  - intros a. unfold getCertificatesByAddress. quiet.
    unfold loadCertificate. quiet. apply Quiet_certificateMetadata.
  - unfold fetchProviderCertificateRequests. quiet. unfold loadRequest. quiet.
  - intros a h. apply Quiet_fetchStudentMetadata.
  - intros a. unfold fetchProviderMetadata. quiet; apply Quiet_fromGateway.
  - intros a. unfold checkInstituteAuthorization. quiet.
  - intros a. unfold fetchStudentProfile. quiet.
  - apply Quiet_fetchUserData.
  - intros a view. unfold handleSearch. quiet.
    unfold searchCertificate, searchMetadata. quiet.
Qed.

(** ** Writes are single transactions *)

Lemma sends_emit (s : State) (ev : Event) :
  sends (after s [ev]) = (sends s ++ filter isSend [ev])%list.
Proof. unfold sends, after. cbn [trace]. apply filter_app. Qed.

Lemma send_outcome (env : Env) (tx : Tx) (s : State) :
  writeOutcome env (eq tx) s (send env tx s).
Proof.
  right. exists tx. split; [reflexivity|].
  unfold send, bind, emit, call, setLedger. cbn.
  destruct (chain env tx (ledger s)) as [l'|e]; cbn;
    (split; [unfold sends; cbn; apply filter_app | split; reflexivity]).
Qed.

Lemma writeOutcome_threw (env : Env) (allowed : Tx -> Prop) (s : State) (e : JsError) :
  writeOutcome env allowed s (Throw e, s).
Proof. left. split; [eexists; reflexivity | apply quiet_refl]. Qed.

Lemma writeOutcome_weaken (env : Env) (allowed allowed' : Tx -> Prop) (s : State)
    (out : Result unit * State) :
  (forall tx, allowed tx -> allowed' tx) ->
  writeOutcome env allowed s out -> writeOutcome env allowed' s out.
Proof.
  intros Hw [H | [tx [Ha H]]]; [left; exact H | right; exists tx; auto].
Qed.

Lemma writeOutcome_after_quiet (env : Env) (allowed : Tx -> Prop) (s s1 : State)
    (out : Result unit * State) :
  quiet s s1 -> writeOutcome env allowed s1 out -> writeOutcome env allowed s out.
Proof.
  intros [Hl Hs] [[He Hq] | [tx [Ha [Hsend Hchain]]]].
  - left. split; [exact He|]. eapply quiet_trans; [split; eassumption | exact Hq].
  - right. exists tx. split; [exact Ha|]. rewrite <- Hs, <- Hl. split; assumption.
Qed.

(** X2. Every write operation of the context either throws having written
    nothing, or submits exactly one transaction -- of its own kind, for the
    arguments it was given -- and then it succeeds exactly when the chain
    accepts, with the ledger the chain answered; when the chain rejects, the
    rejection is thrown unchanged and the ledger is as it was. *)
Theorem writes_submit_one_transaction (env : Env) (st : State) :
  (forall x, writeOutcome env (eq (authorizeInstituteTx x)) st (authorizeInstitute env x st))
  /\ (forall x, writeOutcome env (eq (revokeInstituteTx x)) st (revokeInstitute env x st))
  /\ (forall requestId certificateType tokenURI institutionName,
        writeOutcome env
          (eq (approveCertificateRequestTx requestId certificateType tokenURI institutionName))
          st (approveCertificateRequest env requestId certificateType tokenURI
                institutionName st))
  /\ (forall requestId,
        writeOutcome env (eq (cancelCertificateRequestTx requestId)) st
          (cancelCertificateRequest env requestId st))
  /\ (forall providerAddress certificateName message,
        writeOutcome env
          (fun tx => exists pointer,
                       tx = requestCertificateTx providerAddress certificateName message pointer)
          st (requestCertificateIssuance env providerAddress certificateName message st))
  /\ (forall role studentData providerData,
        writeOutcome env
          (fun tx => exists c, c <> "" /\ tx = registerUserTx (roleString role) c)
          st (registerUser env role studentData providerData st)).
Proof.
  repeat match goal with |- _ /\ _ => split end.
  - intros x. unfold authorizeInstitute.
    destruct (provider env) as [p|]; [|apply writeOutcome_threw].
    destruct (falsy (account env)); [apply writeOutcome_threw|].
    unfold bind at 1, await. destruct (getSigner p) as [[]|e]; [|apply writeOutcome_threw].
    unfold bind at 1, call. destruct (owner (ledger st)) as [o|e]; [|apply writeOutcome_threw].
    destruct (negb _); [apply writeOutcome_threw | apply send_outcome].
  - intros x. unfold revokeInstitute.
    destruct (provider env) as [p|]; [|apply writeOutcome_threw].
    destruct (falsy (account env)); [apply writeOutcome_threw|].
    unfold bind at 1, await. destruct (getSigner p) as [[]|e]; [|apply writeOutcome_threw].
    unfold bind at 1, call. destruct (owner (ledger st)) as [o|e]; [|apply writeOutcome_threw].
    destruct (negb _); [apply writeOutcome_threw | apply send_outcome].
  - intros requestId certificateType tokenURI institutionName.
    unfold approveCertificateRequest.
    destruct (provider env) as [p|]; [|apply writeOutcome_threw].
    destruct (falsy (account env)); [apply writeOutcome_threw|].
    unfold bind at 1, await. destruct (getSigner p) as [[]|e]; [|apply writeOutcome_threw].
    apply send_outcome.
  - intros requestId. unfold cancelCertificateRequest.
    destruct (provider env) as [p|]; [|apply writeOutcome_threw].
    destruct (falsy (account env)); [apply writeOutcome_threw|].
    unfold bind at 1, await. destruct (getSigner p) as [[]|e]; [|apply writeOutcome_threw].
    apply send_outcome.
  - intros providerAddress certificateName message. unfold requestCertificateIssuance.
    destruct (provider env) as [p|] eqn:Hp; [|apply writeOutcome_threw].
    destruct (falsy (account env)); [apply writeOutcome_threw|].
    destruct (emptyString (certificateNFTAddress env)); [apply writeOutcome_threw|].
    unfold bind at 1, await. destruct (getSigner p) as [[]|e]; [|apply writeOutcome_threw].
    destruct (getContract env (Some p)); [|apply writeOutcome_threw].
    unfold bind at 1, call.
    destruct (getUser (ledger st) (accountString env)) as [[role pointer]|e];
      [|apply writeOutcome_threw].
    eapply writeOutcome_weaken; [|apply send_outcome].
    intros tx <-. eauto.
  - intros role studentData providerData. unfold registerUser.
    destruct (provider env) as [p|]; [|apply writeOutcome_threw].
    destruct (falsy (account env)); [apply writeOutcome_threw|].
    destruct (emptyString (userRegistryAddress env)); [apply writeOutcome_threw|].
    unfold bind at 1, await. destruct (getSigner p) as [[]|e]; [|apply writeOutcome_threw].
    unfold bind at 1.
    destruct (@buildMetadata_outcome env role studentData providerData st)
      as [evs [Hevs [[e Hmd] | [metadata [_ Hmd]]]]]; rewrite Hmd.
    { left. split; [eexists; reflexivity | apply quiet_after; exact Hevs]. }
    apply (@writeOutcome_after_quiet env _ st (after (after st evs) [EvUploadJSON metadata])).
    { eapply quiet_trans; [apply quiet_after; exact Hevs | apply quiet_after; reflexivity]. }
    unfold bind at 1, emit. fold (after (after st evs) [EvUploadJSON metadata]).
    set (s1 := after (after st evs) [EvUploadJSON metadata]).
    unfold bind at 1, await.
    destruct (uploadJSONToIPFS env metadata) as [[[c|]]|e]; cbn [cid];
      [|apply writeOutcome_threw|apply writeOutcome_threw].
    destruct (emptyString c) eqn:Hc; [apply writeOutcome_threw|].
    pose proof (send_outcome env (registerUserTx (roleString role) c) s1) as Hsend.
    unfold bind.
    destruct (send env (registerUserTx (roleString role) c) s1) as [[[]|e] s2] eqn:Es.
    + destruct Hsend as [[[e He] _] | [tx [<- [Hs Hchain]]]]; [discriminate|].
      right. exists (registerUserTx (roleString role) c). split.
      { exists c. split; [intros ->; discriminate | reflexivity]. }
      destruct (fetchUserData_refreshes env s2) as [Hr [Hl Ht]].
      cbn [fst snd] in *. split.
      * unfold sends in *. rewrite Ht. exact Hs.
      * destruct (chain env _ (ledger s1)) as [l'|e].
        -- split; [exact Hr | rewrite Hl; apply Hchain].
        -- destruct Hchain as [Habs _]. discriminate.
    + eapply writeOutcome_weaken; [|exact Hsend].
      intros tx <-. exists c. split; [intros ->; discriminate | reflexivity].
Qed.

(** ** What the writes check, and what they leave to the ledger *)

(** X3. [approveCertificateRequest] and [cancelCertificateRequest] know
    one refusal of their own, [WalletNotConnected].  With a wallet connected
    and its signer available they submit the transaction for whatever
    request id they are given -- whoever the institute of the request is,
    and whether or not the request exists. *)
Theorem approve_and_cancel_check_the_wallet_only (env : Env) (st : State) :
  (walletMissing env = true ->
     (forall requestId certificateType tokenURI institutionName,
        approveCertificateRequest env requestId certificateType tokenURI institutionName st
        = (Throw WalletNotConnected, st))
     /\ (forall requestId,
           cancelCertificateRequest env requestId st = (Throw WalletNotConnected, st)))
  /\ (forall p a,
        provider env = Some p -> account env = Some a -> a <> "" -> getSigner p = Ok tt ->
        (forall requestId certificateType tokenURI institutionName,
           trace (snd (approveCertificateRequest env requestId certificateType tokenURI
                         institutionName st))
           = (trace st ++ [EvSend (approveCertificateRequestTx requestId certificateType
                                     tokenURI institutionName)])%list)
        /\ (forall requestId,
              trace (snd (cancelCertificateRequest env requestId st))
              = (trace st ++ [EvSend (cancelCertificateRequestTx requestId)])%list)).
Proof.
  split.
  - unfold walletMissing, approveCertificateRequest, cancelCertificateRequest.
    destruct (provider env); [|split; reflexivity].
    intros ->. split; reflexivity.
  - intros p a Hp Ha Hne Hs.
    unfold approveCertificateRequest, cancelCertificateRequest.
    rewrite Hp, Ha, (falsy_some Hne). unfold_js. rewrite Hs. split; intros; cbn.
    + destruct (chain env _ (ledger st)); reflexivity.
    + destruct (chain env _ (ledger st)); reflexivity.
Qed.

(** X4. With a wallet connected, [requestCertificateIssuance] refuses on
    its own account only for configuration: an unset credential-ledger
    address, before the signer is asked, and an unset registry address.  A
    failing [getUser] is thrown on.  It looks at no role: whatever role and
    pointer [getUser] returns for the active account, the request is
    submitted with that pointer. *)
Theorem requestCertificateIssuance_checks_no_role (env : Env) (p : BrowserProvider)
    (a providerAddress certificateName message : string) (st : State) :
  provider env = Some p ->
  account env = Some a ->
  a <> "" ->
  (certificateNFTAddress env = "" ->
     requestCertificateIssuance env providerAddress certificateName message st
     = (Throw (Error "CertificateNFT contract address not set"), st))
  /\ (certificateNFTAddress env <> "" -> getSigner p = Ok tt ->
        (userRegistryAddress env = "" ->
           requestCertificateIssuance env providerAddress certificateName message st
           = (Throw (Error "User Registry contract not initialized"), st))
        /\ (userRegistryAddress env <> "" ->
              (forall e, getUser (ledger st) a = Throw e ->
                 requestCertificateIssuance env providerAddress certificateName message st
                 = (Throw e, st))
              /\ (forall role pointer, getUser (ledger st) a = Ok (role, pointer) ->
                    trace (snd (requestCertificateIssuance env providerAddress
                                  certificateName message st))
                    = (trace st ++ [EvSend (requestCertificateTx providerAddress
                                              certificateName message pointer)])%list))).
Proof.
  intros Hp Ha Hne. unfold requestCertificateIssuance, getContract, accountString.
  rewrite Hp, Ha, (falsy_some Hne). split.
  - intros ->. reflexivity.
  - intros Hc Hs. rewrite (emptyString_false Hc). unfold_js. rewrite Hs. split.
    + intros ->. reflexivity.
    + intros Hr. rewrite (emptyString_false Hr). split.
      * intros e ->. reflexivity.
      * intros role pointer ->. cbn. destruct (chain env _ (ledger st)); reflexivity.
Qed.

(** ** The ownership check and the gate it announces *)

(** X5. [checkIsOwner] answers [true] exactly when a provider is
    connected, the credential-ledger address is set, and [owner()] answers
    an address equal to the given one up to case. *)
Theorem checkIsOwner_true_iff (env : Env) (address : string) (st : State) :
  fst (checkIsOwner env address st) = Ok true
  <-> provider env <> None
      /\ certificateNFTAddress env <> ""
      /\ exists o, owner (ledger st) = Ok o /\ toLowerCase o = toLowerCase address.
Proof.
  unfold checkIsOwner, getCertificateContract.
  destruct (provider env) as [p|].
  2: { cbn. split; [discriminate | intros [H _]; congruence]. }
  destruct (certificateNFTAddress env) as [|c rest]; cbn [emptyString].
  { cbn. split; [discriminate | intros [_ [H _]]; congruence]. }
  unfold_js. destruct (owner (ledger st)) as [o|e]; cbn.
  - split.
    + intros H. injection H as H. apply String.eqb_eq in H.
      split; [discriminate|]. split; [discriminate|]. eauto.
    + intros [_ [_ [o' [Ho Heq]]]]. injection Ho as <-.
      rewrite Heq, String.eqb_refl. reflexivity.
  - split; [discriminate|]. intros [_ [_ [o' [Ho _]]]]. discriminate.
Qed.

(** X6. The check and the gate agree.  With the credential-ledger address
    set, an active account and its signer available: if [checkIsOwner]
    answers [true] for the active account, [authorizeInstitute] and
    [revokeInstitute] pass their ownership test and submit the transaction;
    if it answers [false], both throw and leave the state as it was. *)
Theorem checkIsOwner_agrees_with_the_gate (env : Env) (p : BrowserProvider)
    (a instituteAddress : string) (st : State) :
  provider env = Some p ->
  account env = Some a ->
  a <> "" ->
  certificateNFTAddress env <> "" ->
  getSigner p = Ok tt ->
  (fst (checkIsOwner env a st) = Ok true ->
     trace (snd (authorizeInstitute env instituteAddress st))
     = (trace st ++ [EvSend (authorizeInstituteTx instituteAddress)])%list
     /\ trace (snd (revokeInstitute env instituteAddress st))
        = (trace st ++ [EvSend (revokeInstituteTx instituteAddress)])%list)
  /\ (fst (checkIsOwner env a st) = Ok false ->
        (exists e, authorizeInstitute env instituteAddress st = (Throw e, st))
        /\ (exists e, revokeInstitute env instituteAddress st = (Throw e, st))).
Proof.
  intros Hp Ha Hne Hc Hs.
  unfold checkIsOwner, getCertificateContract, authorizeInstitute, revokeInstitute,
    accountString.
  rewrite Hp, Ha, (falsy_some Hne), (emptyString_false Hc). unfold_js. rewrite Hs.
  destruct (owner (ledger st)) as [o|e]; cbn.
  - destruct (String.eqb (toLowerCase o) (toLowerCase a)); cbn; split.
    + intros _. split; destruct (chain env _ (ledger st)); reflexivity.
    + discriminate.
    + discriminate.
    + intros _. split; eexists; reflexivity.
  - split; [discriminate|]. intros _. split; eexists; reflexivity.
Qed.

(** ** The registry and the classification of providers *)

Lemma filter_split_length {A} (f : A -> bool) (l : list A) :
  length (filter f l) + length (filter (fun x => negb (f x)) l) = length l.
Proof.
  induction l as [|x l IH]; [reflexivity|]. cbn. destruct (f x); cbn; lia.
Qed.

Lemma statuses_of_providers (l : Ledger) (providers : list RegisteredUser)
    (statuses : list ProviderStatus) :
  collect (map (providerStatus l) providers) = Ok statuses ->
  map user statuses = providers
  /\ forall ps, In ps statuses ->
       authorizedInstitutes l (address (user ps)) = Ok (isAuthorized ps).
Proof.
  revert statuses. induction providers as [|u us IH]; intros statuses H; cbn in H.
  - injection H as <-. split; [reflexivity | contradiction].
  - unfold providerStatus at 1 in H.
    destruct (authorizedInstitutes l (address u)) as [b|e] eqn:E; [|discriminate].
    destruct (collect (map (providerStatus l) us)) as [rest|e]; [|discriminate].
    injection H as <-. destruct (IH rest eq_refl) as [Hm Hf]. split.
    + cbn. rewrite Hm. reflexivity.
    + intros ps [<- | Hin]; [exact E | auto].
Qed.

(** X7. With the identities enumerated ([getAllRegisteredUsers] returned
    [users], which takes a provider and the registry address), when the
    pending listing returns, the authorized listing returns too.  With the
    credential-ledger address set, the two partition the registered
    providers: their lengths add up to the number of identities whose role
    is provider, every listed identity is a registered provider with the
    flag of its listing, and every registered provider is in one of them.
    With the credential-ledger address unset there is no partition: both
    listings are empty, whoever is registered. *)
Theorem provider_listings_partition (env : Env)
    (users : list RegisteredUser) (pending : list ProviderStatus) (st : State) :
  getAllRegisteredUsers env st = (Ok users, st) ->
  fetchPendingProviders env st = (Ok pending, st) ->
  exists authorized,
    fetchAuthorizedProviders env st = (Ok authorized, st)
    /\ (certificateNFTAddress env <> "" ->
          length authorized + length pending = length (filter isProvider users)
          /\ (forall ps, In ps authorized ->
                isAuthorized ps = true /\ In (user ps) users /\ isProvider (user ps) = true)
          /\ (forall ps, In ps pending ->
                isAuthorized ps = false /\ In (user ps) users /\ isProvider (user ps) = true)
          /\ (forall u, In u users -> isProvider u = true ->
                exists ps, user ps = u /\ (In ps authorized \/ In ps pending)))
    /\ (certificateNFTAddress env = "" -> authorized = [] /\ pending = []).
Proof.
  intros Hall Hpend.
  destruct (provider env) as [p|] eqn:Hp.
  2: { unfold getAllRegisteredUsers in Hall. rewrite Hp in Hall. discriminate. }
  destruct (string_dec (certificateNFTAddress env) "") as [Hc|Hc].
  { unfold fetchAuthorizedProviders, fetchPendingProviders, getCertificateContract in *.
    rewrite Hp in *. rewrite Hc in *. unfold bind in *. rewrite Hall in *.
    cbn in Hpend. injection Hpend as <-. exists []. split; [reflexivity|].
    split; [intros H; destruct (H eq_refl) | intros _; split; reflexivity]. }
  destruct (@provider_listings CF env p users st Hp Hc Hall) as [Ha Hp'].
  rewrite Hp' in Hpend. rewrite Ha.
  destruct (collect (map (providerStatus (ledger st)) (filter isProvider users)))
    as [statuses|e] eqn:Hcol; [|discriminate].
  injection Hpend as <-.
  destruct (statuses_of_providers _ _ Hcol) as [Hmap Hflags].
  assert (Hof : forall ps, In ps statuses ->
                  In (user ps) users /\ isProvider (user ps) = true).
  { intros ps Hin. apply filter_In. rewrite <- Hmap. apply in_map. exact Hin. }
  exists (filter isAuthorized statuses). split; [reflexivity|].
  split; [intros _ | intros H; destruct (Hc H)].
  split; [|split; [|split]].
  - rewrite filter_split_length, <- Hmap, length_map. reflexivity.
  - intros ps Hin. apply filter_In in Hin. destruct Hin as [Hin Hflag].
    split; [exact Hflag | apply Hof; exact Hin].
  - intros ps Hin. apply filter_In in Hin. destruct Hin as [Hin Hflag].
    apply negb_true_iff in Hflag. split; [exact Hflag | apply Hof; exact Hin].
  - intros u Hu Hprov.
    assert (Hin : In u (map user statuses)) by (rewrite Hmap; apply filter_In; auto).
    apply in_map_iff in Hin. destruct Hin as [ps [Hps Hin]].
    exists ps. split; [exact Hps|].
    destruct (isAuthorized ps) eqn:Hflag; [left | right]; apply filter_In; split; auto.
    rewrite Hflag. reflexivity.
Qed.

(** X8. The single check agrees with the listings: with the signer
    available, [checkInstituteAuthorization] answers [true] for the address
    of every provider in the authorized listing. *)
Theorem checkInstituteAuthorization_agrees_with_listing (env : Env) (p : BrowserProvider)
    (authorized : list ProviderStatus) (st : State) :
  provider env = Some p ->
  getSigner p = Ok tt ->
  fetchAuthorizedProviders env st = (Ok authorized, st) ->
  forall ps, In ps authorized ->
    checkInstituteAuthorization env (address (user ps)) st = (Ok true, st).
Proof.
  intros Hp Hs Hfetch ps Hin.
  unfold checkInstituteAuthorization. rewrite Hp. unfold_js. rewrite Hs.
  assert (H : authorizedInstitutes (ledger st) (address (user ps)) = Ok true);
    [|rewrite H; reflexivity].
  unfold fetchAuthorizedProviders in Hfetch. rewrite Hp in Hfetch.
  unfold bind at 1 in Hfetch.
  pose proof (getAllRegisteredUsers_reads env st) as Hreads.
  destruct (getAllRegisteredUsers env st) as [[users|e] s1]; [|discriminate].
  cbn in Hreads. subst s1.
  destruct (getCertificateContract env (Some p)).
  2: { unfold ret in Hfetch. injection Hfetch as <-. contradiction. }
  unfold bind in Hfetch. rewrite withAuthorization_reads in Hfetch.
  destruct (collect _) as [statuses|e] eqn:Hcol; [|discriminate].
  injection Hfetch as <-. apply filter_In in Hin. destruct Hin as [Hin Hflag].
  destruct (statuses_of_providers _ _ Hcol) as [_ Hflags].
  rewrite (Hflags ps Hin), Hflag. reflexivity.
Qed.

Lemma records_of_addresses (l : Ledger) (addresses : list string)
    (users : list RegisteredUser) :
  Forall2 (fun a u => identityRecord l a = Ok u) addresses users ->
  map address users = addresses
  /\ forall u, In u users -> getUser l (address u) = Ok (role u, metadataHash u).
Proof.
  induction 1 as [|a u addrs us Hu _ [IH1 IH2]]; [split; [reflexivity | contradiction]|].
  unfold identityRecord in Hu.
  destruct (getUser l a) as [[r h]|e] eqn:Hget; [|discriminate].
  injection Hu as <-. split.
  - cbn. rewrite IH1. reflexivity.
  - intros u' [<- | Hin]; [exact Hget | auto].
Qed.

(** X9. With a provider connected and the registry address set,
    [getAllRegisteredUsers] throws as soon as [getUser] throws for one
    enumerated address; when [getUser] answers for all of them it returns one
    record per address, in the order of the enumeration, and
    [getRegisteredUser] returns the same record for each of those
    addresses. *)
Theorem getAllRegisteredUsers_enumerates (env : Env) (p : BrowserProvider)
    (addresses : list string) (st : State) :
  provider env = Some p ->
  userRegistryAddress env <> "" ->
  getAllUsers (ledger st) = Ok addresses ->
  ((exists a e, In a addresses /\ getUser (ledger st) a = Throw e) ->
     exists e, getAllRegisteredUsers env st = (Throw e, st))
  /\ ((forall a, In a addresses -> exists r h, getUser (ledger st) a = Ok (r, h)) ->
      exists users,
        getAllRegisteredUsers env st = (Ok users, st)
        /\ map address users = addresses
        /\ forall u, In u users -> getRegisteredUser env (address u) st = (Ok u, st)).
Proof.
  intros Hp Hr Hall.
  assert (E : getAllRegisteredUsers env st
              = (collect (map (identityRecord (ledger st)) addresses), st)).
  { unfold getAllRegisteredUsers, getContract. rewrite Hp, (emptyString_false Hr).
    unfold bind at 1, call. rewrite Hall.
    apply promise_all_reads. intros a _. unfold identityRecord, bind, call, ret.
    destruct (getUser (ledger st) a) as [[r h]|e]; reflexivity. }
  rewrite E. split.
  - intros [a [e [Hin Hthrow]]].
    assert (H : exists e', In (Throw e') (map (identityRecord (ledger st)) addresses)).
    { exists e. apply in_map_iff. exists a. split; [|exact Hin].
      unfold identityRecord. rewrite Hthrow. reflexivity. }
    apply collect_throws in H. destruct H as [e' ->]. eauto.
  - intros Hok.
    destruct (@collect_each_ok _ _ (identityRecord (ledger st)) addresses)
      as [users [-> HF]].
    { intros a Hin. destruct (Hok a Hin) as [r [h Hu]].
      unfold identityRecord. rewrite Hu. eauto. }
    destruct (@records_of_addresses (ledger st) addresses users HF) as [Hmap Hrec].
    exists users. split; [reflexivity|]. split; [exact Hmap|].
    intros u Hin. unfold getRegisteredUser, getContract.
    rewrite Hp, (emptyString_false Hr). unfold bind, call, ret.
    rewrite (Hrec u Hin). destruct u; reflexivity.
Qed.

(** X10. [fetchUserData] never throws and touches neither the ledger nor
    the trace.  Without an active account or a provider it changes nothing.
    With both, it ends with [loading] off and with the role view read from
    the ledger -- the lowered role and the registration flag -- or with
    [null] when the registry address is unset or one of the two reads
    throws. *)
Theorem fetchUserData_view (env : Env) (st : State) :
  fst (fetchUserData env st) = Ok tt
  /\ ledger (snd (fetchUserData env st)) = ledger st
  /\ trace (snd (fetchUserData env st)) = trace st
  /\ (walletMissing env = true -> snd (fetchUserData env st) = st)
  /\ (forall p a, provider env = Some p -> account env = Some a -> a <> "" ->
        loading (snd (fetchUserData env st)) = false
        /\ userData (snd (fetchUserData env st))
           = if emptyString (userRegistryAddress env) then None
             else roleView (ledger st) a).
Proof.
  destruct (fetchUserData_refreshes env st) as [H1 [H2 H3]].
  split; [exact H1|]. split; [exact H2|]. split; [exact H3|]. split.
  - unfold walletMissing, fetchUserData.
    destruct (provider env) as [p|]; [|destruct (account env); reflexivity].
    destruct (account env) as [a|]; [|reflexivity]. cbn. intros ->. reflexivity.
  - intros p a Hp Ha Hne. unfold fetchUserData, getContract, roleView.
    rewrite Hp, Ha, (emptyString_false Hne).
    destruct (emptyString (userRegistryAddress env)); unfold_js; cbn.
    + split; reflexivity.
    + destruct (getUser (ledger st) a) as [[r h]|e]; cbn; [|split; reflexivity].
      destruct (isUserRegistered (ledger st) a); cbn; split; reflexivity.
Qed.

(** ** Registration, when it goes through *)

Lemma fetchUserData_state (env : Env) (p : BrowserProvider) (a : string) (s : State) :
  provider env = Some p -> account env = Some a -> a <> "" ->
  userRegistryAddress env <> "" ->
  fetchUserData env s
  = (Ok tt, {| ledger := ledger s; trace := trace s;
               userData := roleView (ledger s) a; loading := false |}).
Proof.
  intros Hp Ha Hne Hr. unfold fetchUserData, getContract, roleView.
  rewrite Hp, Ha, (emptyString_false Hne), (emptyString_false Hr). unfold_js. cbn.
  destruct (getUser (ledger s) a) as [[r h]|e]; cbn; [|reflexivity].
  destruct (isUserRegistered (ledger s) a); reflexivity.
Qed.

(** X11. A registration that goes through.  With a wallet connected, the
    registry configured, the uploads answering with content identifiers and
    the ledger accepting, [registerUser] uploads, for a student, the
    metadata object alone (a provider payload passed along is ignored) and,
    for a provider, the document and then the metadata object that names
    it; it then submits the one transaction carrying the role and the
    metadata identifier, and ends with the role view recomputed from the
    ledger as the write left it. *)
Theorem registerUser_success (env : Env) (p : BrowserProvider) (a : string) (st : State) :
  provider env = Some p ->
  account env = Some a ->
  a <> "" ->
  userRegistryAddress env <> "" ->
  getSigner p = Ok tt ->
  (forall sd providerData c l',
     let metadata := StudentMd (sd_name sd) (sd_email sd) (sd_studentId sd) in
     uploadJSONToIPFS env metadata = Ok {| cid := Some c |} -> c <> "" ->
     chain env (registerUserTx "student" c) (ledger st) = Ok l' ->
     registerUser env student_role (Some sd) providerData st
     = (Ok tt, {| ledger := l';
                  trace := trace st ++ [EvUploadJSON metadata;
                                        EvSend (registerUserTx "student" c)];
                  userData := roleView l' a; loading := false |}))
  /\ (forall pd studentData docResponse c l',
        let metadata := ProviderMd (pd_institutionName pd) (pd_accreditationNumber pd)
                                   (cid docResponse) in
        uploadFileToIPFS env (pd_document pd) = Ok docResponse ->
        uploadJSONToIPFS env metadata = Ok {| cid := Some c |} -> c <> "" ->
        chain env (registerUserTx "provider" c) (ledger st) = Ok l' ->
        registerUser env provider_role studentData (Some pd) st
        = (Ok tt, {| ledger := l';
                     trace := trace st ++ [EvUploadFile (pd_document pd);
                                           EvUploadJSON metadata;
                                           EvSend (registerUserTx "provider" c)];
                     userData := roleView l' a; loading := false |})).
Proof.
  intros Hp Ha Hne Hr Hs. split.
  - intros sd providerData c l' metadata Hup Hc Hchain.
    unfold registerUser, buildMetadata. rewrite Hp, Ha, (falsy_some Hne), (emptyString_false Hr).
    unfold bind at 1, await. rewrite Hs.
    unfold bind at 1, ret. fold metadata.
    unfold bind at 1, emit. unfold bind at 1, await. rewrite Hup. cbn [cid].
    rewrite (emptyString_false Hc). unfold bind at 1.
    unfold send, bind, emit, call, setLedger. cbn. rewrite Hchain.
    rewrite (@fetchUserData_state env p a _ Hp Ha Hne Hr). cbn.
    rewrite <- app_assoc. reflexivity.
  - intros pd studentData docResponse c l' metadata Hdoc Hup Hc Hchain.
    unfold registerUser, buildMetadata. rewrite Hp, Ha, (falsy_some Hne), (emptyString_false Hr).
    unfold bind at 1, await. rewrite Hs.
    unfold bind at 1. unfold bind at 1, emit. unfold bind at 1. rewrite Hdoc.
    unfold ret. fold metadata.
    unfold bind at 1. unfold bind at 1. rewrite Hup. cbn [cid].
    rewrite (emptyString_false Hc). unfold bind at 1.
    unfold send, bind, emit, call, setLedger. cbn. rewrite Hchain.
    rewrite (@fetchUserData_state env p a _ Hp Ha Hne Hr). cbn.
    rewrite <- !app_assoc. reflexivity.
Qed.

(** ** The readers of the content store *)

Lemma substring_whole (s : string) : String.substring 0 (String.length s) s = s.
Proof. induction s as [|c s IH]; [reflexivity|]. cbn. rewrite IH. reflexivity. Qed.

Lemma replace_scheme (h : string) : replace "ipfs://" "" ("ipfs://" ++ h) = h.
Proof.
  cbn. replace (String.prefix "" h) with true by (destruct h; reflexivity).
  replace (String.length h - 0) with (String.length h) by lia.
  apply substring_whole.
Qed.

(** X12. [fetchStudentMetadata] never throws.  For an empty pointer it
    returns [null] without any GET.  Otherwise it asks Pinata first; when
    that attempt yields a payload it returns it and asks nobody else, and
    only when it fails does it ask ipfs.io, once. *)
Theorem fetchStudentMetadata_never_throws (env : Env) (studentAddress metadataHash : string)
    (st : State) :
  exists payload evs,
    fetchStudentMetadata env studentAddress metadataHash st = (Ok payload, after st evs)
    /\ (metadataHash = "" -> payload = JNull /\ evs = [])
    /\ (metadataHash <> "" ->
          (forall found,
             gatewayRead env (pinata metadataHash) "Pinata fetch failed" = Ok found ->
             payload = found /\ evs = [EvFetch (pinata metadataHash)])
          /\ (forall e,
                gatewayRead env (pinata metadataHash) "Pinata fetch failed" = Throw e ->
                evs = [EvFetch (pinata metadataHash); EvFetch (ipfs_io metadataHash)])).
Proof.
  unfold fetchStudentMetadata. destruct metadataHash as [|c rest]; cbn [emptyString].
  - exists JNull, []. rewrite after_nothing. split; [reflexivity|].
    split; [auto | congruence].
  - rewrite two_gateways. eexists. eexists. split; [reflexivity|].
    split; [discriminate|]. intros _. unfold resolve, attempts. split.
    + intros found ->. split; reflexivity.
    + intros e ->. reflexivity.
Qed.

(** X13. The three two-gateway readers resolve a content identifier
    alike: for the pointer [getUser] returns, [fetchProviderMetadata] gives
    the result and issues the GETs of [fetchStudentMetadata]; and so does the
    metadata read of [getCertificatesByAddress] for the tokenURI made of
    [ipfs://] and a non-empty identifier. *)
Theorem two_gateway_readers_agree (env : Env) (p : BrowserProvider)
    (address studentAddress role hash : string) (st : State) :
  provider env = Some p ->
  getSigner p = Ok tt ->
  getUser (ledger st) address = Ok (role, hash) ->
  fetchProviderMetadata env address st = fetchStudentMetadata env studentAddress hash st
  /\ (hash <> "" ->
        certificateMetadata env ("ipfs://" ++ hash) st
        = fetchStudentMetadata env studentAddress hash st).
Proof.
  intros Hp Hs Hu. split.
  - unfold fetchProviderMetadata, fetchStudentMetadata. rewrite Hp.
    unfold bind at 1, await. rewrite Hs. unfold bind at 1, call. rewrite Hu.
    destruct (emptyString hash); [reflexivity|]. rewrite !two_gateways. reflexivity.
  - intros Hne. unfold certificateMetadata, fetchStudentMetadata.
    rewrite replace_scheme, (emptyString_false Hne), !two_gateways. reflexivity.
Qed.

(** X14. A failing registry read is thrown by one reader and swallowed by
    the other: with a provider connected, when [getUser] throws for the
    address, [fetchProviderMetadata] throws that error while
    [fetchStudentProfile] returns [null]; and [fetchProviderMetadata] also
    throws what a failing [getSigner] throws. *)
Theorem registry_failure_thrown_or_swallowed (env : Env) (p : BrowserProvider)
    (address : string) (st : State) :
  provider env = Some p ->
  (forall e, getSigner p = Throw e -> fetchProviderMetadata env address st = (Throw e, st))
  /\ (forall e, getUser (ledger st) address = Throw e ->
        (getSigner p = Ok tt -> fetchProviderMetadata env address st = (Throw e, st))
        /\ fetchStudentProfile env address st = (Ok JNull, st)).
Proof.
  intros Hp. unfold fetchProviderMetadata, fetchStudentProfile, getContract. rewrite Hp.
  split.
  - intros e He. unfold_js. rewrite He. reflexivity.
  - intros e He. split.
    + intros Hs. unfold_js. rewrite Hs, He. reflexivity.
    + destruct (emptyString (userRegistryAddress env)); unfold_js; [reflexivity|].
      rewrite He. reflexivity.
Qed.

(** X15. [fetchStudentProfile] never throws: whatever the registry and the
    gateways answer or throw, it returns a payload or [null]. *)
Theorem fetchStudentProfile_never_throws (env : Env) (address : string) (st : State) :
  exists payload, fst (fetchStudentProfile env address st) = Ok payload.
Proof.
  unfold fetchStudentProfile.
  destruct (provider env) as [p|]; [|eexists; reflexivity].
  unfold try_catch.
  match goal with
  | |- exists payload, fst (match ?m with _ => _ end) = _ => destruct m as [[payload|e] s1]
  end; eexists; reflexivity.
Qed.

(** X16. When Pinata answers -- no transport error, and a body that parses
    whenever the status is a success -- [fetchStudentProfile] resolves the
    profile pointer exactly as [fetchStudentMetadata] does, fallback to
    ipfs.io on a non-success status included: same result, same GETs. *)
Theorem fetchStudentProfile_agrees_when_pinata_answers (env : Env) (p : BrowserProvider)
    (address studentAddress role hash : string) (first : Response) (st : State) :
  provider env = Some p ->
  userRegistryAddress env <> "" ->
  getUser (ledger st) address = Ok (role, hash) ->
  hash <> "" ->
  fetch env (pinata hash) = Ok first ->
  (ok first = true -> exists payload, json first = Ok payload) ->
  fetchStudentProfile env address st = fetchStudentMetadata env studentAddress hash st.
Proof.
  intros Hp Hr Hu Hne Hfirst Hbody.
  unfold fetchStudentProfile, fetchStudentMetadata, getContract, fromGateway.
  rewrite Hp, (emptyString_false Hr), (emptyString_false Hne).
  unfold_js. rewrite Hu. cbv beta iota. rewrite (emptyString_false Hne).
  cbv beta iota. rewrite Hfirst. cbv beta iota.
  destruct (ok first) eqn:Hok; cbn [negb]; cbv beta iota.
  - destruct (Hbody eq_refl) as [payload ->]. reflexivity.
  - destruct (fetch env (ipfs_io hash)) as [second|e]; cbv beta iota; [|reflexivity].
    destruct (ok second); cbn [negb]; cbv beta iota; [|reflexivity].
    destruct (json second); reflexivity.
Qed.

(** ** Certificates: the context and the search *)

(** X17. For [getCertificatesByAddress] only the metadata is best-effort:
    with a provider connected and the credential ledger configured, a
    failing [getStudentCertificates], or a failing [getCertificateDetails]
    or [tokenURI] for any one token id, makes the whole call throw; and an
    address without certificates gets the empty list without any GET. *)
Theorem getCertificatesByAddress_needs_the_ledger (env : Env) (p : BrowserProvider)
    (searchAddress : string) (st : State) :
  provider env = Some p ->
  certificateNFTAddress env <> "" ->
  (forall e, getStudentCertificates (ledger st) searchAddress = Throw e ->
     getCertificatesByAddress env searchAddress st = (Throw e, st))
  /\ (getStudentCertificates (ledger st) searchAddress = Ok [] ->
        getCertificatesByAddress env searchAddress st = (Ok [], st))
  /\ (forall ids,
        getStudentCertificates (ledger st) searchAddress = Ok ids ->
        (exists id e, In id ids
                      /\ (getCertificateDetails (ledger st) id = Throw e
                          \/ tokenURI (ledger st) id = Throw e)) ->
        exists e, fst (getCertificatesByAddress env searchAddress st) = Throw e).
Proof.
  intros Hp Hc. unfold getCertificatesByAddress, getCertificateContract.
  rewrite Hp, (emptyString_false Hc). unfold bind, call. split; [|split].
  - intros e ->. reflexivity.
  - intros ->. reflexivity.
  - intros ids -> [id [e [Hin Hthrow]]].
    destruct (@promise_all_collect _ _ (fun s => ledger s = ledger st)
                (loadCertificate env) (certificateEntry env (ledger st)) ids) with (s := st)
      as [Hr _].
    { intros x s _ Hs. destruct (loadCertificate_entry env x s) as [H1 H2].
      rewrite H1, H2, Hs. split; reflexivity. }
    { reflexivity. }
    rewrite Hr. apply collect_throws.
    destruct Hthrow as [Hd | Hu].
    + exists e. apply in_map_iff. exists id. split; [|exact Hin].
      unfold certificateEntry. rewrite Hd. reflexivity.
    + destruct (getCertificateDetails (ledger st) id) as [d|e'] eqn:Hd.
      * exists e. apply in_map_iff. exists id. split; [|exact Hin].
        unfold certificateEntry. rewrite Hd, Hu. reflexivity.
      * exists e'. apply in_map_iff. exists id. split; [|exact Hin].
        unfold certificateEntry. rewrite Hd. reflexivity.
Qed.

(** X18. [handleSearch] never throws.  Without a provider, or for a string
    that is not an address, it only sets the message asking for a valid
    address: the certificates shown stay and nothing is read or fetched.
    Otherwise it ends with [isLoading] off, and either without error or
    with the failure message and an empty list of certificates. *)
Theorem handleSearch_never_throws (env : Env) (searchAddress : string) (view : SearchView)
    (st : State) :
  exists shown,
    fst (handleSearch env searchAddress view st) = Ok shown
    /\ (provider env = None \/ isAddress env searchAddress = false ->
          shown = invalidAddress view /\ snd (handleSearch env searchAddress view st) = st)
    /\ (provider env <> None -> isAddress env searchAddress = true ->
          isLoading shown = false
          /\ (error shown = ""
              \/ (error shown = "Something went wrong while fetching certificates."
                  /\ certificates shown = []))).
Proof.
  unfold handleSearch.
  destruct (provider env) as [p|].
  2: { eexists. split; [reflexivity|]. split; [auto | congruence]. }
  destruct (isAddress env searchAddress); cbn [negb].
  2: { eexists. split; [reflexivity|]. split; [auto | discriminate]. }
  unfold try_catch.
  match goal with
  | |- exists shown, fst (match ?m with _ => _ end) = _ /\ _ =>
      assert (Hm : forall shown s1, m = (Ok shown, s1) ->
                     isLoading shown = false /\ error shown = "");
      [|destruct m as [[shown|e] s1]]
  end.
  - intros shown s1. unfold bind, await, call, ret.
    destruct (getSigner p) as [[]|e]; [|discriminate].
    destruct (getStudentCertificates (ledger st) searchAddress) as [[|id ids]|e];
      [| |discriminate].
    + intros H. injection H as <- _. split; reflexivity.
    + destruct (promise_all _ st) as [[certs|e] s2]; [|discriminate].
      intros H. injection H as <- _. split; reflexivity.
  - destruct (Hm shown s1 eq_refl) as [H1 H2].
    exists shown. split; [reflexivity|]. split.
    + intros [H|H]; discriminate.
    + intros _ _. split; [exact H1 | left; exact H2].
  - eexists. split; [reflexivity|]. split.
    + intros [H|H]; discriminate.
    + intros _ _. split; [reflexivity | right; split; reflexivity].
Qed.

Lemma searchCertificate_entry (env : Env) (id : N) (s : State) :
  exists metadata,
    fst (searchCertificate env id s)
    = match getCertificateDetails (ledger s) id, tokenURI (ledger s) id with
      | Ok d, Ok u => Ok (mkCertificate id d u metadata)
      | Throw e, _ => Throw e
      | Ok _, Throw e => Throw e
      end
    /\ ledger (snd (searchCertificate env id s)) = ledger s.
Proof.
  unfold searchCertificate, bind, call.
  destruct (getCertificateDetails (ledger s) id) as [d|e]; [|exists JNull; split; reflexivity].
  destruct (tokenURI (ledger s) id) as [u|e]; [|exists JNull; split; reflexivity].
  rewrite searchMetadata_one_gateway. eexists. split; reflexivity.
Qed.

(** What the two listings have in common, entry by entry. *)
Lemma listings_alike (env : Env) (l : Ledger) (ids : list N) :
  forall s, ledger s = l ->
    match fst (promise_all (map (searchCertificate env) ids) s),
          collect (map (certificateEntry env l) ids) with
    | Ok found, Ok certs => map withoutMetadata found = map withoutMetadata certs
    | Throw _, Throw _ => True
    | _, _ => False
    end
    /\ ledger (snd (promise_all (map (searchCertificate env) ids) s)) = l.
Proof.
  induction ids as [|id ids IH]; intros s Hs; cbn [map promise_all collect].
  - split; [reflexivity | exact Hs].
  - destruct (searchCertificate_entry env id s) as [metadata [Hr Hl]].
    rewrite Hs in Hr, Hl.
    destruct (IH (snd (searchCertificate env id s)) Hl) as [Hrest Hl2].
    destruct (searchCertificate env id s) as [r s1]. cbn [fst snd] in *.
    destruct (promise_all (map (searchCertificate env) ids) s1) as [rs s2].
    cbn [fst snd] in *. split; [|exact Hl2]. subst r.
    assert (He : certificateEntry env l id
                 = match getCertificateDetails l id, tokenURI l id with
                   | Ok d, Ok u => Ok (mkCertificate id d u (resolve env (replace "ipfs://" "" u)))
                   | Throw e, _ => Throw e
                   | Ok _, Throw e => Throw e
                   end) by reflexivity.
    rewrite He. clear He.
    destruct (getCertificateDetails l id) as [d|e]; [|exact I].
    destruct (tokenURI l id) as [u|e]; [|exact I].
    destruct rs as [found|e], (collect (map (certificateEntry env l) ids)) as [certs|e'];
      try contradiction; try exact I.
    cbn. f_equal. exact Hrest.
Qed.

(** X19. The search and the context list the same certificates.  For a
    valid address, with the signer available and the credential ledger
    configured: when [getCertificatesByAddress] returns, [handleSearch]
    shows, without error, entries that agree with it in everything but the
    metadata -- id, name, institute, issue date, type, student and tokenURI,
    in the same order; when it throws, [handleSearch] shows the failure
    message and no certificate. *)
Theorem search_and_context_list_alike (env : Env) (p : BrowserProvider)
    (searchAddress : string) (view : SearchView) (st : State) :
  provider env = Some p ->
  getSigner p = Ok tt ->
  isAddress env searchAddress = true ->
  certificateNFTAddress env <> "" ->
  (forall certs,
     fst (getCertificatesByAddress env searchAddress st) = Ok certs ->
     exists shown,
       fst (handleSearch env searchAddress view st) = Ok shown
       /\ map withoutMetadata (certificates shown) = map withoutMetadata certs
       /\ error shown = "")
  /\ (forall e,
        fst (getCertificatesByAddress env searchAddress st) = Throw e ->
        fst (handleSearch env searchAddress view st)
        = Ok {| certificates := []; isLoading := false;
                error := "Something went wrong while fetching certificates." |}).
Proof.
  intros Hp Hs Ha Hc.
  assert (E1 : getCertificatesByAddress env searchAddress st
               = match getStudentCertificates (ledger st) searchAddress with
                 | Ok ids => promise_all (map (loadCertificate env) ids) st
                 | Throw e => (Throw e, st)
                 end).
  { unfold getCertificatesByAddress, getCertificateContract.
    rewrite Hp, (emptyString_false Hc). unfold bind, call.
    destruct (getStudentCertificates (ledger st) searchAddress); reflexivity. }
  assert (E2 : fst (handleSearch env searchAddress view st)
               = match getStudentCertificates (ledger st) searchAddress with
                 | Ok [] => Ok {| certificates := []; isLoading := false; error := "" |}
                 | Ok ids =>
                     match fst (promise_all (map (searchCertificate env) ids) st) with
                     | Ok found =>
                         Ok {| certificates := found; isLoading := false; error := "" |}
                     | Throw _ =>
                         Ok {| certificates := []; isLoading := false;
                               error := "Something went wrong while fetching certificates." |}
                     end
                 | Throw _ =>
                     Ok {| certificates := []; isLoading := false;
                           error := "Something went wrong while fetching certificates." |}
                 end).
  { unfold handleSearch. rewrite Hp, Ha. cbn [negb].
    unfold try_catch, bind, call, await, ret. rewrite Hs.
    destruct (getStudentCertificates (ledger st) searchAddress) as [[|id ids]|e];
      [reflexivity | | reflexivity].
    destruct (promise_all (map (searchCertificate env) (id :: ids)) st) as [[found|e] s1];
      reflexivity. }
  rewrite E1, E2. clear E1 E2.
  destruct (getStudentCertificates (ledger st) searchAddress) as [ids|e0].
  2: { split; [discriminate | reflexivity]. }
  destruct (@promise_all_collect _ _ (fun s => ledger s = ledger st)
              (loadCertificate env) (certificateEntry env (ledger st)) ids) with (s := st)
    as [Hr _].
  { intros x s _ Hl. destruct (loadCertificate_entry env x s) as [H1 H2].
    rewrite H1, H2, Hl. split; reflexivity. }
  { reflexivity. }
  rewrite Hr. clear Hr.
  destruct (@listings_alike env (ledger st) ids st eq_refl) as [Halike _].
  destruct ids as [|id ids].
  { cbn. split; [|discriminate]. intros certs H. injection H as <-.
    eexists. split; [reflexivity|]. split; reflexivity. }
  destruct (fst (promise_all (map (searchCertificate env) (id :: ids)) st)) as [found|e1];
    destruct (collect (map (certificateEntry env (ledger st)) (id :: ids))) as [certs|e2];
    try contradiction.
  - split; [|discriminate]. intros certs' H. injection H as <-.
    eexists. split; [reflexivity|]. split; [exact Halike | reflexivity].
  - split; [discriminate | reflexivity].
Qed.

(** ** The links of the search *)

Lemma append_empty_right (s : string) : s ++ "" = s.
Proof. induction s as [|c s IH]; [reflexivity|]. cbn. rewrite IH. reflexivity. Qed.

Lemma append_associative (s1 s2 s3 : string) : (s1 ++ s2) ++ s3 = s1 ++ (s2 ++ s3).
Proof. induction s1 as [|c s1 IH]; [reflexivity|]. cbn. rewrite IH. reflexivity. Qed.

Lemma splitFrom_without_separator (sep h : string) :
  occurs sep h = false -> forall current, splitFrom sep 0 current h = [current ++ h].
Proof.
  induction h as [|c rest IH]; intros Hocc current.
  - cbn. rewrite append_empty_right. reflexivity.
  - cbn [occurs] in Hocc. apply orb_false_iff in Hocc. destruct Hocc as [Hpre Hrest].
    cbn [splitFrom]. rewrite Hpre, (IH Hrest), append_associative. reflexivity.
Qed.

(** X20. [convertIpfsUrl] leaves alone every URL that does not start with
    [ipfs://], and converting twice is converting once.  For a tokenURI made
    of [ipfs://] and an identifier in which [ipfs://] does not occur again,
    the link it builds is the very ipfs.io URL from which the search fetched
    the metadata. *)
Theorem convertIpfsUrl_links (url : string) :
  (String.prefix "ipfs://" url = false -> convertIpfsUrl url = url)
  /\ convertIpfsUrl (convertIpfsUrl url) = convertIpfsUrl url
  /\ (forall h, url = "ipfs://" ++ h -> occurs "ipfs://" h = false ->
        convertIpfsUrl url = ipfs_io (replace "ipfs://" "" url)).
Proof.
  split; [|split].
  - unfold convertIpfsUrl. intros ->. reflexivity.
  - unfold convertIpfsUrl at 2 3.
    destruct (String.prefix "ipfs://" url) eqn:Hpre.
    + unfold convertIpfsUrl. cbn. reflexivity.
    + unfold convertIpfsUrl. rewrite Hpre. reflexivity.
  - intros h -> Hocc. rewrite replace_scheme. unfold convertIpfsUrl, split, ipfs_io.
    cbn. replace (String.prefix "" h) with true by (destruct h; reflexivity).
    rewrite (splitFrom_without_separator _ _ Hocc). reflexivity.
Qed.

(** ** The student search *)

Lemma studentIdMatches_ignores_case (metadata : JsValue) (id1 id2 : string) :
  toLowerCase id1 = toLowerCase id2 ->
  studentIdMatches metadata id1 = studentIdMatches metadata id2.
Proof. intros H. unfold studentIdMatches. rewrite H. reflexivity. Qed.

Lemma examineStudent_lookups (env : Env) (studentId : string) (u : RegisteredUser)
    (s : State) :
  examineStudent env studentId u s
  = (Ok (if matchesStudentId env studentId u
         then Some (address u, resolvedMetadata env u) else None),
     after s (lookups env u)).
Proof.
  unfold examineStudent, try_catch, bind.
  rewrite fetchStudentMetadata_resolves. unfold matchesStudentId, lookups, await, ret.
  destruct (emptyString (metadataHash u)); rewrite ?after_nothing;
    destruct (studentIdMatches (resolvedMetadata env u) studentId) as [[]|e]; reflexivity.
Qed.

Lemma scanStudents_ignores_case (env : Env) (id1 id2 : string)
    (students : list RegisteredUser) :
  toLowerCase id1 = toLowerCase id2 ->
  forall s, scanStudents env id1 students s = scanStudents env id2 students s.
Proof.
  intros H. induction students as [|u rest IH]; intros s; cbn [scanStudents]; [reflexivity|].
  unfold bind. rewrite !examineStudent_lookups.
  assert (Hm : matchesStudentId env id1 u = matchesStudentId env id2 u).
  { unfold matchesStudentId.
    rewrite (@studentIdMatches_ignores_case (resolvedMetadata env u) id1 id2 H). reflexivity. }
  rewrite Hm. destruct (matchesStudentId env id2 u); [reflexivity | apply IH].
Qed.

(** X21. The student search ignores the case of the identifier it is
    given: two identifiers that lower to the same string get the same
    answer after the same GETs, in every environment and state. *)
Theorem getStudentByStudentId_ignores_case (env : Env) (id1 id2 : string) (st : State) :
  toLowerCase id1 = toLowerCase id2 ->
  getStudentByStudentId env id1 st = getStudentByStudentId env id2 st.
Proof.
  intros H. unfold getStudentByStudentId.
  destruct (provider env); [|reflexivity].
  unfold try_catch, bind.
  destruct (getAllRegisteredUsers env st) as [[users|e] s1]; [|reflexivity].
  rewrite (@scanStudents_ignores_case env id1 id2 (filter isStudent users) H). reflexivity.
Qed.

Lemma scanStudents_lookups (env : Env) (studentId : string) (students : list RegisteredUser) :
  forall s,
    snd (scanStudents env studentId students s)
    = after s (flat_map (lookups env) (scanned (matchesStudentId env studentId) students)).
Proof.
  induction students as [|u rest IH]; intros s; cbn [scanStudents scanned flat_map].
  - unfold ret. cbn. rewrite after_nothing. reflexivity.
  - unfold bind. rewrite examineStudent_lookups.
    destruct (matchesStudentId env studentId u).
    + cbn. rewrite app_nil_r. reflexivity.
    + rewrite IH, after_after. reflexivity.
Qed.

(** X22. The scan stops at the first match.  With the identities
    enumerated, [getStudentByStudentId] spends GETs on the students of the
    enumeration up to and including the first one that matches, in order --
    none on the identities that are not students, none on the students after
    the match, none on a student with an empty pointer -- and changes
    nothing else. *)
Theorem getStudentByStudentId_stops_at_first_match (env : Env) (p : BrowserProvider)
    (users : list RegisteredUser) (studentId : string) (st : State) :
  provider env = Some p ->
  getAllRegisteredUsers env st = (Ok users, st) ->
  snd (getStudentByStudentId env studentId st)
  = after st (flat_map (lookups env)
                (scanned (matchesStudentId env studentId) (filter isStudent users))).
Proof.
  intros Hp Hall. unfold getStudentByStudentId. rewrite Hp.
  unfold try_catch, bind. rewrite Hall.
  pose proof (scanStudents_lookups env studentId (filter isStudent users) st) as H.
  destruct (scanStudents env studentId (filter isStudent users) st) as [[r|e] s1];
    exact H.
Qed.

(** ** The wallet session of EthereumContext *)

Lemma sort_from (wallets sorted : list EthereumContext.WalletModule) :
  fold_left EthereumContext.sortStep wallets sorted
  = (rev (filter (fun w => String.eqb (EthereumContext.label w) "Universal Profiles") wallets)
     ++ sorted
     ++ filter (fun w => negb (String.eqb (EthereumContext.label w) "Universal Profiles"))
          wallets)%list.
Proof.
  revert sorted. induction wallets as [|w ws IH]; intros sorted; cbn.
  - rewrite app_nil_r. reflexivity.
  - rewrite IH. unfold EthereumContext.sortStep.
    destruct (String.eqb (EthereumContext.label w) "Universal Profiles"); cbn.
    + rewrite <- app_assoc. reflexivity.
    + rewrite <- app_assoc. reflexivity.
Qed.

(** X23. The wallet sorting of the injected-wallets module puts the
    wallets labelled Universal Profiles first, the last of them foremost,
    and keeps all other wallets behind them in their given order; no wallet
    is lost or added. *)
Theorem sort_puts_universal_profiles_first (wallets : list EthereumContext.WalletModule) :
  EthereumContext.sort wallets
  = (rev (filter (fun w => String.eqb (EthereumContext.label w) "Universal Profiles") wallets)
     ++ filter (fun w => negb (String.eqb (EthereumContext.label w) "Universal Profiles"))
          wallets)%list
  /\ length (EthereumContext.sort wallets) = length wallets
  /\ forall w, In w (EthereumContext.sort wallets) <-> In w wallets.
Proof.
  unfold EthereumContext.sort. rewrite sort_from. cbn [app]. split; [reflexivity|]. split.
  - rewrite length_app, length_rev. apply filter_split_length.
  - intros w. rewrite in_app_iff, <- in_rev, !filter_In.
    destruct (String.eqb (EthereumContext.label w) "Universal Profiles"); cbn; tauto.
Qed.

(** X24. Once the session has a provider it keeps one: no sequence of
    account changes, chain changes, connections, disconnections, toggles
    and sign-ins leaves it without. *)
Theorem provider_is_never_lost (browser : EthereumContext.Browser)
    (actions : list EthereumContext.Action) (s : EthereumContext.Session) :
  EthereumContext.provider s <> None ->
  EthereumContext.provider (EthereumContext.run browser actions s) <> None.
Proof.
  unfold EthereumContext.run. revert s.
  induction actions as [|action rest IH]; intros s Hs; [exact Hs|].
  cbn [fold_left]. apply IH.
  destruct action; cbn; try exact Hs.
  - unfold EthereumContext.connect.
    destruct (EthereumContext.useOnboard s).
    + destruct (EthereumContext.connectWallet browser) as [[|first others]|e];
        try exact Hs.
      destruct (EthereumContext.wallet_accounts first); cbn; discriminate.
    + destruct (EthereumContext.provider s) as [p|] eqn:Hp; [|cbn; congruence].
      destruct (EthereumContext.requestAccounts browser p); cbn; congruence.
  - unfold EthereumContext.signInWithEthereum.
    destruct (EthereumContext.account s) as [a|]; [|exact Hs].
    destruct (EthereumContext.provider s) as [p|] eqn:Hp; [|cbn; congruence].
    destruct (emptyString a); [cbn; congruence|].
    destruct (EthereumContext.getNetwork browser p); [|cbn; congruence].
    destruct (EthereumContext.prepareMessage browser a _); [|cbn; congruence].
    destruct (EthereumContext.checkSignature browser p a _); cbn; congruence.
Qed.

(** X25. Only a sign-in verifies, and only on the magic value: an action
    leaves the session verified only if it was verified already, or the
    action is a sign-in with an account and a provider, for which the
    profile contract answered [0x1626ba7e] to the signature of the prepared
    message.  A change of account and a connection leave the flag as it is,
    so a session stays verified across a switch to another account. *)
Theorem verified_only_by_a_valid_signature (browser : EthereumContext.Browser)
    (action : EthereumContext.Action) (s : EthereumContext.Session) :
  (EthereumContext.verified (snd (EthereumContext.step browser action s)) = true ->
   EthereumContext.verified s = true
   \/ (action = EthereumContext.SignIn
       /\ exists a p chainId message signature,
            EthereumContext.account s = Some a
            /\ EthereumContext.provider s = Some p
            /\ EthereumContext.getNetwork browser p = Ok chainId
            /\ EthereumContext.prepareMessage browser a chainId = Ok message
            /\ EthereumContext.signMessage browser p message = Ok signature
            /\ EthereumContext.isValidSignature browser a
                 (EthereumContext.hashMessage browser message) signature
               = Ok EthereumContext.magicValue))
  /\ (forall accounts,
        EthereumContext.verified (EthereumContext.accountsChanged accounts s)
        = EthereumContext.verified s)
  /\ EthereumContext.verified (snd (EthereumContext.connect browser s))
     = EthereumContext.verified s.
Proof.
  split; [|split].
  - destruct action; cbn; auto; try discriminate.
    + unfold EthereumContext.connect.
      destruct (EthereumContext.useOnboard s).
      * destruct (EthereumContext.connectWallet browser) as [[|first others]|e]; auto.
        destruct (EthereumContext.wallet_accounts first); cbn; auto.
      * destruct (EthereumContext.provider s) as [p|]; auto.
        destruct (EthereumContext.requestAccounts browser p); cbn; auto.
    + unfold EthereumContext.signInWithEthereum.
      destruct (EthereumContext.account s) as [a|] eqn:Ha; auto.
      destruct (EthereumContext.provider s) as [p|] eqn:Hp; auto.
      destruct (emptyString a); auto.
      destruct (EthereumContext.getNetwork browser p) as [chainId|e] eqn:Hnet; auto.
      destruct (EthereumContext.prepareMessage browser a chainId) as [message|e] eqn:Hmsg;
        auto.
      unfold EthereumContext.checkSignature.
      destruct (getSigner p); auto.
      destruct (EthereumContext.signMessage browser p message) as [signature|e] eqn:Hsig;
        auto.
      destruct (EthereumContext.isValidSignature browser a _ signature) as [answer|e]
        eqn:Hvalid; auto.
      cbn. intros Heq. apply String.eqb_eq in Heq. subst answer.
      right. split; [reflexivity|]. exists a, p, chainId, message, signature.
      repeat split; assumption.
  - intros accounts. reflexivity.
  - unfold EthereumContext.connect.
    destruct (EthereumContext.useOnboard s).
    + destruct (EthereumContext.connectWallet browser) as [[|first others]|e];
        try reflexivity.
      destruct (EthereumContext.wallet_accounts first); reflexivity.
    + destruct (EthereumContext.provider s) as [p|]; [|reflexivity].
      destruct (EthereumContext.requestAccounts browser p); reflexivity.
Qed.

(** X26. The stored account survives a disconnection.  Only a change of
    accounts writes the local-storage entry and only a change of chain
    removes it; so after a disconnection a reload of the page brings the
    stored account back as the active one, while after a change of chain a
    reload starts without an account. *)
Theorem disconnect_keeps_the_stored_account (browser : EthereumContext.Browser)
    (s : EthereumContext.Session) (a : string) :
  EthereumContext.storedAccount s = Some a ->
  a <> "" ->
  (forall action,
     (forall accounts, action <> EthereumContext.AccountsChanged accounts) ->
     action <> EthereumContext.ChainChanged ->
     EthereumContext.storedAccount (snd (EthereumContext.step browser action s)) = Some a)
  /\ EthereumContext.account (EthereumContext.disconnect s) = None
  /\ EthereumContext.account
       (EthereumContext.reload browser (EthereumContext.disconnect s)) = Some a
  /\ EthereumContext.account
       (EthereumContext.reload browser (EthereumContext.chainChanged s)) = None.
Proof.
  intros Hstored Hne. split; [|split; [|split]].
  - intros action Hacc Hchain. destruct action; cbn; try exact Hstored.
    + destruct (Hacc accounts eq_refl).
    + destruct (Hchain eq_refl).
    + unfold EthereumContext.connect.
      destruct (EthereumContext.useOnboard s).
      * destruct (EthereumContext.connectWallet browser) as [[|first others]|e];
          try exact Hstored.
        destruct (EthereumContext.wallet_accounts first); exact Hstored.
      * destruct (EthereumContext.provider s) as [p|]; [|exact Hstored].
        destruct (EthereumContext.requestAccounts browser p); exact Hstored.
    + unfold EthereumContext.signInWithEthereum.
      destruct (EthereumContext.account s) as [a'|]; [|exact Hstored].
      destruct (EthereumContext.provider s) as [p|]; [|exact Hstored].
      destruct (emptyString a'); [exact Hstored|].
      destruct (EthereumContext.getNetwork browser p); [|exact Hstored].
      destruct (EthereumContext.prepareMessage browser a' _); [|exact Hstored].
      destruct (EthereumContext.checkSignature browser p a' _); exact Hstored.
  - reflexivity.
  - unfold EthereumContext.reload, EthereumContext.mount. cbn. rewrite Hstored.
    rewrite (emptyString_false Hne).
    destruct (EthereumContext.injected browser); reflexivity.
  - unfold EthereumContext.reload, EthereumContext.mount. cbn.
    destruct (EthereumContext.injected browser); reflexivity.
Qed.

(** X27. A wallet that reports no account: the handler of
    [accountsChanged] leaves the session without an active account, but
    stores the string of [undefined]; a reload then loads that string as the
    active account. *)
Theorem accountsChanged_without_accounts (browser : EthereumContext.Browser)
    (s : EthereumContext.Session) :
  EthereumContext.account (EthereumContext.accountsChanged [] s) = None
  /\ EthereumContext.storedAccount (EthereumContext.accountsChanged [] s) = Some "undefined"
  /\ EthereumContext.account
       (EthereumContext.reload browser (EthereumContext.accountsChanged [] s))
     = Some "undefined"
  /\ forall a others,
       EthereumContext.account
         (EthereumContext.reload browser (EthereumContext.accountsChanged (a :: others) s))
       = if emptyString a then None else Some a.
Proof.
  split; [reflexivity|]. split; [reflexivity|]. split.
  - unfold EthereumContext.reload, EthereumContext.mount. cbn.
    destruct (EthereumContext.injected browser); reflexivity.
  - intros a others. unfold EthereumContext.reload, EthereumContext.mount. cbn.
    destruct (emptyString a); destruct (EthereumContext.injected browser); reflexivity.
Qed.

(** X28. What a sign-in throws and what it swallows.  [signInWithEthereum]
    throws only the failure of [getNetwork] or of the preparation of the
    message.  When the signer, the signing or the call to the profile
    contract throws, it returns normally with the session exactly as it was
    -- a verified session stays verified -- whereas a check that completes
    with any answer other than the magic value sets the session to not
    verified. *)
Theorem signIn_swallows_a_failed_check (browser : EthereumContext.Browser)
    (s : EthereumContext.Session) (a : string) (p : BrowserProvider) (chainId : N)
    (message : string) :
  EthereumContext.account s = Some a ->
  a <> "" ->
  EthereumContext.provider s = Some p ->
  EthereumContext.getNetwork browser p = Ok chainId ->
  EthereumContext.prepareMessage browser a chainId = Ok message ->
  (forall e, EthereumContext.checkSignature browser p a message = Throw e ->
     EthereumContext.signInWithEthereum browser s = (Ok tt, s))
  /\ (forall signature answer,
        getSigner p = Ok tt ->
        EthereumContext.signMessage browser p message = Ok signature ->
        EthereumContext.isValidSignature browser a
          (EthereumContext.hashMessage browser message) signature = Ok answer ->
        answer <> EthereumContext.magicValue ->
        EthereumContext.signInWithEthereum browser s
        = (Ok tt, EthereumContext.setVerified false s)).
Proof.
  intros Ha Hne Hp Hnet Hmsg. unfold EthereumContext.signInWithEthereum.
  rewrite Ha, Hp, (emptyString_false Hne), Hnet, Hmsg. split.
  - intros e ->. reflexivity.
  - intros signature answer Hs Hsig Hvalid Hwrong.
    unfold EthereumContext.checkSignature. rewrite Hs, Hsig, Hvalid.
    apply String.eqb_neq in Hwrong. rewrite Hwrong. reflexivity.
Qed.

(** ** Two more facts on registration and on the profile reader *)

(** X29. A registration is written only on top of answered uploads:
    whenever [registerUser] has submitted its transaction, the payload of
    the role was present, the document upload (for a provider) had
    answered, and the upload of the metadata object built from them had
    answered with the non-empty content identifier that the transaction
    carries; in every other run it throws with the ledger as it was and no
    transaction submitted. *)
Theorem registerUser_writes_on_answered_uploads (env : Env) (role : Role)
    (studentData : option StudentData) (providerData : option ProviderData)
    (st st' : State) (r : Result unit) :
  registerUser env role studentData providerData st = (r, st') ->
  ((exists e, r = Throw e)
   /\ ledger st' = ledger st
   /\ filter isSend (trace st') = filter isSend (trace st))
  \/ (exists metadata c,
        builtFrom env role studentData providerData metadata
        /\ uploadJSONToIPFS env metadata = Ok {| cid := Some c |}
        /\ c <> ""
        /\ filter isSend (trace st')
           = (filter isSend (trace st) ++ [EvSend (registerUserTx (roleString role) c)])%list).
Proof. apply registerUser_outcome. Qed.

(** X30. [fetchStudentProfile] falls back on a status, not on a transport
    error: for a registered pointer, when the GET to Pinata itself throws,
    it returns [null] after that single GET and ipfs.io is not asked. *)
Theorem fetchStudentProfile_gives_up_on_transport_error (env : Env) (p : BrowserProvider)
    (address role hash : string) (e : JsError) (st : State) :
  provider env = Some p ->
  userRegistryAddress env <> "" ->
  getUser (ledger st) address = Ok (role, hash) ->
  hash <> "" ->
  fetch env (pinata hash) = Throw e ->
  fetchStudentProfile env address st = (Ok JNull, after st [EvFetch (pinata hash)]).
Proof. apply fetchStudentProfile_transport_error. Qed.


End Further.

(** * The sample world *)

Import Sample.
#[local] Existing Instance fold.

(** The active account 0xAA is not the owner 0x0WNER: authorizing 0xCC is
    refused and 0xCC stays unauthorized. *)
Lemma setAuthorization_requires_owner_witness :
  account env0 = Some "0xAA" /\ owner (ledger st0) = Ok "0x0WNER"
  /\ fst (authorizeInstitute env0 "0xCC" st0) = Throw NotOwner
  /\ trace (snd (authorizeInstitute env0 "0xCC" st0)) = trace st0
  /\ ledger (snd (authorizeInstitute env0 "0xCC" st0)) = ledger st0
  /\ forall target,
       authorizedInstitutes (ledger (snd (authorizeInstitute env0 "0xCC" st0))) target
       = authorizedInstitutes (ledger st0) target.
Proof.
  split; [reflexivity|]. split; [reflexivity|].
  apply (@setAuthorization_requires_owner fold env0 wallet "0xAA" "0x0WNER" "0xCC" st0).
  - reflexivity.
  - reflexivity.
  - discriminate.
  - reflexivity.
  - reflexivity.
  - intros H. vm_compute in H. discriminate H.
  - left. reflexivity.
Defined.

(** Without a wallet extension the ownership check answers [false]. *)
Lemma checkIsOwner_total_witness :
  provider envNoProvider = None
  /\ checkIsOwner envNoProvider "0x0WNER" st0 = (Ok false, st0).
Proof.
  split; [reflexivity|].
  apply (proj1 (proj2 (@checkIsOwner_total fold envNoProvider "0x0WNER" st0))).
  reflexivity.
Defined.

(** The student 0xA1 requests a certificate from 0xAA: the request carries
    the student's own pointer QmAlice. *)
Lemma requestCertificateIssuance_spec_witness :
  getUser (ledger st0) "0xA1" = Ok ("student", "QmAlice")
  /\ requestCertificateIssuance envStudent "0xAA" "BSc" "please issue" st0
     = (Ok tt, {| ledger := ledger0;
                  trace := [EvSend (requestCertificateTx "0xAA" "BSc" "please issue" "QmAlice")];
                  userData := None; loading := false |}).
Proof.
  split; [reflexivity|].
  apply (proj1 (proj2 (@requestCertificateIssuance_spec fold envStudent
                         "0xAA" "BSc" "please issue" st0))
           wallet "0xA1" "student" "QmAlice" ledger0).
  - reflexivity.
  - reflexivity.
  - discriminate.
  - discriminate.
  - discriminate.
  - reflexivity.
  - reflexivity.
  - reflexivity.
  - reflexivity.
  - reflexivity.
Defined.

(** Five requests, the fetch of request 3 throws: the institute 0xAA is
    shown its pending requests among 1, 2, 4 and 5. *)
Lemma fetchProviderCertificateRequests_spec_witness :
  certificateRequests (ledger st0) 3 = unreachable
  /\ fetchProviderCertificateRequests env0 st0
     = (Ok (listPendingForInstitute (ledger st0) "0xAA" 5), st0)
  /\ map id (listPendingForInstitute (ledger st0) "0xAA" 5) = [1; 5].
Proof.
  split; [reflexivity|]. split; [|reflexivity].
  apply (proj1 (@fetchProviderCertificateRequests_spec fold env0 wallet "0xAA" 5 st0
                  eq_refl eq_refl ltac:(discriminate) eq_refl eq_refl)).
Defined.

(** Three students, only the second has the identifier S100 (written s100
    in the metadata, which only the second gateway serves). *)
Lemma getStudentByStudentId_spec_witness :
  fst (getStudentByStudentId env0 "S100" st0)
  = Ok (findStudentByExternalId env0 "S100" registry)
  /\ findStudentByExternalId env0 "S100" registry = Some ("0xB2", profile "s100").
Proof.
  split; [|reflexivity].
  apply (proj1 (@getStudentByStudentId_spec fold env0 wallet registry "S100" st0
                  eq_refl eq_refl)).
Defined.

(** Four certificates of 0xB2.  Pinata cannot be reached for the metadata
    of the first, which ipfs.io serves; Pinata serves the second and the
    fourth; the third is on no gateway, and its entry keeps every other
    field. *)
Lemma getCertificatesByAddress_spec_witness :
  fst (getCertificatesByAddress env0 "0xB2" st0)
  = Ok [ {| cert_id := "1"; cert_name := "PhD"; cert_institute := "Uni";
            cert_issueDate := 1700000000%N; cert_certificateType := "Diploma";
            cert_student := "0xB2"; cert_tokenURI := "ipfs://Qm123";
            cert_metadata := picture "ipfs://QmImg1" |};
         {| cert_id := "2"; cert_name := "PhD"; cert_institute := "Uni";
            cert_issueDate := 1700000000%N; cert_certificateType := "Diploma";
            cert_student := "0xB2"; cert_tokenURI := "ipfs://Qm456";
            cert_metadata := picture "ipfs://QmImg2" |};
         {| cert_id := "3"; cert_name := "PhD"; cert_institute := "Uni";
            cert_issueDate := 1700000000%N; cert_certificateType := "Diploma";
            cert_student := "0xB2"; cert_tokenURI := "ipfs://Qm789";
            cert_metadata := JNull |};
         {| cert_id := "4"; cert_name := "PhD"; cert_institute := "Uni";
            cert_issueDate := 1700000000%N; cert_certificateType := "Diploma";
            cert_student := "0xB2"; cert_tokenURI := "ipfs://Qm999";
            cert_metadata := picture "ipfs://QmImg4" |} ].
Proof.
  destruct (@getCertificatesByAddress_spec env0 wallet "0xB2" [1%N; 2%N; 3%N; 4%N] st0)
    as [certs [H1 [_ [HF _]]]].
  - reflexivity.
  - discriminate.
  - reflexivity.
  - intros tokenId _. exists details, (uriOf tokenId). split; reflexivity.
  - rewrite H1. f_equal.
    repeat match goal with
           | H : Forall2 _ _ _ |- _ => inversion H; subst; clear H
           end.
    repeat match goal with
           | H : exists _, _ |- _ => destruct H
           | H : _ /\ _ |- _ => destruct H
           end.
    repeat match goal with
           | H : getCertificateDetails _ _ = Ok _ |- _ => injection H as <-
           | H : tokenURI _ _ = Ok _ |- _ => injection H as <-
           end.
    repeat match goal with
           | c : Certificate |- _ => destruct c
           end.
    cbn in *. subst. reflexivity.
Defined.

(** C3 on the sample world.  [fetchStudentMetadata] falls back: Pinata
    cannot be reached for Carol's profile, ipfs.io is asked and its payload
    returned.  At the same identifier [fetchStudentProfile] returns [null]
    after the one GET to Pinata, ipfs.io never asked.  And the certificate
    search asks ipfs.io alone: where [getCertificatesByAddress] resolves the
    metadata of all certificates but the third, [handleSearch] shows the
    body of the HTTP 504 answer of ipfs.io as the metadata of the second
    certificate and [null] for the fourth, Pinata never asked. *)
Theorem gateway_fallback_not_in_every_reader :
  fetch env0 (pinata "QmCarol") = offline
  /\ fetch env0 (ipfs_io "QmCarol") = body (profile "S300")
  /\ fetchStudentMetadata env0 "0xC3" "QmCarol" st0
     = (Ok (profile "S300"),
        after st0 [EvFetch (pinata "QmCarol"); EvFetch (ipfs_io "QmCarol")])
  /\ fetchStudentProfile env0 "0xC3" st0
     = (Ok JNull, after st0 [EvFetch (pinata "QmCarol")])
  /\ metadataOf (fst (getCertificatesByAddress env0 "0xB2" st0))
     = [picture "ipfs://QmImg1"; picture "ipfs://QmImg2"; JNull; picture "ipfs://QmImg4"]
  /\ (exists view,
        fst (handleSearch env0 "0xB2" emptyView st0) = Ok view
        /\ map cert_metadata (certificates view)
           = [picture "ipfs://QmImg1"; timeoutBody; JNull; JNull]
        /\ error view = ""
        /\ trace (snd (handleSearch env0 "0xB2" emptyView st0))
           = [EvFetch (ipfs_io "Qm123"); EvFetch (ipfs_io "Qm456");
              EvFetch (ipfs_io "Qm789"); EvFetch (ipfs_io "Qm999")]).
Proof.
  split; [reflexivity|]. split; [reflexivity|]. split; [reflexivity|].
  split; [reflexivity|]. split; [reflexivity|].
  eexists. split; [reflexivity|]. split; [reflexivity|]. split; reflexivity.
Qed.

(** C4 as stated fails: the authorization read of the provider 0xCC
    throws, and neither listing returns a result. *)
Lemma classification_fails_as_a_whole :
  authorizedInstitutes (ledger stFlaky) "0xCC" = unreachable
  /\ authorizedInstitutes (ledger stFlaky) "0xAA" = Ok true
  /\ (forall listing, fst (fetchAuthorizedProviders env0 stFlaky) <> Ok listing)
  /\ (forall listing, fst (fetchPendingProviders env0 stFlaky) <> Ok listing).
Proof.
  split; [reflexivity|]. split; [reflexivity|].
  split; intros listing H; vm_compute in H; discriminate H.
Qed.

(** On the sample world with the failing read of 0xCC, both listings throw. *)
Lemma provider_classification_all_or_nothing_witness :
  (exists e, fetchAuthorizedProviders env0 stFlaky = (Throw e, stFlaky))
  /\ (exists e, fetchPendingProviders env0 stFlaky = (Throw e, stFlaky)).
Proof.
  apply (proj1 (@provider_classification_all_or_nothing fold env0 wallet registry stFlaky
                  eq_refl ltac:(discriminate) eq_refl)).
  exists {| address := "0xCC"; role := "provider"; metadataHash := "QmCollege" |}.
  exists (Error "could not coalesce error").
  split; [|split; reflexivity].
  right. right. right. left. reflexivity.
Defined.

(** C6 on the sample world: the document upload answers without a content
    identifier, and the registration is written all the same, pointing to a
    metadata object that names no document. *)
Theorem registerUser_document_without_cid :
  uploadFileToIPFS envNoDocumentCid (pd_document newInstitute) = Ok {| cid := None |}
  /\ fst (registerUser envNoDocumentCid provider_role None (Some newInstitute) st0) = Ok tt
  /\ trace (snd (registerUser envNoDocumentCid provider_role None (Some newInstitute) st0))
     = [EvUploadFile "accreditation.pdf";
        EvUploadJSON (ProviderMd "Uni" "ACC-1" None);
        EvSend (registerUserTx "provider" "QmMeta")].
Proof.
  split; [reflexivity|]. split; reflexivity.
Qed.

(** C7 as stated fails: without a provider the pending requests and the
    pending providers are the empty list and the student search is [null];
    with the enumeration of identities and the request counter throwing, the
    student search is [null] and the pending requests are the empty list. *)
Lemma failure_returned_as_empty_success :
  provider envNoProvider = None
  /\ fetchProviderCertificateRequests envNoProvider st0 = (Ok [], st0)
  /\ fetchPendingProviders envNoProvider st0 = (Ok [], st0)
  /\ getStudentByStudentId envNoProvider "S100" st0 = (Ok None, st0)
  /\ getAllUsers (ledger stDown) = unreachable
  /\ requestCounter (ledger stDown) = unreachable
  /\ getStudentByStudentId env0 "S100" stDown = (Ok None, stDown)
  /\ fetchProviderCertificateRequests env0 stDown = (Ok [], stDown).
Proof.
  repeat (split; [reflexivity|]). reflexivity.
Qed.

(** Without a wallet extension both provider listings are empty. *)
Lemma failures_returned_as_empty_results_witness :
  provider envNoProvider = None
  /\ fetchPendingProviders envNoProvider st0 = (Ok [], st0)
  /\ fetchAuthorizedProviders envNoProvider st0 = (Ok [], st0).
Proof.
  split; [reflexivity|].
  apply (proj1 (proj2 (proj2 (proj2 (proj2
           (@failures_returned_as_empty_results fold envNoProvider st0)))))).
  reflexivity.
Defined.

(** * More of the code, on the sample world *)

Import Cases.

(** The institute 0xAA, no student, asks for a certificate: the request
    goes out with the pointer of its own record. *)
Lemma requestCertificateIssuance_checks_no_role_witness :
  getUser (ledger st0) "0xAA" = Ok ("Provider", "QmUni")
  /\ trace (snd (requestCertificateIssuance env0 "0xCC" "BSc" "please issue" st0))
     = [EvSend (requestCertificateTx "0xCC" "BSc" "please issue" "QmUni")].
Proof.
  split; [reflexivity|].
  destruct (@requestCertificateIssuance_checks_no_role env0 wallet "0xAA" "0xCC" "BSc"
              "please issue" st0 eq_refl eq_refl ltac:(discriminate)) as [_ H].
  destruct (H ltac:(discriminate) eq_refl) as [_ H2].
  destruct (H2 ltac:(discriminate)) as [_ H3].
  exact (H3 "Provider" "QmUni" eq_refl).
Defined.

(** The owner, connected as 0x0wner, is told so and passes the gate. *)
Lemma checkIsOwner_agrees_with_the_gate_witness :
  fst (checkIsOwner envOwner "0x0wner" st0) = Ok true
  /\ trace (snd (authorizeInstitute envOwner "0xCC" st0))
     = [EvSend (authorizeInstituteTx "0xCC")].
Proof.
  split; [reflexivity|].
  apply (proj1 (@checkIsOwner_agrees_with_the_gate fold envOwner wallet "0x0wner" "0xCC" st0
                  eq_refl eq_refl ltac:(discriminate) ltac:(discriminate) eq_refl)).
  reflexivity.
Defined.

(** Two providers on the sample registry, the credential-ledger address
    set: one is pending, one authorized. *)
Lemma provider_listings_partition_witness :
  exists authorized,
    fetchAuthorizedProviders env0 st0 = (Ok authorized, st0)
    /\ length authorized + 1 = 2.
Proof.
  destruct (@provider_listings_partition fold env0 registry
              [ {| user := {| address := "0xCC"; role := "provider";
                              metadataHash := "QmCollege" |};
                   isAuthorized := false |} ] st0 eq_refl eq_refl)
    as [authorized [H1 [H2 _]]].
  exists authorized. split; [exact H1|].
  exact (proj1 (H2 ltac:(discriminate))).
Defined.

Lemma checkInstituteAuthorization_agrees_with_listing_witness :
  checkInstituteAuthorization env0 "0xAA" st0 = (Ok true, st0).
Proof.
  apply (@checkInstituteAuthorization_agrees_with_listing fold env0 wallet
           [ {| user := {| address := "0xAA"; role := "Provider"; metadataHash := "QmUni" |};
                isAuthorized := true |} ] st0 eq_refl eq_refl eq_refl
           {| user := {| address := "0xAA"; role := "Provider"; metadataHash := "QmUni" |};
              isAuthorized := true |}).
  left. reflexivity.
Defined.

Lemma getAllRegisteredUsers_enumerates_witness :
  exists users,
    getAllRegisteredUsers env0 st0 = (Ok users, st0)
    /\ map address users = ["0xA1"; "0xAA"; "0xB2"; "0xCC"; "0xC3"].
Proof.
  destruct (proj2 (@getAllRegisteredUsers_enumerates env0 wallet
                     ["0xA1"; "0xAA"; "0xB2"; "0xCC"; "0xC3"] st0
                     eq_refl ltac:(discriminate) eq_refl))
    as [users [H1 [H2 _]]].
  - intros a _. unfold ledger, st0, stateOf, ledger0, mkLedger, getUser, lookupUser.
    destruct (find _ registry); eauto.
  - exists users. split; [exact H1 | exact H2].
Defined.

(** Alice registers as a student. *)
Lemma registerUser_success_witness :
  registerUser envStudent student_role (Some alice) None st0
  = (Ok tt, {| ledger := ledger0;
               trace := [EvUploadJSON (StudentMd "Alice" "alice@example.org" "S007");
                         EvSend (registerUserTx "student" "QmMeta")];
               userData := roleView ledger0 "0xA1"; loading := false |}).
Proof.
  apply (proj1 (@registerUser_success fold envStudent wallet "0xA1" st0
                  eq_refl eq_refl ltac:(discriminate) ltac:(discriminate) eq_refl)
           alice None "QmMeta" ledger0).
  - reflexivity.
  - discriminate.
  - reflexivity.
Defined.

Lemma two_gateway_readers_agree_witness :
  fetchProviderMetadata env0 "0xB2" st0 = fetchStudentMetadata env0 "0xB2" "QmBob" st0.
Proof.
  apply (proj1 (@two_gateway_readers_agree env0 wallet "0xB2" "0xB2" "student" "QmBob" st0
                  eq_refl eq_refl eq_refl)).
Defined.

Lemma registry_failure_thrown_or_swallowed_witness :
  fetchProviderMetadata env0 "0xB2" stUnreadable
  = (Throw (Error "could not coalesce error"), stUnreadable)
  /\ fetchStudentProfile env0 "0xB2" stUnreadable = (Ok JNull, stUnreadable).
Proof.
  destruct (proj2 (@registry_failure_thrown_or_swallowed env0 wallet "0xB2" stUnreadable
                     eq_refl) (Error "could not coalesce error") eq_refl) as [H1 H2].
  split; [exact (H1 eq_refl) | exact H2].
Defined.

(** Pinata answers HTTP 500 for Bob's profile: both readers fall back. *)
Lemma fetchStudentProfile_agrees_when_pinata_answers_witness :
  fetch env0 (pinata "QmBob") = http500
  /\ fetchStudentProfile env0 "0xB2" st0 = fetchStudentMetadata env0 "0xB2" "QmBob" st0.
Proof.
  split; [reflexivity|].
  apply (@fetchStudentProfile_agrees_when_pinata_answers env0 wallet "0xB2" "0xB2" "student"
           "QmBob" {| ok := false; json := Throw (Error "Unexpected token < in JSON") |} st0).
  - reflexivity.
  - discriminate.
  - reflexivity.
  - discriminate.
  - reflexivity.
  - discriminate.
Defined.

Lemma getCertificatesByAddress_needs_the_ledger_witness :
  getCertificatesByAddress env0 "0xA1" st0 = (Ok [], st0).
Proof.
  apply (proj1 (proj2 (@getCertificatesByAddress_needs_the_ledger env0 wallet "0xA1" st0
                         eq_refl ltac:(discriminate)))).
  reflexivity.
Defined.

Lemma search_and_context_list_alike_witness :
  exists certs shown,
    fst (getCertificatesByAddress env0 "0xB2" st0) = Ok certs
    /\ fst (handleSearch env0 "0xB2" emptyView st0) = Ok shown
    /\ map withoutMetadata (certificates shown) = map withoutMetadata certs.
Proof.
  destruct (fst (getCertificatesByAddress env0 "0xB2" st0)) as [certs|e] eqn:E;
    [|vm_compute in E; discriminate E].
  destruct (proj1 (@search_and_context_list_alike env0 wallet "0xB2" emptyView st0
                     eq_refl eq_refl eq_refl ltac:(discriminate)) certs E)
    as [shown [H1 [H2 _]]].
  exists certs, shown. split; [reflexivity|]. split; [exact H1 | exact H2].
Defined.

Lemma getStudentByStudentId_ignores_case_witness :
  getStudentByStudentId env0 "S100" st0 = getStudentByStudentId env0 "s100" st0.
Proof.
  apply (@getStudentByStudentId_ignores_case fold env0 "S100" "s100" st0). reflexivity.
Defined.

(** Alice, then Bob who matches: Carol's metadata is never fetched. *)
Lemma getStudentByStudentId_stops_at_first_match_witness :
  trace (snd (getStudentByStudentId env0 "S100" st0))
  = [EvFetch (pinata "QmAlice"); EvFetch (pinata "QmBob"); EvFetch (ipfs_io "QmBob")].
Proof.
  rewrite (@getStudentByStudentId_stops_at_first_match fold env0 wallet registry "S100" st0
             eq_refl eq_refl).
  reflexivity.
Defined.

Lemma provider_is_never_lost_witness :
  EthereumContext.provider
    (EthereumContext.run browser0
       [EthereumContext.ChainChanged; EthereumContext.Disconnect; EthereumContext.Connect;
        EthereumContext.SignIn] session0) <> None.
Proof.
  apply (@provider_is_never_lost browser0). discriminate.
Defined.

Lemma disconnect_keeps_the_stored_account_witness :
  EthereumContext.account (EthereumContext.disconnect session0) = None
  /\ EthereumContext.account
       (EthereumContext.reload browser0 (EthereumContext.disconnect session0)) = Some "0xAA".
Proof.
  destruct (@disconnect_keeps_the_stored_account browser0 session0 "0xAA" eq_refl
              ltac:(discriminate)) as [_ [H1 [H2 _]]].
  split; [exact H1 | exact H2].
Defined.

(** The user declines to sign: the session stays as it was, verified. *)
Lemma signIn_swallows_a_failed_check_witness :
  EthereumContext.signInWithEthereum browser0 session0 = (Ok tt, session0)
  /\ EthereumContext.verified session0 = true.
Proof.
  split; [|reflexivity].
  apply (proj1 (@signIn_swallows_a_failed_check browser0 session0 "0xAA" wallet 42%N
                  "Sign in as 0xAA" eq_refl ltac:(discriminate) eq_refl eq_refl eq_refl)
           (Error "user rejected signing")).
  reflexivity.
Defined.

(** The registration of the sample institute without a document identifier
    is one of the runs that wrote: its metadata upload had answered. *)
Lemma registerUser_writes_on_answered_uploads_witness :
  ((exists e, fst (registerUser envNoDocumentCid provider_role None (Some newInstitute) st0)
              = Throw e)
   /\ ledger (snd (registerUser envNoDocumentCid provider_role None (Some newInstitute) st0))
      = ledger st0
   /\ filter isSend
        (trace (snd (registerUser envNoDocumentCid provider_role None (Some newInstitute) st0)))
      = filter isSend (trace st0))
  \/ (exists metadata c,
        builtFrom envNoDocumentCid provider_role None (Some newInstitute) metadata
        /\ uploadJSONToIPFS envNoDocumentCid metadata = Ok {| cid := Some c |}
        /\ c <> ""
        /\ filter isSend
             (trace (snd (registerUser envNoDocumentCid provider_role None
                            (Some newInstitute) st0)))
           = (filter isSend (trace st0) ++ [EvSend (registerUserTx "provider" c)])%list).
Proof.
  apply (@registerUser_writes_on_answered_uploads fold envNoDocumentCid provider_role None
           (Some newInstitute) st0).
  apply surjective_pairing.
Defined.

Lemma fetchStudentProfile_gives_up_on_transport_error_witness :
  fetch env0 (pinata "QmCarol") = offline
  /\ fetchStudentProfile env0 "0xC3" st0 = (Ok JNull, after st0 [EvFetch (pinata "QmCarol")]).
Proof.
  split; [reflexivity|].
  apply (@fetchStudentProfile_gives_up_on_transport_error env0 wallet "0xC3" "student"
           "QmCarol" (Error "Failed to fetch") st0).
  - reflexivity.
  - discriminate.
  - reflexivity.
  - discriminate.
  - reflexivity.
Defined.
